(** * robotcode: the namespace of a Robot Framework file

    A shallow embedding of
    [robotcode/language_server/robotframework/diagnostics/entities.py] and
    [robotcode/language_server/robotframework/diagnostics/namespace.py]:
    the variable matcher, the import resolution of a namespace
    ([ensure_initialized], [_import_imports], [_import_default_libraries]),
    the variable merge ([get_variables], [find_variable]), the analysis
    pass ([_analyze], [get_diagnostisc]), [invalidate] and the keyword finder.

    Python objects are records, [Optional] values are [option], an
    [OrderedDict] is an association list in insertion order, mutation of
    [self] is explicit state passing, exceptions are values of [PyExc]. *)

From Stdlib Require Import String Ascii List ZArith Bool Lia Permutation Arith.
Import ListNotations.
Open Scope string_scope.
Open Scope list_scope.

(* ===================================================================== *)
(** ** Python values used by the source *)
(* ===================================================================== *)

Module Py.

(** The double quote character (code 34). *)
Definition dq : string := String (ascii_of_nat 34) EmptyString.

(** [bool(x)] for [x : Optional[str]]: [None] and the empty string are falsy. *)
Definition truthy (o : option string) : bool :=
  match o with
  | Some s => negb (s =? "")
  | None => false
  end.

(** [a or b] where [a : Optional[str]] and [b : str]. *)
Definition or_else (a : option string) (b : string) : string :=
  match a with
  | Some s => if s =? "" then b else s
  | None => b
  end.

(** [a or b] where both are [Optional[str]]. *)
Definition or_opt (a b : option string) : option string :=
  if truthy a then a else b.

Definition option_eqb {A} (eqb : A -> A -> bool) (a b : option A) : bool :=
  match a, b with
  | Some x, Some y => eqb x y
  | None, None => true
  | _, _ => false
  end.

Fixpoint list_eqb {A} (eqb : A -> A -> bool) (l1 l2 : list A) : bool :=
  match l1, l2 with
  | [], [] => true
  | x :: l1', y :: l2' => eqb x y && list_eqb eqb l1' l2'
  | _, _ => false
  end.

(** A Python [str] is modelled as a [string] whose characters are the code
    points below 256 (Latin-1); strings with higher code points are outside
    the model. *)

(** [c.isspace()]: the characters [str.split()] splits on. Below 256 these
    are U+0009 to U+000D, U+001C to U+0020, U+0085 and U+00A0. *)
Definition is_space (c : ascii) : bool :=
  let n := nat_of_ascii c in
  (n =? 32)%nat || ((9 <=? n)%nat && (n <=? 13)%nat) || ((28 <=? n)%nat && (n <=? 31)%nat)
  || (n =? 133)%nat || (n =? 160)%nat.

(** [str.lower()]: below 256 the upper-case letters are A to Z and U+00C0
    to U+00DE without the multiplication sign U+00D7; each is 32 below its
    lower-case letter. *)
Definition lower_char (c : ascii) : ascii :=
  let n := nat_of_ascii c in
  if (((65 <=? n)%nat && (n <=? 90)%nat)
      || ((192 <=? n)%nat && (n <=? 222)%nat && negb (n =? 215)%nat))%bool
  then ascii_of_nat (n + 32) else c.

Fixpoint lower (s : string) : string :=
  match s with
  | EmptyString => EmptyString
  | String c s' => String (lower_char c) (lower s')
  end.

Fixpoint filter_chars (keep : ascii -> bool) (s : string) : string :=
  match s with
  | EmptyString => EmptyString
  | String c s' => if keep c then String c (filter_chars keep s') else filter_chars keep s'
  end.

Fixpoint contains_char (c : ascii) (s : string) : bool :=
  match s with
  | EmptyString => false
  | String c' s' => (c =? c')%char || contains_char c s'
  end.

(** [s.startswith(p)] *)
Definition startswith (s p : string) : bool := String.prefix p s.

(** [s[n:]] *)
Fixpoint drop (n : nat) (s : string) : string :=
  match n, s with
  | O, _ => s
  | S n', EmptyString => EmptyString
  | S n', String _ s' => drop n' s'
  end.

(** [sub in s] for strings. *)
Fixpoint contains (sub s : string) : bool :=
  String.prefix sub s ||
  match s with
  | EmptyString => false
  | String _ s' => contains sub s'
  end.

(** [s.split(c)] for a one-character separator: never empty. *)
Fixpoint split_on (c : ascii) (s : string) : list string :=
  match s with
  | EmptyString => [EmptyString]
  | String c' s' =>
      if (c =? c')%char then EmptyString :: split_on c s'
      else match split_on c s' with
           | [] => [String c' EmptyString]
           | t :: ts => String c' t :: ts
           end
  end.

(** [sep.join(l)] *)
Definition join (sep : string) (l : list string) : string := String.concat sep l.

(** [sorted(l)] for a list of strings (insertion sort on code points; Python's
    sort is stable and [<=] keeps equal elements in order). *)
Fixpoint insert_sorted (s : string) (l : list string) : list string :=
  match l with
  | [] => [s]
  | t :: l' => if String.ltb s t then s :: l else t :: insert_sorted s l'
  end.

Definition sorted (l : list string) : list string :=
  fold_left (fun acc s => insert_sorted s acc) l [].

(** [repr(s)]: single quotes unless the string holds a single quote and no
    double quote; the quote in use and the backslash are escaped, tab, line
    feed and carriage return are written [\t], [\n], [\r], and every other
    character that is not printable (below U+0020, U+007F to U+00A0, U+00AD)
    is written [\xNN] with two lower-case hexadecimal digits. *)
Definition sq_char : ascii := ascii_of_nat 39.
Definition dq_char : ascii := ascii_of_nat 34.
Definition bs_char : ascii := ascii_of_nat 92.

Definition hex_digit (n : nat) : ascii :=
  if (n <? 10)%nat then ascii_of_nat (48 + n) else ascii_of_nat (87 + n).

Definition is_printable (c : ascii) : bool :=
  let n := nat_of_ascii c in
  negb ((n <? 32)%nat || ((127 <=? n)%nat && (n <=? 160)%nat) || (n =? 173)%nat).

Definition repr_char (quote : ascii) (c : ascii) : string :=
  let n := nat_of_ascii c in
  if ((c =? quote)%char || (c =? bs_char)%char)%bool then String bs_char (String c EmptyString)
  else if (n =? 9)%nat then String bs_char (String "t"%char EmptyString)
  else if (n =? 10)%nat then String bs_char (String "n"%char EmptyString)
  else if (n =? 13)%nat then String bs_char (String "r"%char EmptyString)
  else if is_printable c then String c EmptyString
  else String bs_char
         (String "x"%char
            (String (hex_digit (n / 16)) (String (hex_digit (n mod 16)) EmptyString))).

Fixpoint repr_body (quote : ascii) (s : string) : string :=
  match s with
  | EmptyString => EmptyString
  | String c s' => (repr_char quote c ++ repr_body quote s')%string
  end.

Definition repr (s : string) : string :=
  let quote :=
    if (contains_char sq_char s && negb (contains_char dq_char s))%bool
    then dq_char else sq_char in
  String quote (repr_body quote s ++ String quote EmptyString)%string.

(** [str(t)] for a tuple of strings: [()], [('a',)], [('a', 'b')]. *)
Definition str_tuple (t : list string) : string :=
  match t with
  | [] => "()"
  | [x] => ("(" ++ repr x ++ ",)")%string
  | _ => ("(" ++ join ", " (map repr t) ++ ")")%string
  end.

(** *** OrderedDict with string keys: an association list in insertion order *)

Definition OrderedDict (V : Type) : Type := list (string * V).

Fixpoint od_get {V} (d : OrderedDict V) (k : string) : option V :=
  match d with
  | [] => None
  | (k', v) :: d' => if k' =? k then Some v else od_get d' k
  end.

(** [k in d] *)
Definition od_mem {V} (d : OrderedDict V) (k : string) : bool :=
  match od_get d k with Some _ => true | None => false end.

(** [d[k] = v]: an existing key keeps its position, a new key goes last. *)
Fixpoint od_set {V} (d : OrderedDict V) (k : string) (v : V) : OrderedDict V :=
  match d with
  | [] => [(k, v)]
  | (k', v') :: d' => if k' =? k then (k', v) :: d' else (k', v') :: od_set d' k v
  end.

Definition od_keys {V} (d : OrderedDict V) : list string := map fst d.
Definition od_values {V} (d : OrderedDict V) : list V := map snd d.

(** *** Exceptions *)

(** Which of the handler classes of the source an exception is an instance
    of: [asyncio.CancelledError], [SystemExit], [KeyboardInterrupt], or any
    other [BaseException]. *)
Inductive ExcClass := CancelledErrorC | SystemExitC | KeyboardInterruptC | OtherC.

Record PyExc := mkExc {
  exc_class : ExcClass;
  exc_qualname : string;   (* type(e).__qualname__ *)
  exc_str : string         (* str(e) *)
}.

(** [isinstance(e, (asyncio.CancelledError, SystemExit, KeyboardInterrupt))] *)
Definition is_fatal (e : PyExc) : bool :=
  match exc_class e with
  | OtherC => false
  | _ => true
  end.

Definition CancelledError : PyExc := mkExc CancelledErrorC "CancelledError" "".
Definition RecursionError : PyExc :=
  mkExc OtherC "RecursionError" "maximum recursion depth exceeded".
Definition AssertionError : PyExc := mkExc OtherC "AssertionError" "".

(** The result of a call that may raise. *)
Inductive Result (A : Type) :=
| Ok (a : A)
| Raise (e : PyExc).
Arguments Ok {A} a.
Arguments Raise {A} e.

End Py.
Import Py.

(* ===================================================================== *)
(** ** Robot Framework library functions called by the source *)
(* ===================================================================== *)

Module Robot.

(** [robot.utils.normalize(string, ignore)] with its defaults
    [caseless=True, spaceless=True], on strings of code points below 256:
    white space is removed, the string is lower-cased, every character of
    [ignore] is removed. *)
Definition normalize (s : string) (ignore : string) : string :=
  let spaceless := filter_chars (fun c => negb (is_space c)) s in
  let caseless := lower spaceless in
  filter_chars (fun c => negb (contains_char c (lower ignore))) caseless.

(** [robot.utils.match.eq(str1, str2)] *)
Definition eq (s1 s2 : string) : bool := normalize s1 "" =? normalize s2 "".

(** [robot.libraries.STDLIBS] *)
Definition STDLIBS : list string :=
  ["BuiltIn"; "Collections"; "DateTime"; "Dialogs"; "Easter"; "OperatingSystem";
   "Process"; "Remote"; "Reserved"; "Screenshot"; "String"; "Telnet"; "XML"].

(** [VariableSearcher(identifiers, ignore_errors=True).search(s)]: the
    variable starts at the first [{] preceded by an identifier character
    that is not escaped by an odd run of backslashes. [find_start] returns
    the identifier and the text after the opening brace. *)
Fixpoint find_start (identifiers : string) (esc_prev : bool) (prev : option ascii)
    (esc_cur : bool) (s : string) : option (ascii * string) :=
  match s with
  | EmptyString => None
  | String c s' =>
      let continue :=
        find_start identifiers esc_cur (Some c)
          (if (c =? bs_char)%char then negb esc_cur else false) s' in
      if (c =? "{")%char then
        match prev with
        | Some p =>
            if (contains_char p identifiers && negb esc_prev)%bool
            then Some (p, s') else continue
        | None => continue
        end
      else continue
  end.

(** [variable_state]: the characters up to the closing brace that matches
    and the text after it, [None] when the variable is not closed. *)
Fixpoint variable_state (open_brackets : nat) (escaped : bool) (s : string)
    : option (string * string) :=
  let cons c r := match r with Some (b, rest) => Some (String c b, rest) | None => None end in
  match s with
  | EmptyString => None
  | String c s' =>
      let escaped' := if (c =? bs_char)%char then negb escaped else false in
      if ((c =? "}")%char && negb escaped)%bool then
        match open_brackets with
        | 0%nat | 1%nat => Some (EmptyString, s')
        | S n => cons c (variable_state n escaped' s')
        end
      else if ((c =? "{")%char && negb escaped)%bool then
        cons c (variable_state (S open_brackets) escaped' s')
      else cons c (variable_state open_brackets escaped' s')
  end.

(** [item_state]: inside an item access [[...]] after the variable; the
    search fails when the text ends there. [more] tells whether another
    item may follow (only for the identifier [$]). The result tells whether
    the end state is valid. *)
Fixpoint item_state (more : bool) (open_brackets : nat) (escaped : bool) (s : string)
    : bool :=
  match s with
  | EmptyString => false
  | String c s' =>
      let escaped' := if (c =? bs_char)%char then negb escaped else false in
      if ((c =? "]")%char && negb escaped)%bool then
        match open_brackets with
        | 0%nat | 1%nat =>
            if more
            then match s' with
                 | String "["%char s'' => item_state more 1 false s''
                 | _ => true
                 end
            else true
        | S n => item_state more n escaped' s'
        end
      else if ((c =? "[")%char && negb escaped)%bool then
        item_state more (S open_brackets) escaped' s'
      else item_state more open_brackets escaped' s'
  end.

(** [waiting_item_state]: after the closing brace of a variable that can
    have items (identifier [$], [@] or [&]). *)
Definition waiting_item_state (id : ascii) (s : string) : bool :=
  match s with
  | String "["%char s' => item_state (id =? "$")%char 1 false s'
  | _ => true
  end.

(** [match.identifier] and [match.base]; with [ignore_errors] a variable or
    an item that is not closed gives no match. *)
Definition search (identifiers : string) (s : string) : option (ascii * string) :=
  match find_start identifiers false None false s with
  | Some (id, rest) =>
      match variable_state 1 false rest with
      | Some (base, after) =>
          if contains_char id "$@&"
          then (if waiting_item_state id after then Some (id, base) else None)
          else Some (id, base)
      | None => None
      end
  | None => None
  end.

Definition search_base (identifiers : string) (s : string) : option string :=
  option_map snd (search identifiers s).

End Robot.

(* ===================================================================== *)
(** ** common/lsp_types *)
(* ===================================================================== *)

Record Position := mkPosition { line : Z; character : Z }.

Record Range := mkRange { range_start : Position; range_end : Position }.

Definition Range_zero : Range := mkRange (mkPosition 0 0) (mkPosition 0 0).

Inductive DiagnosticSeverity := ERROR | WARNING | INFORMATION | HINT.

Record Location := mkLocation { uri : string; loc_range : Range }.

Record DiagnosticRelatedInformation := mkRelated {
  location : Location;
  related_message : string
}.

Record Diagnostic := mkDiagnostic {
  d_range : Range;
  d_message : string;
  d_severity : DiagnosticSeverity;
  d_source : string;
  d_code : option string;
  d_related_information : option (list DiagnosticRelatedInformation)
}.

(* ===================================================================== *)
(** ** diagnostics/entities.py *)
(* ===================================================================== *)

Record Token := mkToken {
  lineno : Z;
  tok_col_offset : Z;
  tok_end_col_offset : Z;
  value : string
}.

Record SourceEntity := mkSourceEntity {
  line_no : Z;
  col_offset : Z;
  end_line_no : Z;
  end_col_offset : Z;
  source : string
}.

(** [Import] and its three dataclass subclasses; [PlainImport] is an
    instance of the base class itself. *)
Inductive Import :=
| LibraryImport (se : SourceEntity) (name : option string) (name_token : option Token)
    (args : list string) (alias : option string)
| ResourceImport (se : SourceEntity) (name : option string) (name_token : option Token)
| VariablesImport (se : SourceEntity) (name : option string) (name_token : option Token)
    (args : list string)
| PlainImport (se : SourceEntity) (name : option string) (name_token : option Token).

Definition import_entity (i : Import) : SourceEntity :=
  match i with
  | LibraryImport se _ _ _ _ | ResourceImport se _ _
  | VariablesImport se _ _ _ | PlainImport se _ _ => se
  end.

Definition import_name_token (i : Import) : option Token :=
  match i with
  | LibraryImport _ _ t _ _ | ResourceImport _ _ t
  | VariablesImport _ _ t _ | PlainImport _ _ t => t
  end.

(** [Import.range] *)
Definition Import_range (i : Import) : Range :=
  let se := import_entity i in
  match import_name_token i with
  | Some t =>
      mkRange (mkPosition (lineno t - 1) (tok_col_offset t))
              (mkPosition (lineno t - 1) (tok_end_col_offset t))
  | None =>
      mkRange (mkPosition (line_no se - 1) (col_offset se))
              (mkPosition (end_line_no se - 1) (end_col_offset se))
  end.

Definition InvalidVariableError (name : string) : PyExc :=
  mkExc OtherC "InvalidVariableError" ("Invalid variable '" ++ name ++ "'")%string.

(** [str_hash] is Python's [hash] on [str]. *)
Section VariableMatcher.

Variable str_hash : string -> Z.

Record VariableMatcher := mkVariableMatcher {
  vm_name : string;
  vm_base : string;
  normalized_name : string
}.

(** [VariableMatcher.__init__] *)
Definition VariableMatcher__init__ (name : string) : Result VariableMatcher :=
  match Robot.search_base "$@&%" name with
  | None => Raise (InvalidVariableError name)
  | Some base => Ok (mkVariableMatcher name base (Robot.normalize base "_"))
  end.

(** [VariableMatcher.__eq__] against another matcher *)
Definition VariableMatcher__eq__ (self o : VariableMatcher) : bool :=
  normalized_name o =? normalized_name self.

(** [VariableMatcher.__hash__] *)
Definition VariableMatcher__hash__ (self : VariableMatcher) : Z :=
  str_hash (vm_name self).

(** A [dict] keyed by matchers, in insertion order. A stored key matches a
    probe when the hashes are equal and [__eq__] holds (both tests are pure;
    the conjunction is written with [__eq__] first). *)
Definition MatcherDict (V : Type) : Type := list (VariableMatcher * V).

Definition key_matches (stored probe : VariableMatcher) : bool :=
  VariableMatcher__eq__ stored probe
  && (VariableMatcher__hash__ stored =? VariableMatcher__hash__ probe)%Z.

(** [d.get(k, None)] *)
Fixpoint md_get {V} (d : MatcherDict V) (k : VariableMatcher) : option V :=
  match d with
  | [] => None
  | (k', v) :: d' => if key_matches k' k then Some v else md_get d' k
  end.

(** [k in d.keys()] *)
Definition md_mem {V} (d : MatcherDict V) (k : VariableMatcher) : bool :=
  match md_get d k with Some _ => true | None => false end.

(** [d[k] = v] *)
Fixpoint md_set {V} (d : MatcherDict V) (k : VariableMatcher) (v : V) : MatcherDict V :=
  match d with
  | [] => [(k, v)]
  | (k', v') :: d' => if key_matches k' k then (k', v) :: d' else (k', v') :: md_set d' k v
  end.

End VariableMatcher.

Inductive VariableDefinitionType :=
| VARIABLE | LOCAL_VARIABLE | ARGUMENT | COMMAND_LINE_VARIABLE | BUILTIN_VARIABLE
| IMPORTED_VARIABLE | ENVIRONMENT_VARIABLE | VARIABLE_NOT_FOUND.

Record VariableDefinition := mkVariableDefinition {
  var_entity : SourceEntity;
  var_name : option string;
  var_name_token : option Token;
  var_type : VariableDefinitionType;
  has_value : bool;
  resolvable : bool
}.

(** [BuiltInVariableDefinition(0, 0, 0, 0, "", n, None)] *)
Definition BuiltInVariableDefinition (n : string) : VariableDefinition :=
  mkVariableDefinition (mkSourceEntity 0 0 0 0 "") (Some n) None BUILTIN_VARIABLE false true.

(** [CommandLineVariableDefinition(0, 0, 0, 0, "", n, None)] *)
Definition CommandLineVariableDefinition (n : string) : VariableDefinition :=
  mkVariableDefinition (mkSourceEntity 0 0 0 0 "") (Some n) None COMMAND_LINE_VARIABLE false true.

(* ===================================================================== *)
(** ** diagnostics/library_doc.py (the declarations the namespace uses) *)
(* ===================================================================== *)

(** Modelled from the spec: [library_doc.py] is not among the sources; the
    records below carry the fields that [namespace.py] reads. Keyword names
    are compared by Robot's [eq] ignoring case, spaces and underscores, and a
    [LibraryDoc] holds an ordered collection of keywords looked up by
    canonical name. *)
Record KeywordDoc := mkKeywordDoc {
  kw_name : string;
  kw_libname : string;
  kw_source : option string;
  kw_line_no : Z
}.

Record Error := mkError {
  err_message : string;
  err_type_name : string;
  err_source : option string;
  err_line_no : option Z
}.

(** Modelled from the spec: [KeywordMatcher(a) == b]. *)
Definition KeywordMatcher_eq (a b : string) : bool :=
  Robot.normalize a "_" =? Robot.normalize b "_".

Definition KeywordStore : Type := list KeywordDoc.

(** Modelled from the spec: [keywords.get(name, None)], the first keyword
    whose canonical name matches. *)
Fixpoint keywords_get (ks : KeywordStore) (name : string) : option KeywordDoc :=
  match ks with
  | [] => None
  | k :: ks' => if KeywordMatcher_eq (kw_name k) name then Some k else keywords_get ks' name
  end.

(** [name in keywords] *)
Definition keywords_contains (ks : KeywordStore) (name : string) : bool :=
  match keywords_get ks name with Some _ => true | None => false end.

Record LibraryDoc := mkLibraryDoc {
  ld_name : string;
  ld_source : option string;
  keywords : KeywordStore;
  errors : option (list Error);
  has_listener : option bool;
  ld_variables : list VariableDefinition;
  ld_line_no : Z
}.

(** Modelled from the spec: the built-in library is named [BuiltIn]. *)
Definition BUILTIN_LIBRARY_NAME : string := "BuiltIn".

(* ===================================================================== *)
(** ** diagnostics/namespace.py: entries and the syntax tree *)
(* ===================================================================== *)

Definition DIAGNOSTICS_SOURCE_NAME : string := "robotcode.namespace".

Definition NameSpaceError (msg : string) : PyExc := mkExc OtherC "NameSpaceError" msg.
Definition DiagnosticsError (msg : string) : PyExc := mkExc OtherC "DiagnosticsError" msg.

(** The class of an entry: [LibraryEntry] itself or one of its subclasses. *)
Inductive EntryClass := LibraryEntryC | ResourceEntryC | VariablesEntryC.

Record LibraryEntry := mkLibraryEntry {
  entry_class : EntryClass;
  name : string;
  import_name : string;
  library_doc : LibraryDoc;
  args : list string;
  alias : option string;
  import_range : Range;
  import_source : string;
  imports : list Import;                 (* ResourceEntry *)
  variables : list VariableDefinition    (* ResourceEntry, VariablesEntry *)
}.

(** [type(entry).__name__] *)
Definition EntryClass__name__ (c : EntryClass) : string :=
  match c with
  | LibraryEntryC => "LibraryEntry"
  | ResourceEntryC => "ResourceEntry"
  | VariablesEntryC => "VariablesEntry"
  end.

(** [LibraryEntry.__str__] *)
Definition LibraryEntry__str__ (self : LibraryEntry) : string :=
  let result := import_name self in
  let result := match args self with
                | [] => result
                | _ => (result ++ "  " ++ str_tuple (args self))%string
                end in
  if truthy (alias self)
  then (result ++ "  WITH NAME  " ++ or_else (alias self) "")%string
  else result.

(** [entry.alias or entry.name or entry.import_name], the key of an entry. *)
Definition entry_key (e : LibraryEntry) : string :=
  or_else (alias e) (or_else (Some (name e)) (import_name e)).

(** [with_import] is the pair of assignments [result.import_range = ...;
    result.import_source = ...]. *)
Definition with_import (e : LibraryEntry) (r : Range) (src : string) : LibraryEntry :=
  mkLibraryEntry (entry_class e) (name e) (import_name e) (library_doc e) (args e)
    (alias e) r src (imports e) (variables e).

(** The part of Robot's syntax tree that the visitors of the namespace
    look at: a file is a list of sections, a section a list of statements. *)
Record ImportNode := mkImportNode {
  n_name : option string;
  n_name_token : option Token;               (* get_token(NAME) *)
  n_args : list string;
  n_alias : option string;
  n_lineno : Z;
  n_col_offset : Z;
  n_end_lineno : option Z;
  n_end_col_offset : option Z
}.

Record VariableNode := mkVariableNode {
  vn_name : string;
  vn_token : option Token                    (* get_token(VARIABLE) *)
}.

Inductive Statement :=
| StLibraryImport (n : ImportNode)
| StResourceImport (n : ImportNode)
| StVariablesImport (n : ImportNode)
| StVariable (n : VariableNode)
| StOther.

Inductive FileSection :=
| SettingSection (body : list Statement)
| VariableSection (body : list Statement)
| OtherSection (body : list Statement).

Definition Model : Type := list FileSection.

Definition node_entity (src : string) (n : ImportNode) : SourceEntity :=
  mkSourceEntity (n_lineno n) (n_col_offset n)
    (match n_end_lineno n with Some l => l | None => -1 end)
    (match n_end_col_offset n with Some c => c | None => -1 end)
    src.

(** [ImportVisitor]: only the setting sections are visited. *)
Definition ImportVisitor_visit_statement (src : string) (s : Statement) : list Import :=
  match s with
  | StLibraryImport n =>
      [LibraryImport (node_entity src n) (n_name n) (n_name_token n) (n_args n) (n_alias n)]
  | StResourceImport n =>
      [ResourceImport (node_entity src n) (n_name n) (n_name_token n)]
  | StVariablesImport n =>
      [VariablesImport (node_entity src n) (n_name n) (n_name_token n) (n_args n)]
  | _ => []
  end.

Definition ImportVisitor_visit_Section (src : string) (s : FileSection) : list Import :=
  match s with
  | SettingSection body => flat_map (ImportVisitor_visit_statement src) body
  | _ => []
  end.

Definition ImportVisitor_get (src : string) (m : Model) : list Import :=
  flat_map (ImportVisitor_visit_Section src) m.

(** [VariablesVisitor]: only the variable sections are visited. *)
Definition VariablesVisitor_visit_statement (src : string) (s : Statement)
    : list VariableDefinition :=
  match s with
  | StVariable n =>
      match vn_token n with
      | Some t =>
          [mkVariableDefinition
             (mkSourceEntity (lineno t) (tok_col_offset t) (lineno t) (tok_end_col_offset t) src)
             (Some (vn_name n)) (Some t) VARIABLE false false]
      | None => []
      end
  | _ => []
  end.

Definition VariablesVisitor_visit_Section (src : string) (s : FileSection)
    : list VariableDefinition :=
  match s with
  | VariableSection body => flat_map (VariablesVisitor_visit_statement src) body
  | _ => []
  end.

Definition VariablesVisitor_get (src : string) (m : Model) : list VariableDefinition :=
  flat_map (VariablesVisitor_visit_Section src) m.

Definition Token_eq_dec (a b : Token) : {a = b} + {a <> b}.
Proof. decide equality; try apply string_dec; apply Z.eq_dec. Defined.

Definition SourceEntity_eq_dec (a b : SourceEntity) : {a = b} + {a <> b}.
Proof. decide equality; try apply string_dec; apply Z.eq_dec. Defined.

(** Dataclass equality of imports: same class and equal fields. *)
Definition Import_eq_dec (a b : Import) : {a = b} + {a <> b}.
Proof.
  decide equality;
    try apply SourceEntity_eq_dec;
    try (apply list_eq_dec; apply string_dec);
    decide equality; try apply string_dec; apply Token_eq_dec.
Defined.

Definition Import_eqb (a b : Import) : bool :=
  if Import_eq_dec a b then true else false.

(** [old_imports == imports] *)
Definition imports_eqb (a b : list Import) : bool :=
  if list_eq_dec Import_eq_dec a b then true else false.

(** The diagnostics a [KeywordFinder] collects. *)
Record DiagnosticsEntry := mkDiagnosticsEntry {
  de_message : string;
  de_severity : DiagnosticSeverity;
  de_code : option string
}.

(** The argument of [find_keyword]: [Optional[str]], or a truthy value that
    is not a string: one that can be hashed, such as an integer
    ([NotAString]), or one that cannot, such as a list ([Unhashable]). *)
Inductive NameArg := NoneName | StrName (s : string) | NotAString | Unhashable.

Definition NameArg_eq_dec (a b : NameArg) : {a = b} + {a <> b}.
Proof. decide equality; apply string_dec. Defined.

Record KeywordFinder := mkKeywordFinder {
  diagnostics : list DiagnosticsEntry;
  self_library_doc : option LibraryDoc;
  _cache : list (NameArg * (option KeywordDoc * list DiagnosticsEntry))
}.

(** [Namespace.DataEntry], the snapshot kept in the document's data slot. *)
Record DataEntry := mkDataEntry {
  de_libraries : OrderedDict LibraryEntry;
  de_resources : OrderedDict LibraryEntry;
  de_variables : OrderedDict LibraryEntry;
  de_diagnostics : list Diagnostic
}.

(** The two data slots of the [TextDocument] that the namespace uses:
    [get_data(Namespace)] and [get_data(Namespace.DataEntry)]. *)
Record TextDocument := mkTextDocument {
  data_Namespace : option (list Import);
  data_DataEntry : option DataEntry
}.

(** The state of a [Namespace] object. [document] is the referent of the
    weak reference ([None] when there is none or when it is dead);
    [invalidated_calls] counts the calls of [invalidated_callback]. *)
Record Namespace := mkNamespace {
  model : Model;
  ns_source : string;
  document : option TextDocument;
  _libraries : OrderedDict LibraryEntry;
  _libraries_matchers : option (list (string * LibraryEntry));
  _resources : OrderedDict LibraryEntry;
  _resources_matchers : option (list (string * LibraryEntry));
  _variables : OrderedDict LibraryEntry;
  _initialized : bool;
  _analyzed : bool;
  _library_doc : option LibraryDoc;
  _imports : option (list Import);
  _own_variables : option (list VariableDefinition);
  _diagnostics : list Diagnostic;
  _keywords : option (list KeywordDoc);
  search_order : list string;
  _finder : option KeywordFinder;
  invalidated_calls : nat
}.

(** [Namespace.__init__] *)
Definition Namespace__init__ (m : Model) (src : string) (doc : option TextDocument)
    : Namespace :=
  mkNamespace m src doc [] None [] None [] false false None None None [] None [] None 0.

(** Field updates. *)
Definition set_libraries (v : OrderedDict LibraryEntry) (s : Namespace) : Namespace :=
  mkNamespace (model s) (ns_source s) (document s) v (_libraries_matchers s)
    (_resources s) (_resources_matchers s) (_variables s) (_initialized s) (_analyzed s)
    (_library_doc s) (_imports s) (_own_variables s) (_diagnostics s) (_keywords s)
    (search_order s) (_finder s) (invalidated_calls s).

Definition set_resources (v : OrderedDict LibraryEntry) (s : Namespace) : Namespace :=
  mkNamespace (model s) (ns_source s) (document s) (_libraries s) (_libraries_matchers s)
    v (_resources_matchers s) (_variables s) (_initialized s) (_analyzed s)
    (_library_doc s) (_imports s) (_own_variables s) (_diagnostics s) (_keywords s)
    (search_order s) (_finder s) (invalidated_calls s).

Definition set_variables (v : OrderedDict LibraryEntry) (s : Namespace) : Namespace :=
  mkNamespace (model s) (ns_source s) (document s) (_libraries s) (_libraries_matchers s)
    (_resources s) (_resources_matchers s) v (_initialized s) (_analyzed s)
    (_library_doc s) (_imports s) (_own_variables s) (_diagnostics s) (_keywords s)
    (search_order s) (_finder s) (invalidated_calls s).

Definition set_diagnostics (v : list Diagnostic) (s : Namespace) : Namespace :=
  mkNamespace (model s) (ns_source s) (document s) (_libraries s) (_libraries_matchers s)
    (_resources s) (_resources_matchers s) (_variables s) (_initialized s) (_analyzed s)
    (_library_doc s) (_imports s) (_own_variables s) v (_keywords s)
    (search_order s) (_finder s) (invalidated_calls s).

Definition set_initialized (v : bool) (s : Namespace) : Namespace :=
  mkNamespace (model s) (ns_source s) (document s) (_libraries s) (_libraries_matchers s)
    (_resources s) (_resources_matchers s) (_variables s) v (_analyzed s)
    (_library_doc s) (_imports s) (_own_variables s) (_diagnostics s) (_keywords s)
    (search_order s) (_finder s) (invalidated_calls s).

Definition set_analyzed (v : bool) (s : Namespace) : Namespace :=
  mkNamespace (model s) (ns_source s) (document s) (_libraries s) (_libraries_matchers s)
    (_resources s) (_resources_matchers s) (_variables s) (_initialized s) v
    (_library_doc s) (_imports s) (_own_variables s) (_diagnostics s) (_keywords s)
    (search_order s) (_finder s) (invalidated_calls s).

Definition set_library_doc (v : option LibraryDoc) (s : Namespace) : Namespace :=
  mkNamespace (model s) (ns_source s) (document s) (_libraries s) (_libraries_matchers s)
    (_resources s) (_resources_matchers s) (_variables s) (_initialized s) (_analyzed s)
    v (_imports s) (_own_variables s) (_diagnostics s) (_keywords s)
    (search_order s) (_finder s) (invalidated_calls s).

Definition set_imports (v : option (list Import)) (s : Namespace) : Namespace :=
  mkNamespace (model s) (ns_source s) (document s) (_libraries s) (_libraries_matchers s)
    (_resources s) (_resources_matchers s) (_variables s) (_initialized s) (_analyzed s)
    (_library_doc s) v (_own_variables s) (_diagnostics s) (_keywords s)
    (search_order s) (_finder s) (invalidated_calls s).

Definition set_own_variables (v : option (list VariableDefinition)) (s : Namespace)
    : Namespace :=
  mkNamespace (model s) (ns_source s) (document s) (_libraries s) (_libraries_matchers s)
    (_resources s) (_resources_matchers s) (_variables s) (_initialized s) (_analyzed s)
    (_library_doc s) (_imports s) v (_diagnostics s) (_keywords s)
    (search_order s) (_finder s) (invalidated_calls s).

Definition set_document (v : option TextDocument) (s : Namespace) : Namespace :=
  mkNamespace (model s) (ns_source s) v (_libraries s) (_libraries_matchers s)
    (_resources s) (_resources_matchers s) (_variables s) (_initialized s) (_analyzed s)
    (_library_doc s) (_imports s) (_own_variables s) (_diagnostics s) (_keywords s)
    (search_order s) (_finder s) (invalidated_calls s).

Definition set_finder (v : option KeywordFinder) (s : Namespace) : Namespace :=
  mkNamespace (model s) (ns_source s) (document s) (_libraries s) (_libraries_matchers s)
    (_resources s) (_resources_matchers s) (_variables s) (_initialized s) (_analyzed s)
    (_library_doc s) (_imports s) (_own_variables s) (_diagnostics s) (_keywords s)
    (search_order s) v (invalidated_calls s).

(** [self._diagnostics.append(d)] and [self._diagnostics += ds] *)
Definition append_diagnostics (ds : list Diagnostic) (s : Namespace) : Namespace :=
  set_diagnostics (_diagnostics s ++ ds) s.

(** The assignments of [invalidate], made in one piece while the three
    locks are held (there is no [await] between them). *)
Definition reset_caches (s : Namespace) : Namespace :=
  mkNamespace (model s) (ns_source s) (document s) [] None [] None [] false false
    None None None [] None (search_order s) None (invalidated_calls s).

(** [self.invalidated_callback(self)] *)
Definition call_invalidated_callback (s : Namespace) : Namespace :=
  mkNamespace (model s) (ns_source s) (document s) (_libraries s) (_libraries_matchers s)
    (_resources s) (_resources_matchers s) (_variables s) (_initialized s) (_analyzed s)
    (_library_doc s) (_imports s) (_own_variables s) (_diagnostics s) (_keywords s)
    (search_order s) (_finder s) (S (invalidated_calls s)).

(** [Namespace.invalidate] *)
Definition invalidate (s : Namespace) : Namespace :=
  call_invalidated_callback (reset_caches s).

(** The resource a child namespace stands for: [get_imports] and
    [get_own_variables] of the child run the visitors on its model. *)
Record ResourceNamespace := mkResourceNamespace {
  rn_source : string;
  rn_model : Model
}.

(** The calls the namespace makes on its [imports_manager]
    ([imports_manager.py] is not among the sources). Each may raise. The
    [sentinel] argument is an owner token and selects nothing. *)
Record ImportsManager := mkImportsManager {
  find_file : string -> string -> Result string;
  get_libdoc_for_library_import : string -> list string -> string -> Result LibraryDoc;
  get_libdoc_for_resource_import : string -> string -> Result LibraryDoc;
  get_libdoc_for_variables_import : string -> list string -> string -> Result LibraryDoc;
  get_namespace_for_resource_import : string -> string -> Result ResourceNamespace;
  config_variables : option (list string)     (* config.variables.keys() *)
}.

(** What [asyncio.gather(..., return_exceptions=True)] holds for one task:
    the returned entry, [None], or the exception the task raised. *)
Inductive Gathered :=
| GEntry (e : LibraryEntry)
| GNone
| GExc (e : PyExc).

Definition bind {A B} (r : Result A) (f : A -> Result B) : Result B :=
  match r with
  | Ok a => f a
  | Raise e => Raise e
  end.

Notation "x <- r ;; k" := (bind r (fun x => k))
  (at level 61, r at next level, right associativity).

Definition is_nil {A} (l : list A) : bool :=
  match l with [] => true | _ => false end.

Definition source_is (e : LibraryEntry) (src : option string) : bool :=
  option_eqb String.eqb (ld_source (library_doc e)) src.

(** [bool(doc.errors)] *)
Definition has_errors (doc : LibraryDoc) : bool :=
  match errors doc with
  | Some (_ :: _) => true
  | _ => false
  end.

Definition errors_list (doc : LibraryDoc) : list Error :=
  match errors doc with Some l => l | None => [] end.

Section Imports.

(** [str(Uri.from_path(p))], which raises [ValueError] for a path that is not
    absolute ([utils/uri.py] is not among the sources), and
    [str(Path(p).parent)] *)
Variable uri_from_path : string -> Result string.
Variable path_parent : string -> string.

(** [library_doc.DEFAULT_LIBRARIES] *)
Variable DEFAULT_LIBRARIES : list string.

Variable imports_manager : ImportsManager.

(** The order in which the tasks of one [asyncio.gather] complete, as a
    rearrangement of the list of tasks. *)
Variable completion_order : forall A : Type, list A -> list A.

(** [Namespace._get_library_entry] *)
Definition _get_library_entry (name : string) (args : list string)
    (alias : option string) (base_dir : string) : Result LibraryEntry :=
  doc <- get_libdoc_for_library_import imports_manager name args base_dir ;;
  Ok (mkLibraryEntry LibraryEntryC (ld_name doc) name doc args alias Range_zero "" [] []).

(** [Namespace._get_resource_entry] *)
Definition _get_resource_entry (name : string) (base_dir : string) : Result LibraryEntry :=
  namespace <- get_namespace_for_resource_import imports_manager name base_dir ;;
  doc <- get_libdoc_for_resource_import imports_manager name base_dir ;;
  Ok (mkLibraryEntry ResourceEntryC (ld_name doc) name doc [] None Range_zero ""
        (ImportVisitor_get (rn_source namespace) (rn_model namespace))
        (VariablesVisitor_get (rn_source namespace) (rn_model namespace))).

(** [Namespace._get_variables_entry] *)
Definition _get_variables_entry (name : string) (args : list string) (base_dir : string)
    : Result LibraryEntry :=
  doc <- get_libdoc_for_variables_import imports_manager name args base_dir ;;
  Ok (mkLibraryEntry VariablesEntryC (ld_name doc) name doc args None Range_zero ""
        [] (ld_variables doc)).

Definition error_diagnostic (r : Range) (err : Error) : Diagnostic :=
  mkDiagnostic r (err_message err) ERROR DIAGNOSTICS_SOURCE_NAME
    (Some (err_type_name err)) None.

(** The line of a related location: [err.line_no - 1 if err.line_no is not
    None else doc.line_no if doc.line_no >= 0 else 0]. *)
Definition related_line (doc : LibraryDoc) (err : Error) : Z :=
  match err_line_no err with
  | Some l => l - 1
  | None => if (0 <=? ld_line_no doc)%Z then ld_line_no doc else 0
  end.

(** The errors of a document that carry a source, as related information:
    the list comprehension of [_import] over [result.library_doc.errors];
    [Uri.from_path] is called for each of them in turn and the first
    exception ends the comprehension. *)
Fixpoint related_of_errors (doc : LibraryDoc) (errs : list Error)
    : Result (list DiagnosticRelatedInformation) :=
  match errs with
  | [] => Ok []
  | err :: rest =>
      match err_source err with
      | Some src =>
          u <- uri_from_path src ;;
          tl <- related_of_errors doc rest ;;
          Ok (mkRelated
                (mkLocation u
                   (mkRange (mkPosition (related_line doc err) 0)
                            (mkPosition (related_line doc err) 0)))
                (err_message err) :: tl)
      | None => related_of_errors doc rest
      end
  end.

(** The block [if top_level and result is not None: ...] of [_import]: the
    diagnostics it appends and the exception that ends it, if any. The
    diagnostic with the related information is built before it is appended,
    so an exception of [Uri.from_path] leaves nothing appended. *)
Definition libdoc_error_diagnostics (r : Range) (result : LibraryEntry)
    : list Diagnostic * option PyExc :=
  let doc := library_doc result in
  let without_source :=
    map (error_diagnostic r)
      (filter (fun e => negb (match err_source e with Some _ => true | None => false end))
         (errors_list doc)) in
  match ld_source doc with
  | Some _ =>
      if has_errors doc then
        if existsb (fun err => truthy (err_source err)) (errors_list doc)
        then
          match related_of_errors doc (errors_list doc) with
          | Ok related =>
              (mkDiagnostic r "Import definition contains errors." ERROR
                 DIAGNOSTICS_SOURCE_NAME None (Some related) :: without_source, None)
          | Raise e => ([], Some e)
          end
        else (without_source, None)
      else (map (error_diagnostic r) (errors_list doc), None)
  | None => (map (error_diagnostic r) (errors_list doc), None)
  end.


Definition no_keywords_warning (r : Range) (name : string) : Diagnostic :=
  mkDiagnostic r ("Imported library '" ++ name ++ "' contains no keywords.")%string
    WARNING DIAGNOSTICS_SOURCE_NAME None None.

Definition empty_resource_warning (r : Range) (name : string) : Diagnostic :=
  mkDiagnostic r ("Imported resource file '" ++ name ++ "' is empty.")%string
    WARNING DIAGNOSTICS_SOURCE_NAME None None.

(** [bool(doc.has_listener)] *)
Definition listens (doc : LibraryDoc) : bool :=
  match has_listener doc with Some b => b | None => false end.

(** What a task has done when it leaves the [try] block of [_import]: the
    value of [result], the diagnostics appended on the way, and the
    exception raised, if any. *)
Record Attempt := mkAttempt {
  bound : option LibraryEntry;
  appended : list Diagnostic;
  raised : option PyExc
}.

(** The [try] block of [_import]. The calls of the imports manager and the
    [raise] statements come before [result] is bound; after that only
    [Uri.from_path], in the report of the errors of the document, can raise. *)
Definition _import_try (st : Namespace) (base_dir : string) (top_level : bool)
    (value : Import) : Attempt :=
  let r := Import_range value in
  let src := source (import_entity value) in
  let fail (e : PyExc) := mkAttempt None [] (Some e) in
  let finish (result : LibraryEntry) (ds : list Diagnostic) :=
    let '(errs, ex) := if top_level then libdoc_error_diagnostics r result else ([], None) in
    mkAttempt (Some result) (ds ++ errs) ex in
  match value with
  | LibraryImport _ name _ args alias =>
      match name with
      | None => fail (NameSpaceError "Library setting requires value.")
      | Some n =>
          match _get_library_entry n args alias base_dir with
          | Raise e => fail e
          | Ok e =>
              let result := with_import e r src in
              finish result
                (if top_level
                    && match errors (library_doc result) with None => true | Some _ => false end
                    && (length (keywords (library_doc result)) =? 0)%nat
                    && negb (listens (library_doc result))
                 then [no_keywords_warning r n] else [])
          end
      end
  | ResourceImport _ name _ =>
      match name with
      | None => fail (NameSpaceError "Resource setting requires value.")
      | Some n =>
          match find_file imports_manager n base_dir with
          | Raise e => fail e
          | Ok source =>
              if existsb (fun e => source_is e (Some source)) (od_values (_resources st))
              then mkAttempt None [] None
              else
                match _get_resource_entry n base_dir with
                | Raise e => fail e
                | Ok e =>
                    let result := with_import e r src in
                    finish result
                      (if top_level
                          && negb (has_errors (library_doc result))
                          && is_nil (imports result)
                          && is_nil (variables result)
                          && is_nil (keywords (library_doc result))
                       then [empty_resource_warning r n] else [])
                end
          end
      end
  | VariablesImport _ name _ args =>
      match name with
      | None => fail (NameSpaceError "Variables setting requires value.")
      | Some n =>
          match _get_variables_entry n args base_dir with
          | Raise e => fail e
          | Ok e => finish (with_import e r src) []
          end
      end
  | PlainImport _ _ _ => fail (DiagnosticsError "Unknown import type.")
  end.

Definition exception_diagnostic (r : Range) (e : PyExc) : Diagnostic :=
  mkDiagnostic r (exc_str e) ERROR DIAGNOSTICS_SOURCE_NAME (Some (exc_qualname e)) None.

(** [return result] *)
Definition gathered (result : option LibraryEntry) : Gathered :=
  match result with
  | Some e => GEntry e
  | None => GNone
  end.

(** The coroutine [_import] of [_import_imports]: what the task leaves in
    the result list of [gather] and the diagnostics it appends. An exception
    that is not re-raised is reported at top level, and [result] is
    returned as it is then: [None], or the entry when the exception came
    after it was bound. *)
Definition _import (st : Namespace) (base_dir : string) (top_level : bool)
    (value : Import) : Gathered * list Diagnostic :=
  let t := _import_try st base_dir top_level value in
  match raised t with
  | None => (gathered (bound t), appended t)
  | Some e =>
      if is_fatal e then (GExc e, appended t)
      else (gathered (bound t),
            appended t
            ++ (if top_level then [exception_diagnostic (Import_range value) e] else []))
  end.

(** [related_information] of the diagnostics for an import that is already
    there: [Uri.from_path(first.import_source)] may raise. *)
Definition related_to (first : LibraryEntry)
    : Result (option (list DiagnosticRelatedInformation)) :=
  u <- uri_from_path (import_source first) ;;
  Ok (Some [mkRelated (mkLocation u (import_range first)) ""]).

Definition information (r : Range) (msg : string)
    (rel : option (list DiagnosticRelatedInformation)) : Diagnostic :=
  mkDiagnostic r msg INFORMATION DIAGNOSTICS_SOURCE_NAME None rel.

Definition recursive_import_info (entry : LibraryEntry) : Diagnostic :=
  information (import_range entry) "Recursive resource import." None.

Definition resource_already_imported_info (entry first : LibraryEntry) : Result Diagnostic :=
  rel <- related_to first ;;
  Ok (information (import_range entry) "Resource already imported." rel).

Definition variables_already_imported_info (entry first : LibraryEntry) : Result Diagnostic :=
  rel <- related_to first ;;
  Ok (information (import_range entry)
        ("Variables " ++ dq ++ LibraryEntry__str__ entry ++ dq ++ " already imported.")%string
        rel).

Definition library_already_imported_info (entry first : LibraryEntry) : Result Diagnostic :=
  rel <- related_to first ;;
  Ok (information (import_range entry)
        ("Library " ++ dq ++ LibraryEntry__str__ entry ++ dq ++ " already imported.")%string
        rel).

Definition builtin_override_info (entry : LibraryEntry) : Result Diagnostic :=
  rel <- related_to entry ;;
  Ok (information (import_range entry)
        ("Library " ++ dq ++ LibraryEntry__str__ entry ++ dq
           ++ " is not imported, because it would override the "
           ++ dq ++ "BuiltIn" ++ dq ++ " library.")%string
        rel).

(** The diagnostic for an exception out of the imports of a resource:
    [message=str(e) or type(entry).__name__]. *)
Definition nested_exception_diagnostic (entry : LibraryEntry) (e : PyExc) : Diagnostic :=
  mkDiagnostic (import_range entry)
    (or_else (Some (exc_str e)) (EntryClass__name__ (entry_class entry)))
    ERROR DIAGNOSTICS_SOURCE_NAME (Some (exc_qualname e)) None.

(** Same source, alias and arguments: the test for libraries and variables
    that are already imported. *)
Definition same_import (entry e : LibraryEntry) : bool :=
  source_is e (ld_source (library_doc entry))
  && option_eqb String.eqb (alias e) (alias entry)
  && list_eqb String.eqb (args e) (args entry).

(** [append] of a diagnostic whose construction may raise: the exception
    leaves the namespace as it is. *)
Definition append_built (d : Result Diagnostic) (st : Namespace) : Namespace * option PyExc :=
  match d with
  | Ok d => (append_diagnostics [d] st, None)
  | Raise e => (st, Some e)
  end.

(** The top-level report that a library or a variables file is already
    imported. *)
Definition report_already_imported (top_level : bool) (found : list LibraryEntry)
    (info : LibraryEntry -> Result Diagnostic) (st : Namespace) : Namespace * option PyExc :=
  match found with
  | first :: _ =>
      if top_level && truthy (ld_source (library_doc first))
      then append_built (info first) st
      else (st, None)
  | [] => (st, None)
  end.

(** One turn of the loop over the gathered entries, for an entry that is
    not [None]. [nested] is the recursive call
    [self._import_imports(entry.imports, ..., top_level=False)]. The state
    comes back also when an exception is raised: what was assigned stays.
    The diagnostics for imports that are already there are built outside
    any [try]: an exception of [Uri.from_path] leaves the loop. *)
Definition commit_entry
    (nested : list Import -> string -> Namespace -> Namespace * option PyExc)
    (top_level : bool) (st : Namespace) (entry : LibraryEntry)
    : Namespace * option PyExc :=
  match entry_class entry with
  | ResourceEntryC =>
      match ld_source (library_doc entry) with
      | None => (st, Some AssertionError)
      | Some src =>
          let allready_imported_resources :=
            filter (fun e => source_is e (Some src)) (od_values (_resources st)) in
          if is_nil allready_imported_resources && negb (src =? ns_source st) then
            let st1 := set_resources (od_set (_resources st) (entry_key entry) entry) st in
            let '(st2, raised) := nested (imports entry) (path_parent src) st1 in
            match raised with
            | None => (st2, None)
            | Some e =>
                if is_fatal e then (st2, Some e)
                else if top_level
                     then (append_diagnostics [nested_exception_diagnostic entry e] st2, None)
                     else (st2, None)
            end
          else if top_level then
            if src =? ns_source st then
              (append_diagnostics [recursive_import_info entry] st, None)
            else
              match allready_imported_resources with
              | first :: _ =>
                  if truthy (ld_source (library_doc first)) then
                    append_built (resource_already_imported_info entry first)
                      (set_resources (od_set (_resources st) (entry_key entry) entry) st)
                  else (st, None)
              | [] => (st, None)
              end
          else (st, None)
      end
  | VariablesEntryC =>
      let allready_imported_variables :=
        filter (same_import entry) (od_values (_variables st)) in
      let '(st1, raised) :=
        report_already_imported top_level allready_imported_variables
          (variables_already_imported_info entry) st in
      match raised with
      | Some e => (st1, Some e)
      | None =>
          if od_mem (_variables st1) (entry_key entry) then (st1, None)
          else (set_variables (od_set (_variables st1) (entry_key entry) entry) st1, None)
      end
  | LibraryEntryC =>
      if top_level && (name entry =? BUILTIN_LIBRARY_NAME)
         && match alias entry with None => true | Some _ => false end
      then append_built (builtin_override_info entry) st
      else
        let allready_imported_library :=
          filter (same_import entry) (od_values (_libraries st)) in
        let '(st1, raised) :=
          report_already_imported top_level allready_imported_library
            (library_already_imported_info entry) st in
        match raised with
        | Some e => (st1, Some e)
        | None =>
            if od_mem (_libraries st1) (entry_key entry) then (st1, None)
            else (set_libraries (od_set (_libraries st1) (entry_key entry) entry) st1, None)
        end
  end.


(** The loop [for entry in await asyncio.gather(...)] over the results in
    source order; it stops at the first exception. *)
Fixpoint commit_loop
    (nested : list Import -> string -> Namespace -> Namespace * option PyExc)
    (top_level : bool) (entries : list Gathered) (st : Namespace)
    : Namespace * option PyExc :=
  match entries with
  | [] => (st, None)
  | GExc e :: rest =>
      if is_fatal e then (st, Some e) else commit_loop nested top_level rest st
  | GNone :: rest => commit_loop nested top_level rest st
  | GEntry entry :: rest =>
      let '(st', raised) := commit_entry nested top_level st entry in
      match raised with
      | Some e => (st', Some e)
      | None => commit_loop nested top_level rest st'
      end
  end.

(** [Namespace._import_imports]. All tasks of [gather] run against the
    maps as they are when the call starts; each appends its diagnostics in
    one piece when it completes. [depth] is the number of nested calls the
    interpreter still allows: [RecursionError] is raised at 0. *)
Fixpoint _import_imports (depth : nat) (imports : list Import) (base_dir : string)
    (top_level : bool) (st : Namespace) {struct depth} : Namespace * option PyExc :=
  match depth with
  | O => (st, Some RecursionError)
  | S d =>
      let tasks := map (_import st base_dir top_level) imports in
      let st1 := append_diagnostics (concat (map snd (completion_order _ tasks))) st in
      commit_loop (fun imps base s => _import_imports d imps base false s)
        top_level (map fst tasks) st1
  end.

Definition default_library_diagnostic (library : string) (e : PyExc) : Diagnostic :=
  mkDiagnostic Range_zero
    ("Can't import default library '" ++ library ++ "': "
       ++ or_else (Some (exc_str e)) (exc_qualname e))%string
    ERROR "Robot" (Some (exc_qualname e)) None.

(** The coroutine [_import_lib] of [_import_default_libraries]. *)
Definition _import_lib (st : Namespace) (library : string)
    : Result (option LibraryEntry) * list Diagnostic :=
  match _get_library_entry library [] None (path_parent (ns_source st)) with
  | Ok e => (Ok (Some e), [])
  | Raise e =>
      if is_fatal e then (Raise e, [])
      else (Ok None, [default_library_diagnostic library e])
  end.

(** The diagnostics of the tasks that complete before the first one that
    raises, and that exception. *)
Fixpoint until_raise {A} (done : list (Result A * list Diagnostic))
    : list Diagnostic * option PyExc :=
  match done with
  | [] => ([], None)
  | (Raise e, _) :: _ => ([], Some e)
  | (Ok _, ds) :: rest => let '(ds', r) := until_raise rest in (ds ++ ds', r)
  end.

(** [Namespace._import_default_libraries]: [gather] without
    [return_exceptions] raises the first exception of a task. *)
Definition _import_default_libraries (st : Namespace) : Namespace * option PyExc :=
  let tasks := map (_import_lib st) DEFAULT_LIBRARIES in
  let '(ds, raised) := until_raise (completion_order _ tasks) in
  let st1 := append_diagnostics ds st in
  match raised with
  | Some e => (st1, Some e)
  | None =>
      (fold_left
         (fun s t =>
            match fst t with
            | Ok (Some e) => set_libraries (od_set (_libraries s) (entry_key e) e) s
            | _ => s
            end)
         tasks st1, None)
  end.

(** [Namespace.get_imports] *)
Definition get_imports (st : Namespace) : Namespace * list Import :=
  match _imports st with
  | Some imports => (st, imports)
  | None =>
      let imports := ImportVisitor_get (ns_source st) (model st) in
      (set_imports (Some imports) st, imports)
  end.

(** [e in l] for imports *)
Definition import_in (e : Import) (l : list Import) : bool := existsb (Import_eqb e) l.

(** The list stored in the document when the imports have changed: the old
    imports that are still there, then the new ones. *)
Definition merged_imports (old_imports imports : list Import) : list Import :=
  fold_left (fun acc e => if import_in e acc then acc else acc ++ [e]) imports
    (filter (fun e => import_in e imports) old_imports).

Definition snapshot (st : Namespace) : DataEntry :=
  mkDataEntry (_libraries st) (_resources st) (_variables st) (_diagnostics st).

(** [Namespace.ensure_initialized]; the value returned is
    [self._initialized] of the state that comes back. *)
Definition ensure_initialized (depth : nat) (st : Namespace) : Namespace * option PyExc :=
  if _initialized st then (st, None)
  else
    let '(st, imports) := get_imports st in
    let '(st, data_entry) :=
      match document st with
      | None => (st, None)
      | Some doc =>
          match data_Namespace doc with
          | None => (set_document (Some (mkTextDocument (Some imports) (data_DataEntry doc))) st,
                     None)
          | Some old_imports =>
              if negb (imports_eqb old_imports imports) then
                (set_document
                   (Some (mkTextDocument (Some (merged_imports old_imports imports)) None)) st,
                 None)
              else (st, data_DataEntry doc)
          end
      end in
    match data_entry with
    | Some entry =>
        (set_initialized true
           (set_diagnostics (de_diagnostics entry)
              (set_variables (de_variables entry)
                 (set_resources (de_resources entry)
                    (set_libraries (de_libraries entry) st)))), None)
    | None =>
        let '(st, raised) := _import_default_libraries st in
        match raised with
        | Some e => (st, Some e)
        | None =>
            let '(st, raised) :=
              _import_imports depth imports (path_parent (ns_source st)) true st in
            match raised with
            | Some e => (st, Some e)
            | None =>
                let st :=
                  match document st with
                  | Some doc =>
                      set_document
                        (Some (mkTextDocument (data_Namespace doc) (Some (snapshot st)))) st
                  | None => st
                  end in
                (set_initialized true st, None)
            end
        end
    end.

(** [Namespace.get_own_variables] *)
Definition get_own_variables (st : Namespace) : Namespace * list VariableDefinition :=
  match _own_variables st with
  | Some vs => (st, vs)
  | None =>
      let vs := VariablesVisitor_get (ns_source st) (model st) in
      (set_own_variables (Some vs) st, vs)
  end.

(** [library_doc.BUILTIN_VARIABLES] *)
Variable BUILTIN_VARIABLES : list string.

(** [Namespace.get_builtin_variables] *)
Definition get_builtin_variables : list VariableDefinition :=
  map BuiltInVariableDefinition BUILTIN_VARIABLES.

(** [Namespace.get_command_line_variables] *)
Definition get_command_line_variables : list VariableDefinition :=
  match config_variables imports_manager with
  | None => []
  | Some ks => map (fun k => CommandLineVariableDefinition ("${" ++ k ++ "}")%string) ks
  end.

(** The nodes handed to [get_variables]; [BlockVariableVisitor().get(source,
    n, position)] walks Robot's token stream of a keyword or test case and is
    taken as given. *)
Variable Node : Type.
Variable is_Keyword_or_TestCase : Node -> bool.
Variable BlockVariableVisitor_get : string -> Node -> option Position -> list VariableDefinition.

Variable str_hash : string -> Z.

(** The loop of [get_variables] over the chained definitions. *)
Fixpoint merge_variables (vars : list VariableDefinition)
    (result : MatcherDict VariableDefinition) : Result (MatcherDict VariableDefinition) :=
  match vars with
  | [] => Ok result
  | var :: rest =>
      match var_name var with
      | None => merge_variables rest result
      | Some n =>
          m <- VariableMatcher__init__ n ;;
          if negb (md_mem str_hash result m)
          then merge_variables rest (md_set str_hash result m var)
          else merge_variables rest result
      end
  end.

(** The chain of [get_variables], in the order of its arguments. *)
Definition chained_variables (st : Namespace) (own : list VariableDefinition)
    (nodes : option (list Node)) (position : option Position) : list VariableDefinition :=
  flat_map (fun n => BlockVariableVisitor_get (ns_source st) n position)
    (filter is_Keyword_or_TestCase (match nodes with Some l => l | None => [] end))
  ++ own
  ++ flat_map variables (od_values (_resources st))
  ++ get_command_line_variables
  ++ flat_map variables (od_values (_variables st))
  ++ get_builtin_variables.

(** [Namespace.get_variables] *)
Definition get_variables (depth : nat) (st : Namespace) (nodes : option (list Node))
    (position : option Position)
    : Namespace * Result (MatcherDict VariableDefinition) :=
  let '(st, raised) := ensure_initialized depth st in
  match raised with
  | Some e => (st, Raise e)
  | None =>
      let '(st, own) := get_own_variables st in
      (st, merge_variables (chained_variables st own nodes position) [])
  end.

(** [Namespace.find_variable] *)
Definition find_variable (depth : nat) (st : Namespace) (name : string)
    (nodes : option (list Node)) (position : option Position)
    : Namespace * Result (option VariableDefinition) :=
  let '(st, vars) := get_variables depth st nodes position in
  (st, d <- vars ;; m <- VariableMatcher__init__ name ;; Ok (md_get str_hash d m)).

(** [Namespace.get_library_doc]; [await_libdoc] is what awaiting
    [imports_manager.get_libdoc_from_model(...)] gives when the document is
    not cached yet: a document, or the exception thrown into the coroutine
    at that point. *)
Definition get_library_doc (await_libdoc : Result LibraryDoc) (st : Namespace)
    : Namespace * Result LibraryDoc :=
  match _library_doc st with
  | Some doc => (st, Ok doc)
  | None =>
      match await_libdoc with
      | Ok doc => (set_library_doc (Some doc) st, Ok doc)
      | Raise e => (st, Raise e)
      end
  end.

(** What the awaited calls of one run of [_analyze] give. The analyzer
    ([analyzer.py] is not among the sources) looks keywords up through the
    namespace, which may leave the library document of the file cached:
    [analyzer_library_doc]. *)
Record AnalyzeAwaits := mkAnalyzeAwaits {
  analyzer_get : Result (list Diagnostic);       (* await Analyzer().get(...) *)
  analyzer_library_doc : option LibraryDoc;
  check_canceled : option PyExc;                 (* await check_canceled() *)
  get_libdoc_from_model : Result LibraryDoc
}.

Definition model_error_diagnostic (err : Error) : Diagnostic :=
  let l := match err_line_no err with Some n => (n - 1)%Z | None => 0%Z end in
  mkDiagnostic (mkRange (mkPosition l 0) (mkPosition l 0)) (err_message err) ERROR
    DIAGNOSTICS_SOURCE_NAME (Some (err_type_name err)) None.

(** The [try] block of [_analyze]. *)
Definition _analyze_try (aw : AnalyzeAwaits) (st : Namespace) : Namespace * option PyExc :=
  let st :=
    match _library_doc st, analyzer_library_doc aw with
    | None, Some doc => set_library_doc (Some doc) st
    | _, _ => st
    end in
  match analyzer_get aw with
  | Raise e => (st, Some e)
  | Ok result =>
      match check_canceled aw with
      | Some e => (st, Some e)
      | None =>
          let st := append_diagnostics result st in
          let '(st, lib_doc) := get_library_doc (get_libdoc_from_model aw) st in
          match lib_doc with
          | Raise e => (st, Some e)
          | Ok doc =>
              (append_diagnostics (map model_error_diagnostic (errors_list doc)) st, None)
          end
      end
  end.

(** [Namespace._analyze]: [except asyncio.CancelledError] sets [canceled],
    [finally] assigns [self._analyzed = not canceled]. *)
Definition _analyze (aw : AnalyzeAwaits) (st : Namespace) : Namespace * option PyExc :=
  if _analyzed st then (st, None)
  else
    let '(st, raised) := _analyze_try aw st in
    let canceled :=
      match raised with
      | Some e => match exc_class e with CancelledErrorC => true | _ => false end
      | None => false
      end in
    (set_analyzed (negb canceled) st, raised).

(** [Namespace.get_diagnostisc] *)
Definition get_diagnostisc (depth : nat) (aw : AnalyzeAwaits) (st : Namespace)
    : Namespace * Result (list Diagnostic) :=
  let '(st, raised) := ensure_initialized depth st in
  match raised with
  | Some e => (st, Raise e)
  | None =>
      let '(st, raised) := _analyze aw st in
      match raised with
      | Some e => (st, Raise e)
      | None => (st, Ok (_diagnostics st))
      end
  end.

End Imports.

(* ===================================================================== *)
(** ** diagnostics/namespace.py: KeywordFinder *)
(* ===================================================================== *)

(** The outcome of a step of the search: a value, [CancelSearchError], or
    another exception. *)
Inductive Search (A : Type) :=
| Found (a : A)
| Cancel
| Fail (e : PyExc).
Arguments Found {A} a.
Arguments Cancel {A}.
Arguments Fail {A} e.

Definition KeywordError (msg : string) (sev : DiagnosticSeverity) : DiagnosticsEntry :=
  mkDiagnosticsEntry msg sev (Some "KeywordError").

(** A finder together with the namespace it refers to. *)
Record FinderState := mkFinderState {
  namespace : Namespace;
  finder : KeywordFinder
}.

(** [KeywordFinder.__init__] *)
Definition KeywordFinder__init__ : KeywordFinder := mkKeywordFinder [] None [].

(** [self.diagnostics.append(d)] *)
Definition add_diagnostic (d : DiagnosticsEntry) (s : FinderState) : FinderState :=
  mkFinderState (namespace s)
    (mkKeywordFinder (diagnostics (finder s) ++ [d]) (self_library_doc (finder s))
       (_cache (finder s))).

Definition Match : Type := (LibraryEntry * KeywordDoc)%type.

(** [e[0].alias or e[0].name] *)
Definition owner_name (v : LibraryEntry) : string := or_else (alias v) (name v).

Definition newline : string := String (ascii_of_nat 10) EmptyString.

(** [KeywordFinder._create_multiple_keywords_found_message] *)
Definition _create_multiple_keywords_found_message (name : string) (found : list Match)
    (implicit : bool) : string :=
  let error := ("Multiple keywords with name '" ++ name ++ "' found")%string in
  let error :=
    if implicit
    then (error ++ ". Give the full name of the keyword you want to use")%string
    else error in
  let names :=
    sorted (map (fun e => (owner_name (fst e) ++ "." ++ kw_name (snd e))%string) found) in
  join (newline ++ "    ")%string ((error ++ ":")%string :: names).

(** [KeywordFinder._create_custom_and_standard_keyword_conflict_warning_message] *)
Definition _create_custom_and_standard_keyword_conflict_warning_message
    (custom standard : Match) : string :=
  let custom_with_name :=
    match alias (fst custom) with
    | Some a => (" imported as '" ++ a ++ "'")%string
    | None => ""
    end in
  let standard_with_name :=
    match alias (fst standard) with
    | Some a => (" imported as '" ++ a ++ "'")%string
    | None => ""
    end in
  ("Keyword '" ++ kw_name (snd standard) ++ "' found both from a custom test library "
   ++ "'" ++ name (fst custom) ++ "'" ++ custom_with_name
   ++ " and a standard library '" ++ kw_name (snd standard) ++ "'" ++ standard_with_name
   ++ ". "
   ++ "The custom keyword is used. To select explicitly, and to get "
   ++ "rid of this warning, use either '"
   ++ owner_name (fst custom) ++ "." ++ kw_name (snd custom) ++ "' "
   ++ "or '" ++ owner_name (fst standard) ++ "." ++ kw_name (snd standard) ++ "'.")%string.

(** The comprehension [(v, v.library_doc.keywords[name]) for v in entries if
    name in v.library_doc.keywords]. *)
Definition matches_in (entries : list LibraryEntry) (name : string) : list Match :=
  flat_map
    (fun v =>
       match keywords_get (keywords (library_doc v)) name with
       | Some k => [(v, k)]
       | None => []
       end)
    entries.

(** [KeywordFinder._get_keyword_from_self] *)
Definition _get_keyword_from_self (await_libdoc : Result LibraryDoc) (name : string)
    (s : FinderState) : FinderState * Search (option KeywordDoc) :=
  match self_library_doc (finder s) with
  | Some doc => (s, Found (keywords_get (keywords doc) name))
  | None =>
      let '(ns, r) := get_library_doc await_libdoc (namespace s) in
      match r with
      | Raise e => (mkFinderState ns (finder s), Fail e)
      | Ok doc =>
          (mkFinderState ns
             (mkKeywordFinder (diagnostics (finder s)) (Some doc) (_cache (finder s))),
           Found (keywords_get (keywords doc) name))
      end
  end.

(** [KeywordFinder._yield_owner_and_kw_names] *)
Definition _yield_owner_and_kw_names (full_name : string) : list (string * string) :=
  let tokens := split_on "." full_name in
  map (fun i => (join "." (firstn i tokens), join "." (skipn i tokens)))
    (seq 1 (length tokens - 1)).

(** [KeywordFinder.find_keywords] *)
Definition find_keywords (ns : Namespace) (owner : string) (name : string) : list Match :=
  matches_in
    (filter (fun v => Robot.eq (owner_name v) owner)
       (od_values (_libraries ns) ++ od_values (_resources ns)))
    name.

(** [KeywordFinder._get_explicit_keyword] *)
Definition _get_explicit_keyword (name : string) (s : FinderState)
    : FinderState * Search (option KeywordDoc) :=
  let found :=
    flat_map (fun p => find_keywords (namespace s) (fst p) (snd p))
      (_yield_owner_and_kw_names name) in
  match found with
  | [] => (s, Found None)
  | [m] => (s, Found (Some (snd m)))
  | _ =>
      (add_diagnostic
         (KeywordError (_create_multiple_keywords_found_message name found false) ERROR) s,
       Cancel)
  end.

(** [KeywordFinder._get_keyword_based_on_search_order]: the first entry, in
    the order of [search_order] and then of [entries], whose owner is named. *)
Fixpoint _get_keyword_based_on_search_order (order : list string) (entries : list Match)
    : list Match :=
  match order with
  | [] => entries
  | libname :: order' =>
      match filter (fun e => Robot.eq libname (owner_name (fst e))) entries with
      | e :: _ => [e]
      | [] => _get_keyword_based_on_search_order order' entries
      end
  end.

(** [KeywordFinder._get_keyword_from_resource_files] *)
Definition _get_keyword_from_resource_files (name : string) (s : FinderState)
    : FinderState * Search (option KeywordDoc) :=
  let found := matches_in (od_values (_resources (namespace s))) name in
  match found with
  | [] => (s, Found None)
  | _ =>
      let found :=
        if (1 <? length found)%nat
        then _get_keyword_based_on_search_order (search_order (namespace s)) found
        else found in
      match found with
      | [m] => (s, Found (Some (snd m)))
      | _ =>
          (add_diagnostic
             (KeywordError (_create_multiple_keywords_found_message name found true) ERROR) s,
           Cancel)
      end
  end.

(** [STDLIBS - {"Remote"}] *)
Definition stdlibs_without_remote : list string :=
  filter (fun l => negb (l =? "Remote")) Robot.STDLIBS.

Definition in_stdlibs (n : string) : bool := existsb (String.eqb n) stdlibs_without_remote.

(** [KeywordFinder._filter_stdlib_runner] *)
Definition _filter_stdlib_runner (entry1 entry2 : Match) (s : FinderState)
    : FinderState * list Match :=
  let warn custom standard :=
    (add_diagnostic
       (KeywordError
          (_create_custom_and_standard_keyword_conflict_warning_message custom standard)
          WARNING) s,
     [custom]) in
  if in_stdlibs (name (fst entry1)) then warn entry2 entry1
  else if in_stdlibs (name (fst entry2)) then warn entry1 entry2
  else (s, [entry1; entry2]).

(** [KeywordFinder._get_keyword_from_libraries] *)
Definition _get_keyword_from_libraries (name : string) (s : FinderState)
    : FinderState * Search (option KeywordDoc) :=
  let found := matches_in (od_values (_libraries (namespace s))) name in
  match found with
  | [] => (s, Found None)
  | _ =>
      let found :=
        if (1 <? length found)%nat
        then _get_keyword_based_on_search_order (search_order (namespace s)) found
        else found in
      let '(s, found) :=
        match found with
        | [entry1; entry2] => _filter_stdlib_runner entry1 entry2 s
        | _ => (s, found)
        end in
      match found with
      | [m] => (s, Found (Some (snd m)))
      | _ =>
          (add_diagnostic
             (KeywordError (_create_multiple_keywords_found_message name found true) ERROR) s,
           Cancel)
      end
  end.

(** [KeywordFinder._get_implicit_keyword] *)
Definition _get_implicit_keyword (name : string) (s : FinderState)
    : FinderState * Search (option KeywordDoc) :=
  let '(s, r) := _get_keyword_from_resource_files name s in
  match r with
  | Found None => _get_keyword_from_libraries name s
  | _ => (s, r)
  end.

(** The prefixes tried by [_get_bdd_style_keyword], in order. *)
Definition bdd_prefixes : list string := ["given "; "when "; "then "; "and "; "but "].

(** The first prefix [lower.startswith(prefix)] holds for. *)
Definition bdd_prefix (name : string) : option string :=
  find (startswith (lower name)) bdd_prefixes.

(** [KeywordFinder._find_keyword] and, inlined at its last step,
    [KeywordFinder._get_bdd_style_keyword], which calls it again on
    [name[len(prefix):]]. [depth] is the number of nested calls the
    interpreter still allows. *)
Fixpoint _find_keyword (depth : nat) (await_libdoc : Result LibraryDoc) (name : NameArg)
    (s : FinderState) {struct depth} : FinderState * Search (option KeywordDoc) :=
  match depth with
  | O => (s, Fail RecursionError)
  | S d =>
      match name with
      | NoneName | StrName EmptyString =>
          (add_diagnostic (KeywordError "Keyword name cannot be empty." ERROR) s, Cancel)
      | NotAString | Unhashable =>
          (add_diagnostic (KeywordError "Keyword name must be a string." ERROR) s, Cancel)
      | StrName name =>
          let '(s, result) := _get_keyword_from_self await_libdoc name s in
          let '(s, result) :=
            match result with
            | Found None =>
                if contains_char "." name then _get_explicit_keyword name s
                else (s, result)
            | _ => (s, result)
            end in
          let '(s, result) :=
            match result with
            | Found None => _get_implicit_keyword name s
            | _ => (s, result)
            end in
          match result with
          | Found None =>
              match bdd_prefix name with
              | Some prefix =>
                  _find_keyword d await_libdoc
                    (StrName (drop (String.length prefix) name)) s
              | None => (s, Found None)
              end
          | _ => (s, result)
          end
      end
  end.

(** [self._cache.get(name, None)] *)
Fixpoint cache_get (c : list (NameArg * (option KeywordDoc * list DiagnosticsEntry)))
    (name : NameArg) : option (option KeywordDoc * list DiagnosticsEntry) :=
  match c with
  | [] => None
  | (k, v) :: c' => if NameArg_eq_dec k name then Some v else cache_get c' name
  end.

(** [self._cache[name] = v] *)
Fixpoint cache_set (c : list (NameArg * (option KeywordDoc * list DiagnosticsEntry)))
    (name : NameArg) (v : option KeywordDoc * list DiagnosticsEntry) :=
  match c with
  | [] => [(name, v)]
  | (k, v') :: c' =>
      if NameArg_eq_dec k name then (k, v) :: c' else (k, v') :: cache_set c' name v
  end.

(** [repr(name)] *)
Definition NameArg_repr (name : NameArg) : string :=
  match name with
  | StrName n => repr n
  | NoneName => "None"
  | NotAString | Unhashable => "<object>"
  end.

Definition no_keyword_found (name : NameArg) : DiagnosticsEntry :=
  KeywordError ("No keyword with name " ++ NameArg_repr name ++ " found.")%string ERROR.

Definition TypeError (msg : string) : PyExc := mkExc OtherC "TypeError" msg.

(** [KeywordFinder.find_keyword]: the value returned, or the exception that
    is not a [CancelSearchError]. The cache lookup hashes the name and raises
    [TypeError] for a value that cannot be hashed. *)
Definition KeywordFinder_find_keyword (depth : nat) (await_libdoc : Result LibraryDoc)
    (name : NameArg) (s : FinderState) : FinderState * Result (option KeywordDoc) :=
  (* self.reset_diagnostics() *)
  let s :=
    mkFinderState (namespace s)
      (mkKeywordFinder [] (self_library_doc (finder s)) (_cache (finder s))) in
  match (match name with
         | Unhashable => Raise (TypeError "unhashable type")
         | _ => Ok (cache_get (_cache (finder s)) name)
         end) with
  | Raise e => (s, Raise e)
  | Ok (Some cached) =>
      (mkFinderState (namespace s)
         (mkKeywordFinder (snd cached) (self_library_doc (finder s)) (_cache (finder s))),
       Ok (fst cached))
  | Ok None =>
      let '(s, r) := _find_keyword depth await_libdoc name s in
      match r with
      | Found result =>
          let s :=
            match result with
            | None => add_diagnostic (no_keyword_found name) s
            | Some _ => s
            end in
          (mkFinderState (namespace s)
             (mkKeywordFinder (diagnostics (finder s)) (self_library_doc (finder s))
                (cache_set (_cache (finder s)) name (result, diagnostics (finder s)))),
           Ok result)
      | Cancel => (s, Ok None)
      | Fail e => (s, Raise e)
      end
  end.

(** [Namespace.get_finder] and [Namespace.find_keyword]: the finder is
    created after [ensure_initialized] and kept in [self._finder]. *)
Section NamespaceFinder.

Variable uri_from_path : string -> Result string.
Variable path_parent : string -> string.
Variable DEFAULT_LIBRARIES : list string.
Variable imports_manager : ImportsManager.
Variable completion_order : forall A : Type, list A -> list A.

Definition get_finder (depth : nat) (st : Namespace)
    : Namespace * Result KeywordFinder :=
  match _finder st with
  | Some f => (st, Ok f)
  | None =>
      let '(st, raised) :=
        ensure_initialized uri_from_path path_parent DEFAULT_LIBRARIES imports_manager
          completion_order depth st in
      match raised with
      | Some e => (st, Raise e)
      | None => (set_finder (Some KeywordFinder__init__) st, Ok KeywordFinder__init__)
      end
  end.

Definition find_keyword (depth : nat) (await_libdoc : Result LibraryDoc) (name : NameArg)
    (st : Namespace) : Namespace * Result (option KeywordDoc) :=
  let '(st, f) := get_finder depth st in
  match f with
  | Raise e => (st, Raise e)
  | Ok f =>
      let '(s, r) :=
        KeywordFinder_find_keyword depth await_libdoc name (mkFinderState st f) in
      (set_finder (Some (finder s)) (namespace s), r)
  end.

End NamespaceFinder.

(* ===================================================================== *)
(** ** A concrete world: files, libraries and a scheduler *)
(* ===================================================================== *)

Module World.

(** [str(Uri.from_path(p))] for a POSIX path without characters that need
    quoting: [Path(p).as_uri()] raises [ValueError] unless the path is
    absolute. *)
Definition ValueError (msg : string) : PyExc := mkExc OtherC "ValueError" msg.

Definition uri_from_path (p : string) : Result string :=
  if startswith p "/" then Ok ("file://" ++ p)%string
  else Raise (ValueError "relative path can't be expressed as a file URI").

(** [str(Path(p).parent)] for an absolute POSIX path [/dir/.../file]. *)
Definition path_parent (p : string) : string :=
  match removelast (split_on "/" p) with
  | [] | [EmptyString] => "/"
  | parts => join "/" parts
  end.

Definition DEFAULT_LIBRARIES : list string := ["BuiltIn"; "Reserved"; "Easter"].

Definition BUILTIN_VARIABLES : list string :=
  ["${CURDIR}"; "${EMPTY}"; "${TEMPDIR}"; "${EXECDIR}"; "${/}"; "${:}"; "${\n}";
   "${SPACE}"; "${True}"; "${False}"; "${None}"; "${null}"; "${TEST NAME}";
   "${SUITE NAME}"; "${OUTPUT DIR}"].

(** Tasks complete in the order they were started, or in the opposite order. *)
Definition in_order : forall A : Type, list A -> list A := fun _ l => l.
Definition reversed : forall A : Type, list A -> list A := fun _ l => rev l.

(** CPython's FNV string hash ([Py_HASH_FNV]) with a zero secret, on 64 bits. *)
Definition wrap64 (x : Z) : Z := Z.modulo x (2 ^ 64).

Definition fnv_step (x : Z) (c : ascii) : Z :=
  wrap64 (Z.lxor (1000003 * x) (Z.of_nat (nat_of_ascii c))).

Fixpoint fnv_loop (x : Z) (s : string) : Z :=
  match s with
  | EmptyString => x
  | String c s' => fnv_loop (fnv_step x c) s'
  end.

Definition fnv_hash (s : string) : Z :=
  match s with
  | EmptyString => 0
  | String c _ =>
      let x := fnv_loop (Z.shiftl (Z.of_nat (nat_of_ascii c)) 7) s in
      let x := Z.lxor x (Z.of_nat (String.length s)) in
      let x := if (x <? 2 ^ 63)%Z then x else (x - 2 ^ 64)%Z in
      if (x =? -1)%Z then (-2)%Z else x
  end.

(** Nodes handed to [get_variables]: a block with the definitions its
    visitor finds, or another node. *)
Inductive Node :=
| Block (locals : list VariableDefinition)
| Other.

Definition is_Keyword_or_TestCase (n : Node) : bool :=
  match n with Block _ => true | Other => false end.

Definition BlockVariableVisitor_get (src : string) (n : Node) (position : option Position)
    : list VariableDefinition :=
  match n with Block locals => locals | Other => [] end.

(** A library known to the imports manager. *)
Definition keyword (lib name : string) : KeywordDoc := mkKeywordDoc name lib None 0.

Definition library (name : string) (kws : list string) : LibraryDoc :=
  mkLibraryDoc name (Some ("/lib/" ++ name ++ ".py")%string) (map (keyword name) kws)
    None None [] 0.

(** A resource file known to the imports manager: its path, its syntax tree
    and the keywords it declares. *)
Record ResourceFile := mkResourceFile {
  rf_path : string;
  rf_model : Model;
  rf_keywords : list string
}.

Definition file_stem (p : string) : string :=
  match split_on "." (last (split_on "/" p) "") with
  | stem :: _ => stem
  | [] => ""
  end.

Definition resource_doc (f : ResourceFile) : LibraryDoc :=
  mkLibraryDoc (file_stem (rf_path f)) (Some (rf_path f))
    (map (keyword (file_stem (rf_path f))) (rf_keywords f)) None None [] 0.

Definition DataError (msg : string) : PyExc := mkExc OtherC "DataError" msg.

(** Files are found relative to the directory of the importing file. *)
Definition resolve (name base_dir : string) : string :=
  if startswith name "/" then name else (base_dir ++ "/" ++ name)%string.

Definition lookup_file (files : list ResourceFile) (name base_dir : string)
    : Result ResourceFile :=
  match find (fun f => rf_path f =? resolve name base_dir) files with
  | Some f => Ok f
  | None => Raise (DataError ("File '" ++ name ++ "' does not exist.")%string)
  end.

(** An imports manager over a table of libraries and a table of files. *)
Definition manager (libs : list LibraryDoc) (files : list ResourceFile)
    (cli : option (list string)) : ImportsManager :=
  mkImportsManager
    (fun name base_dir => f <- lookup_file files name base_dir ;; Ok (rf_path f))
    (fun name args base_dir =>
       match find (fun d => ld_name d =? name) libs with
       | Some d => Ok d
       | None =>
           Raise (DataError ("Importing library '" ++ name ++ "' failed.")%string)
       end)
    (fun name base_dir => f <- lookup_file files name base_dir ;; Ok (resource_doc f))
    (fun name args base_dir =>
       f <- lookup_file files name base_dir ;;
       Ok (mkLibraryDoc (file_stem (rf_path f)) (Some (rf_path f)) [] None None [] 0))
    (fun name base_dir =>
       f <- lookup_file files name base_dir ;;
       Ok (mkResourceNamespace (rf_path f) (rf_model f)))
    cli.

(** Statements of a setting section: [Library  name], [Library  name  WITH
    NAME  alias] and [Resource  name], on line [l]. *)
Definition name_token (l : Z) (name : string) : Token :=
  mkToken l 12 (12 + Z.of_nat (String.length name)) name.

Definition Library (l : Z) (name : string) (alias : option string) : Statement :=
  StLibraryImport
    (mkImportNode (Some name) (Some (name_token l name)) [] alias l 0 (Some l)
       (Some (12 + Z.of_nat (String.length name))%Z)).

Definition Resource (l : Z) (name : string) : Statement :=
  StResourceImport
    (mkImportNode (Some name) (Some (name_token l name)) [] None l 0 (Some l)
       (Some (12 + Z.of_nat (String.length name))%Z)).

Definition std_libs : list LibraryDoc :=
  [library "BuiltIn" ["Log"; "Run Keyword"]; library "Reserved" []; library "Easter" [];
   library "OperatingSystem" ["Copy File"]].

End World.

(* ===================================================================== *)
(** ** Inputs used below *)
(* ===================================================================== *)

Module Inputs.
Import World.

(** A suite whose variable section declares [${NAME}], analysed with the
    command-line variable [name]. *)
Definition variables_suite : Model :=
  [VariableSection [StVariable (mkVariableNode "${NAME}" (Some (mkToken 2 0 7 "${NAME}")))]].

Definition variables_namespace : Namespace :=
  Namespace__init__ variables_suite "/t/suite.robot" None.

Definition variables_manager : ImportsManager := manager std_libs [] (Some ["name"]).

Definition own_NAME : VariableDefinition :=
  mkVariableDefinition (mkSourceEntity 2 0 2 7 "/t/suite.robot") (Some "${NAME}")
    (Some (mkToken 2 0 7 "${NAME}")) VARIABLE false false.

Definition cli_name : VariableDefinition := CommandLineVariableDefinition "${name}".

(** An initialized namespace of a suite without keyword calls, and the one
    diagnostic the analyzer reports for it. *)
Definition analyzed_namespace : Namespace :=
  set_initialized true (Namespace__init__ variables_suite "/t/suite.robot" None).

Definition variable_not_found : Diagnostic :=
  mkDiagnostic (mkRange (mkPosition 4 10) (mkPosition 4 18)) "Variable '${nope}' not found."
    ERROR DIAGNOSTICS_SOURCE_NAME (Some "VariableNotFound") None.

(** The awaits of a pass that is cancelled while the library document of
    the file is awaited, and of a pass that is not cancelled. *)
Definition cancelled_at_libdoc (result : list Diagnostic) : AnalyzeAwaits :=
  mkAnalyzeAwaits (Ok result) None None (Raise CancelledError).

Definition not_cancelled (result : list Diagnostic) (doc : LibraryDoc) : AnalyzeAwaits :=
  mkAnalyzeAwaits (Ok result) None None (Ok doc).

(** A suite that imports the standard library [OperatingSystem] under the
    name [OS] and the custom library [MyOs]; both have the keyword
    [Copy File]. *)
Definition conflict_libs : list LibraryDoc := std_libs ++ [library "MyOs" ["Copy File"]].

Definition conflict_suite (standard_alias : option string) : Model :=
  [SettingSection [Library 2 "OperatingSystem" standard_alias; Library 3 "MyOs" None]].

Definition conflict_namespace (standard_alias : option string) : Namespace :=
  Namespace__init__ (conflict_suite standard_alias) "/t/suite.robot" None.

(** The library document of a suite that declares the given keywords. *)
Definition suite_doc (kws : list string) : LibraryDoc :=
  resource_doc (mkResourceFile "/t/suite.robot" [] kws).

Definition lookup (libs : list LibraryDoc) (files : list ResourceFile) (own : list string)
    (name : string) (st : Namespace) : Namespace * Result (option KeywordDoc) :=
  find_keyword uri_from_path path_parent DEFAULT_LIBRARIES (manager libs files None)
    in_order 100 (Ok (suite_doc own)) (StrName name) st.

(** The diagnostics the finder holds after a lookup. *)
Definition finder_diagnostics (st : Namespace) : list DiagnosticsEntry :=
  match _finder st with
  | Some f => diagnostics f
  | None => []
  end.

(** Two libraries [A] and [B] that both have the keyword [Open]. *)
Definition ambiguous_libs : list LibraryDoc :=
  std_libs ++ [library "A" ["Open"]; library "B" ["Open"]].

Definition ambiguous_namespace : Namespace :=
  Namespace__init__ [SettingSection [Library 2 "A" None; Library 3 "B" None]]
    "/t/suite.robot" None.

(** A suite that declares the keyword [Log In]. *)
Definition bdd_namespace : Namespace := Namespace__init__ [] "/t/suite.robot" None.

(** A fresh finder on the namespace of a suite without imports. *)
Definition fresh_finder : FinderState := mkFinderState bdd_namespace KeywordFinder__init__.

(** Imports of a suite: a resource, a library that cannot be imported, the
    library [BuiltIn], a custom library, and the resource once more. *)
Definition entity (l : Z) (n : string) : SourceEntity :=
  mkSourceEntity l 0 l (12 + Z.of_nat (String.length n)) "/t/suite.robot".

Definition import_library (l : Z) (n : string) : Import :=
  LibraryImport (entity l n) (Some n) (Some (name_token l n)) [] None.

Definition import_resource (l : Z) (n : string) : Import :=
  ResourceImport (entity l n) (Some n) (Some (name_token l n)).

Definition resource_a : Import := import_resource 2 "a.resource".
Definition library_nope : Import := import_library 3 "Nope".
Definition library_builtin : Import := import_library 4 "BuiltIn".
Definition library_myos : Import := import_library 5 "MyOs".
Definition resource_a_again : Import := import_resource 6 "a.resource".

Definition suite_files : list ResourceFile :=
  [mkResourceFile "/t/a.resource" [] ["Log In"]].

Definition suite_manager : ImportsManager := manager conflict_libs suite_files None.

(** The namespace of the suite after the default libraries are imported. *)
Definition with_defaults : Namespace :=
  fst (_import_default_libraries path_parent DEFAULT_LIBRARIES suite_manager in_order
         (Namespace__init__ [] "/t/suite.robot" None)).

Definition nope_error : PyExc := DataError "Importing library 'Nope' failed.".

(** The import loop of the suite at top level. *)
Definition top (co : forall A : Type, list A -> list A) (imps : list Import)
    : Namespace * option PyExc :=
  _import_imports uri_from_path path_parent suite_manager co 5 imps "/t" true with_defaults.

(** The entries the tasks of the two imports of [a.resource] return. *)
Definition entry_of (imp : Import) : LibraryEntry :=
  match fst (_import uri_from_path suite_manager with_defaults "/t" true imp) with
  | GEntry e => e
  | _ => mkLibraryEntry LibraryEntryC "" "" (library "" []) [] None Range_zero "" [] []
  end.

(** Suites with the given statements in their setting section. *)
Definition suite_with (stmts : list Statement) : Namespace :=
  Namespace__init__ [SettingSection stmts] "/t/suite.robot" None.

Definition initialized (co : forall A : Type, list A -> list A) (stmts : list Statement)
    : Namespace * option PyExc :=
  ensure_initialized uri_from_path path_parent DEFAULT_LIBRARIES suite_manager co 5
    (suite_with stmts).

(** A suite whose variable section has a name that is not closed. *)
Definition unclosed_suite : Model :=
  [VariableSection
     [StVariable (mkVariableNode "${A}" (Some (mkToken 2 0 4 "${A}")));
      StVariable (mkVariableNode "${B" (Some (mkToken 3 0 3 "${B")))]].

Definition unclosed_namespace : Namespace :=
  Namespace__init__ unclosed_suite "/t/suite.robot" None.

(** An imports manager every call of which is cancelled. *)
Definition cancelling_manager : ImportsManager :=
  mkImportsManager
    (fun _ _ => Raise CancelledError)
    (fun _ _ _ => Raise CancelledError)
    (fun _ _ => Raise CancelledError)
    (fun _ _ _ => Raise CancelledError)
    (fun _ _ => Raise CancelledError)
    None.

(** The suite that imports [a.resource] and [MyOs], opened in a document
    that holds nothing yet, and in a document that holds its imports and a
    snapshot. *)
Definition with_document : Namespace :=
  Namespace__init__ [SettingSection [Resource 2 "a.resource"; Library 3 "MyOs" None]]
    "/t/suite.robot" (Some (mkTextDocument None None)).

Definition with_snapshot : Namespace :=
  Namespace__init__ [SettingSection [Resource 2 "a.resource"; Library 3 "MyOs" None]]
    "/t/suite.robot"
    (Some (mkTextDocument
             (Some (ImportVisitor_get "/t/suite.robot"
                      [SettingSection [Resource 2 "a.resource"; Library 3 "MyOs" None]]))
             (Some (mkDataEntry [] [] [] [])))).

(** A finder on the initialized namespace of the suite that imports
    [OperatingSystem] and [MyOs], and one on the suite that imports
    [a.resource]. *)
Definition conflict_finder : FinderState :=
  mkFinderState
    (fst (ensure_initialized uri_from_path path_parent DEFAULT_LIBRARIES
            (manager conflict_libs [] None) in_order 5 (conflict_namespace None)))
    KeywordFinder__init__.

Definition resource_finder : FinderState :=
  mkFinderState (fst (top in_order [resource_a])) KeywordFinder__init__.

(** A suite that imports [a.resource], [b.resource] and [a.resource] once
    more, with an imports manager that knows both files. *)
Definition two_files : list ResourceFile :=
  [mkResourceFile "/t/a.resource" [] ["Log In"];
   mkResourceFile "/t/b.resource" [] ["Log Out"]].

Definition two_files_manager : ImportsManager := manager conflict_libs two_files None.

Definition resource_b : Import := import_resource 3 "b.resource".

Definition a_b_a : list Statement :=
  [Resource 2 "a.resource"; Resource 3 "b.resource"; Resource 6 "a.resource"].

Definition initialized_a_b_a (co : forall A : Type, list A -> list A)
    : Namespace * option PyExc :=
  ensure_initialized uri_from_path path_parent DEFAULT_LIBRARIES two_files_manager co 5
    (suite_with a_b_a).

(** A library whose document reports an error in a file that is given by a
    relative path. *)
Definition broken_doc : LibraryDoc :=
  mkLibraryDoc "Broken" (Some "/lib/Broken.py") [keyword "Broken" "Run"]
    (Some [mkError "cannot import helper" "ImportError" (Some "helper.py") (Some 3%Z)])
    None [] 0.

Definition broken_manager : ImportsManager :=
  manager (conflict_libs ++ [broken_doc]) suite_files None.

Definition library_broken : Import := import_library 3 "Broken".

Definition relative_path_error : PyExc :=
  ValueError "relative path can't be expressed as a file URI".

(** The import [Resource  a.resource] on line [l] of a file that was opened
    under the relative path [suite.robot]. *)
Definition resource_from_relative (l : Z) : Import :=
  ResourceImport (mkSourceEntity l 0 l 22 "suite.robot") (Some "a.resource")
    (Some (name_token l "a.resource")).

End Inputs.

(* ===================================================================== *)
(** ** The merge of variables as the specification words it *)
(* ===================================================================== *)

(** Canonical equality of two variable names: both have a base and the
    normalized bases coincide. *)
Definition canonically_equal (a b : string) : bool :=
  match VariableMatcher__init__ a, VariableMatcher__init__ b with
  | Ok ma, Ok mb => VariableMatcher__eq__ ma mb
  | _, _ => false
  end.

(** First match wins under canonical equality: the first definition of the
    chain whose name is canonically equal to [name]. *)
Definition first_canonical_match (chain : list VariableDefinition) (name : string)
    : option VariableDefinition :=
  find (fun v => match var_name v with
                 | Some n => canonically_equal n name
                 | None => false
                 end) chain.

(** The names of the chain that are canonically equal to [name] have the
    hash of [name]; so it is when they are spelled as [name]. *)
Definition hash_agrees_on (str_hash : string -> Z) (chain : list VariableDefinition)
    (name : string) : bool :=
  forallb (fun v => match var_name v with
                    | Some n =>
                        if canonically_equal n name
                        then (str_hash n =? str_hash name)%Z else true
                    | None => true
                    end) chain.

(** The key [get_variables] stores a definition under. *)
Definition key_of (v : VariableDefinition) : option VariableMatcher :=
  match var_name v with
  | Some n =>
      match VariableMatcher__init__ n with
      | Ok k => Some k
      | Raise _ => None
      end
  | None => None
  end.

(** The first definition of the chain whose key a dictionary lookup of [m]
    accepts. *)
Definition first_key_match (str_hash : string -> Z) (chain : list VariableDefinition)
    (m : VariableMatcher) : option VariableDefinition :=
  find (fun v => match key_of v with
                 | Some k => key_matches str_hash k m
                 | None => false
                 end) chain.

(** The name of the definition, if any, has a base. *)
Definition valid_name (v : VariableDefinition) : bool :=
  match var_name v with
  | Some n =>
      match VariableMatcher__init__ n with
      | Ok _ => true
      | Raise _ => false
      end
  | None => true
  end.

Definition all_valid (chain : list VariableDefinition) : bool := forallb valid_name chain.

(* ===================================================================== *)
(** ** Keyword resolution as the specification words it *)
(* ===================================================================== *)

(** The matches of the explicit step: over every split [owner.kw] of a
    dotted name, the entries named [owner] that have [kw]. *)
Definition explicit_matches (ns : Namespace) (name : string) : list Match :=
  if contains_char "." name
  then flat_map (fun p => find_keywords ns (fst p) (snd p)) (_yield_owner_and_kw_names name)
  else [].

Definition resource_matches (ns : Namespace) (name : string) : list Match :=
  matches_in (od_values (_resources ns)) name.

Definition library_matches (ns : Namespace) (name : string) : list Match :=
  matches_in (od_values (_libraries ns)) name.

(** The order of resolution with the first hit winning and nothing else:
    own keywords, explicit matches, resources, libraries, then the name
    without its BDD prefix; [None] when no step has a match. *)
Inductive first_hit_wins (own : KeywordStore) (ns : Namespace)
    : string -> option KeywordDoc -> Prop :=
| hit_self : forall name k,
    keywords_get own name = Some k ->
    first_hit_wins own ns name (Some k)
| hit_explicit : forall name m,
    keywords_get own name = None ->
    In m (explicit_matches ns name) ->
    first_hit_wins own ns name (Some (snd m))
| hit_resource : forall name m,
    keywords_get own name = None ->
    explicit_matches ns name = [] ->
    In m (resource_matches ns name) ->
    first_hit_wins own ns name (Some (snd m))
| hit_library : forall name m,
    keywords_get own name = None ->
    explicit_matches ns name = [] ->
    resource_matches ns name = [] ->
    In m (library_matches ns name) ->
    first_hit_wins own ns name (Some (snd m))
| hit_bdd : forall name prefix r,
    keywords_get own name = None ->
    explicit_matches ns name = [] ->
    resource_matches ns name = [] ->
    library_matches ns name = [] ->
    bdd_prefix name = Some prefix ->
    first_hit_wins own ns (drop (String.length prefix) name) r ->
    first_hit_wins own ns name r
| hit_none : forall name,
    keywords_get own name = None ->
    explicit_matches ns name = [] ->
    resource_matches ns name = [] ->
    library_matches ns name = [] ->
    bdd_prefix name = None ->
    first_hit_wins own ns name None.

(** What a step of the search decides: no match, a keyword (with the
    warnings it adds), or the end of the search with an error. *)
Inductive Verdict :=
| Miss
| Hit (k : KeywordDoc) (warnings : list DiagnosticsEntry)
| Stop (error : DiagnosticsEntry).

Definition ambiguous (name : string) (found : list Match) (implicit : bool) : Verdict :=
  Stop (KeywordError (_create_multiple_keywords_found_message name found implicit) ERROR).

(** Explicit step: one match is a hit, several end the search. *)
Definition explicit_verdict (ns : Namespace) (name : string) : Verdict :=
  match explicit_matches ns name with
  | [] => Miss
  | [m] => Hit (snd m) []
  | found => ambiguous name found false
  end.

(** Several matches are narrowed by the search order. *)
Definition narrowed (ns : Namespace) (found : list Match) : list Match :=
  match found with
  | _ :: _ :: _ => _get_keyword_based_on_search_order (search_order ns) found
  | _ => found
  end.

(** Implicit step over the resources. *)
Definition resource_verdict (ns : Namespace) (name : string) : Verdict :=
  match narrowed ns (resource_matches ns name) with
  | [] => Miss
  | [m] => Hit (snd m) []
  | found => ambiguous name found true
  end.

(** Implicit step over the libraries: of two matches of which one is from a
    standard library, the other one wins with a warning. *)
Definition library_verdict (ns : Namespace) (called : string) : Verdict :=
  match narrowed ns (library_matches ns called) with
  | [] => Miss
  | [m] => Hit (snd m) []
  | [m1; m2] =>
      if in_stdlibs (name (fst m1)) then
        Hit (snd m2)
          [KeywordError
             (_create_custom_and_standard_keyword_conflict_warning_message m2 m1) WARNING]
      else if in_stdlibs (name (fst m2)) then
        Hit (snd m1)
          [KeywordError
             (_create_custom_and_standard_keyword_conflict_warning_message m1 m2) WARNING]
      else ambiguous called [m1; m2] true
  | found => ambiguous called found true
  end.

(** The outcome of a resolution. *)
Inductive Outcome :=
| Resolved (k : KeywordDoc) (warnings : list DiagnosticsEntry)
| NotFound
| Stopped (error : DiagnosticsEntry).

Definition outcome_of (v : Verdict) : Outcome :=
  match v with
  | Miss => NotFound
  | Hit k ws => Resolved k ws
  | Stop e => Stopped e
  end.

(** The order of resolution, the first step that does not miss deciding:
    an empty name ends the search; then own keywords, the explicit step for
    a dotted name, resources, libraries, and the name without its BDD
    prefix. *)
Inductive resolves (own : KeywordStore) (ns : Namespace) : string -> Outcome -> Prop :=
| resolves_empty :
    resolves own ns "" (Stopped (KeywordError "Keyword name cannot be empty." ERROR))
| resolves_self : forall name k,
    name <> "" ->
    keywords_get own name = Some k ->
    resolves own ns name (Resolved k [])
| resolves_explicit : forall name,
    name <> "" ->
    keywords_get own name = None ->
    explicit_verdict ns name <> Miss ->
    resolves own ns name (outcome_of (explicit_verdict ns name))
| resolves_resource : forall name,
    name <> "" ->
    keywords_get own name = None ->
    explicit_verdict ns name = Miss ->
    resource_verdict ns name <> Miss ->
    resolves own ns name (outcome_of (resource_verdict ns name))
| resolves_library : forall name,
    name <> "" ->
    keywords_get own name = None ->
    explicit_verdict ns name = Miss ->
    resource_verdict ns name = Miss ->
    library_verdict ns name <> Miss ->
    resolves own ns name (outcome_of (library_verdict ns name))
| resolves_bdd : forall name prefix out,
    name <> "" ->
    keywords_get own name = None ->
    explicit_verdict ns name = Miss ->
    resource_verdict ns name = Miss ->
    library_verdict ns name = Miss ->
    bdd_prefix name = Some prefix ->
    resolves own ns (drop (String.length prefix) name) out ->
    resolves own ns name out
| resolves_none : forall name,
    name <> "" ->
    keywords_get own name = None ->
    explicit_verdict ns name = Miss ->
    resource_verdict ns name = Miss ->
    library_verdict ns name = Miss ->
    bdd_prefix name = None ->
    resolves own ns name NotFound.

(** What [find_keyword] returns and leaves in [self.diagnostics] for an
    outcome. *)
Definition answer (name : string) (out : Outcome)
    : option KeywordDoc * list DiagnosticsEntry :=
  match out with
  | Resolved k ws => (Some k, ws)
  | NotFound => (None, [no_keyword_found (StrName name)])
  | Stopped e => (None, [e])
  end.

(** The claim that the first hit wins and that a lookup without any match
    returns [None] and records the error that no keyword was found. *)
Definition first_hit_claim (own : KeywordStore) (ns : Namespace) (name : string)
    (result : option KeywordDoc) (recorded : list DiagnosticsEntry) : Prop :=
  first_hit_wins own ns name result /\
  (result = None -> In (no_keyword_found (StrName name)) recorded).

(** A step applied to the state of the finder. *)
Definition apply_verdict (v : Verdict) (s : FinderState)
    : FinderState * Search (option KeywordDoc) :=
  match v with
  | Miss => (s, Found None)
  | Hit k ws => (fold_left (fun s d => add_diagnostic d s) ws s, Found (Some k))
  | Stop e => (add_diagnostic e s, Cancel)
  end.

(** The document the finder takes the file's own keywords from. *)
Definition self_doc (await_libdoc : Result LibraryDoc) (s : FinderState)
    : Result LibraryDoc :=
  match self_library_doc (finder s) with
  | Some d => Ok d
  | None => snd (get_library_doc await_libdoc (namespace s))
  end.

(** What [_find_keyword] gives for an outcome, and the diagnostics added. *)
Definition search_of (out : Outcome) : Search (option KeywordDoc) :=
  match out with
  | Resolved k _ => Found (Some k)
  | NotFound => Found None
  | Stopped _ => Cancel
  end.

Definition emitted (out : Outcome) : list DiagnosticsEntry :=
  match out with
  | Resolved _ ws => ws
  | NotFound => []
  | Stopped e => [e]
  end.

(** Two namespaces with the same libraries, resources and search order. *)
Definition same_scope (a b : Namespace) : Prop :=
  _libraries a = _libraries b /\ _resources a = _resources b /\
  search_order a = search_order b.

(* ===================================================================== *)
(** ** Notions used to state the properties of the import loop *)
(* ===================================================================== *)

(** What the import loop reads and writes besides the diagnostics: the three
    maps and the source of the file. *)
Definition core (s : Namespace)
    : OrderedDict LibraryEntry * OrderedDict LibraryEntry * OrderedDict LibraryEntry * string :=
  (_libraries s, _resources s, _variables s, ns_source s).

(** Two states of a namespace with the same maps and the same source. *)
Definition agree (a b : Namespace) : Prop := core a = core b.

(** The state [a] with the maps and the source of [b]. *)
Definition graft (a b : Namespace) : Namespace :=
  mkNamespace (model a) (ns_source b) (document a) (_libraries b) (_libraries_matchers a)
    (_resources b) (_resources_matchers a) (_variables b) (_initialized a) (_analyzed a)
    (_library_doc a) (_imports a) (_own_variables a) (_diagnostics a) (_keywords a)
    (search_order a) (_finder a) (invalidated_calls a).

Definition is_prefix {A : Type} (l1 l2 : list A) : Prop := exists l, l2 = l1 ++ l.

(** A scheduler only rearranges the tasks. *)
Definition rearranges (completion_order : forall A : Type, list A -> list A) : Prop :=
  forall (A : Type) (l : list A), Permutation (completion_order A l) l.

(** The entries of a map that come from the file [src]. *)
Definition from_source (src : string) (d : OrderedDict LibraryEntry) : list LibraryEntry :=
  filter (fun e => source_is e (Some src)) (od_values d).

(** Two versions of the nested call that take agreeing states to agreeing
    states and raise the same. *)
Definition agree_runs
    (f g : list Import -> string -> Namespace -> Namespace * option PyExc) : Prop :=
  forall imps base s1 s2,
    agree s1 s2 ->
    agree (fst (f imps base s1)) (fst (g imps base s2)) /\
    snd (f imps base s1) = snd (g imps base s2).

(** What the import loop may do to a namespace: diagnostics, libraries and
    variables are only appended to, the keys of the resources keep their
    order, the source stays. *)
Definition extends (a b : Namespace) : Prop :=
  (exists out, _diagnostics b = _diagnostics a ++ out) /\
  (exists l, _libraries b = _libraries a ++ l) /\
  (exists l, _variables b = _variables a ++ l) /\
  is_prefix (od_keys (_resources a)) (od_keys (_resources b)) /\
  ns_source b = ns_source a.

Definition extends_runs
    (f : list Import -> string -> Namespace -> Namespace * option PyExc) : Prop :=
  forall imps base s, extends s (fst (f imps base s)).

(** The document, if any, holds no snapshot of an earlier initialization. *)
Definition no_snapshot (st : Namespace) : Prop :=
  match document st with
  | Some doc => data_DataEntry doc = None
  | None => True
  end.

(** A task for a default library that did not raise. *)
Definition returned {A : Type} (t : Result A * list Diagnostic) : Prop :=
  exists a, fst t = Ok a.

(** The claim that nothing is stored for an import: no entry of the three
    maps has the range and the source of the import. *)
Definition nothing_stored_for (v : Import) (s : Namespace) : Prop :=
  forall e,
    In e (od_values (_libraries s) ++ od_values (_resources s) ++ od_values (_variables s)) ->
    ~ (import_range e = Import_range v /\ import_source e = source (import_entity v)).

(** The claim that of the imports of one resource file the first is kept:
    the entries of the file in the resources map are that of the first import
    and no other. *)
Definition first_import_kept (first : LibraryEntry) (src : string)
    (resources : OrderedDict LibraryEntry) : Prop :=
  from_source src resources = [first].

(* ===================================================================== *)
(** ** common/types.py: order of positions, ranges *)
(* ===================================================================== *)

(** [Position.__ge__] *)
Definition Position__ge__ (self other : Position) : bool :=
  if (line other <? line self)%Z then true
  else if (line self =? line other)%Z then (character other <=? character self)%Z
  else false.

(** [Position.__gt__] *)
Definition Position__gt__ (self other : Position) : bool :=
  if (line other <? line self)%Z then true
  else if (line self =? line other)%Z then (character other <? character self)%Z
  else false.

(** [Position.__le__] *)
Definition Position__le__ (self other : Position) : bool :=
  if (line self <? line other)%Z then true
  else if (line self =? line other)%Z then (character self <=? character other)%Z
  else false.

(** [Position.__lt__] *)
Definition Position__lt__ (self other : Position) : bool :=
  if (line self <? line other)%Z then true
  else if (line self =? line other)%Z then (character self <? character other)%Z
  else false.

(** [Position.is_in_range]: [range.start <= self < range.end] *)
Definition is_in_range (self : Position) (range : Range) : bool :=
  Position__le__ (range_start range) self && Position__lt__ self (range_end range).

(** [Range.extend] *)
Definition Range_extend (self : Range) (start_line start_character end_line end_character : Z)
    : Range :=
  mkRange
    (mkPosition (line (range_start self) + start_line)
                (character (range_start self) + start_character))
    (mkPosition (line (range_end self) + end_line)
                (character (range_end self) + end_character)).

(* ===================================================================== *)
(** ** robotframework/utils/ast.py *)
(* ===================================================================== *)

(** [range_from_token] *)
Definition range_from_token (token : Token) : Range :=
  mkRange (mkPosition (lineno token - 1) (tok_col_offset token))
          (mkPosition (lineno token - 1) (tok_end_col_offset token)).

(** [range_from_node], for a node with the position attributes of [ast.AST] *)
Definition range_from_node (node : ImportNode) : Range :=
  mkRange (mkPosition (n_lineno node - 1) (n_col_offset node))
          (mkPosition (match n_end_lineno node with Some l => l - 1 | None => -1 end)
                      (match n_end_col_offset node with Some c => c | None => -1 end)).

(** [range_from_token_or_node] *)
Definition range_from_token_or_node (node : option ImportNode) (token : option Token)
    : Range :=
  match token with
  | Some t => range_from_token t
  | None =>
      match node with
      | Some n => range_from_node n
      | None => Range_zero
      end
  end.

Definition tab_char : ascii := ascii_of_nat 9.

(** [whitespace_at_begin_of_token]: a space counts 1, a tab 2. *)
Fixpoint whitespace_at_begin (s : string) : Z :=
  match s with
  | EmptyString => 0
  | String c s' =>
      if (c =? " ")%char then 1 + whitespace_at_begin s'
      else if (c =? tab_char)%char then 2 + whitespace_at_begin s'
      else 0
  end.

Definition whitespace_at_begin_of_token (token : Token) : Z :=
  whitespace_at_begin (value token).

(** [whitespace_from_begin_of_token]: the leading spaces and tabs. *)
Fixpoint whitespace_from_begin (s : string) : string :=
  match s with
  | EmptyString => EmptyString
  | String c s' =>
      if ((c =? " ")%char || (c =? tab_char)%char)%bool
      then String c (whitespace_from_begin s')
      else EmptyString
  end.

Definition whitespace_from_begin_of_token (token : Token) : string :=
  whitespace_from_begin (value token).

(** [get_tokens_at_position]: the tokens whose range holds the position or
    ends at it. *)
Definition Position_eqb (a b : Position) : bool :=
  ((line a =? line b)%Z && (character a =? character b)%Z)%bool.

Definition get_tokens_at_position (tokens : list Token) (position : Position) : list Token :=
  filter (fun t => is_in_range position (range_from_token t)
                   || Position_eqb (range_end (range_from_token t)) position) tokens.

(** The node of an import statement with the import [ImportVisitor] collects
    for it. *)
Definition import_of (src : string) (s : Statement) : option (ImportNode * Import) :=
  match s, ImportVisitor_visit_statement src s with
  | StLibraryImport n, [i] => Some (n, i)
  | StResourceImport n, [i] => Some (n, i)
  | StVariablesImport n, [i] => Some (n, i)
  | _, _ => None
  end.

(* ===================================================================== *)
(** ** diagnostics/entities.py: a matcher compared with a string *)
(* ===================================================================== *)

(** What Robot's [normalize] raises for [None]: it calls [string.split()]. *)
Definition AttributeError_split : PyExc :=
  mkExc OtherC "AttributeError" "'NoneType' object has no attribute 'split'".

(** [VariableMatcher.__eq__] against a [str]: the base of the string is
    searched and normalized; a string without a base has [match.base] equal
    to [None]. *)
Definition VariableMatcher__eq__str (self : VariableMatcher) (o : string) : Result bool :=
  match Robot.search_base "$@&%" o with
  | Some base => Ok (normalized_name self =? Robot.normalize base "_")
  | None => Raise AttributeError_split
  end.

(** A key of the command-line variables without braces and backslashes. *)
Fixpoint plain_key (k : string) : bool :=
  match k with
  | EmptyString => true
  | String c k' =>
      negb ((c =? "{")%char || (c =? "}")%char || (c =? bs_char)%char) && plain_key k'
  end.

(** The first definition of a chain whose name has no base. *)
Definition first_invalid (chain : list VariableDefinition) : option VariableDefinition :=
  find (fun v => negb (valid_name v)) chain.

(* ===================================================================== *)
(** ** diagnostics/namespace.py: change notifications *)
(* ===================================================================== *)

(** [self.document.set_data(Namespace.DataEntry, None)], when there is a
    document. *)
Definition drop_snapshot (st : Namespace) : Namespace :=
  match document st with
  | Some doc => set_document (Some (mkTextDocument (data_Namespace doc) None)) st
  | None => st
  end.

(** [any(e for e in entries.values() if e.library_doc.source == p.source)]
    for some [p] of the notification. *)
Definition holds_source_of (entries : OrderedDict LibraryEntry) (changed : list LibraryDoc)
    : bool :=
  existsb (fun p => existsb (fun e => source_is e (ld_source p)) (od_values entries)) changed.

(** [Namespace.resources_changed] *)
Definition resources_changed (resources : list LibraryDoc) (st : Namespace) : Namespace :=
  if holds_source_of (_resources st) resources then invalidate (drop_snapshot st) else st.

(** [Namespace.variables_changed] *)
Definition variables_changed (variables : list LibraryDoc) (st : Namespace) : Namespace :=
  if holds_source_of (_variables st) variables then invalidate (drop_snapshot st) else st.

(** What the import loop leaves alone: the namespace without its three maps
    and its diagnostics. *)
Definition frame (s : Namespace) : Namespace :=
  set_diagnostics [] (set_variables [] (set_resources [] (set_libraries [] s))).

(** The imports of the file as [get_imports] computes them when they are
    not held yet. *)
Definition file_imports (st : Namespace) : list Import :=
  ImportVisitor_get (ns_source st) (model st).

(** The imports stored in the document, if any, are those of the file. *)
Definition stored_imports_current (st : Namespace) : Prop :=
  match document st with
  | Some doc =>
      match data_Namespace doc with
      | Some old => old = file_imports st
      | None => True
      end
  | None => False
  end.

(** The number of occurrences of a character in a string. *)
Fixpoint count_char (c : ascii) (s : string) : nat :=
  match s with
  | EmptyString => 0
  | String c' s' => (if (c =? c')%char then 1 else 0) + count_char c s'
  end.


(* ===================================================================== *)
(** ** Notions used to state what the commit loop stores *)
(* ===================================================================== *)

(** A top-level import of the library named [BuiltIn] without alias, which
    the loop leaves out. *)
Definition skipped_builtin (top_level : bool) (e : LibraryEntry) : bool :=
  top_level && (name e =? BUILTIN_LIBRARY_NAME)
  && match alias e with None => true | Some _ => false end.

(** Libraries are committed in source order: going through the results of
    the tasks in the order of the imports, with [acc] the libraries so far,
    the result of a library import adds its entry under its key when the import
    is not skipped and the key is not there yet, and nothing otherwise; the
    result of a resource import adds what the imports of the resource bring;
    any other result adds nothing. [segs] holds what each import adds. *)
Fixpoint libraries_in_source_order (top_level : bool) (acc : OrderedDict LibraryEntry)
    (tasks : list Gathered) (segs : list (OrderedDict LibraryEntry)) : Prop :=
  match tasks, segs with
  | [], [] => True
  | g :: tasks', seg :: segs' =>
      match g with
      | GEntry e =>
          match entry_class e with
          | LibraryEntryC =>
              seg = if skipped_builtin top_level e || od_mem acc (entry_key e)
                    then [] else [(entry_key e, e)]
          | ResourceEntryC => True
          | VariablesEntryC => seg = []
          end
      | _ => seg = []
      end
      /\ libraries_in_source_order top_level (acc ++ seg) tasks' segs'
  | _, _ => False
  end.

(** The entry that a top-level task returned has been committed: its key is
    in the map of its kind. The exceptions are those of the code: the library
    [BuiltIn] without alias, the file itself as a resource, and a resource
    whose source is the empty string. *)
Definition committed (e : LibraryEntry) (s : Namespace) : Prop :=
  match entry_class e with
  | LibraryEntryC =>
      skipped_builtin true e = true \/ od_mem (_libraries s) (entry_key e) = true
  | VariablesEntryC => od_mem (_variables s) (entry_key e) = true
  | ResourceEntryC =>
      ld_source (library_doc e) = Some (ns_source s) \/
      ld_source (library_doc e) = Some "" \/
      od_mem (_resources s) (entry_key e) = true
  end.

(** Libraries are added at the end, each under its own key, which was not
    there. *)
Definition adds_fresh_keys (a b : Namespace) : Prop :=
  exists l, _libraries b = _libraries a ++ l /\
            forall k e, In (k, e) l -> od_mem (_libraries a) k = false /\ k = entry_key e.

(** The documents of resource files are named after their source: the name
    is not empty and is given by the source, as for a file stem
    ([library_doc.py] and [imports_manager.py] are not among the sources). *)
Definition names_resources_by_source (m : ImportsManager) (f : string -> string) : Prop :=
  forall n base doc src,
    get_libdoc_for_resource_import m n base = Ok doc ->
    ld_source doc = Some src ->
    ld_name doc = f src /\ f src <> "".

(** A resources map in which every entry sits under the name of its source
    and no key occurs twice. *)
Definition keyed_by_source (f : string -> string) (d : OrderedDict LibraryEntry) : Prop :=
  NoDup (od_keys d) /\
  forall k e, In (k, e) d -> exists src, ld_source (library_doc e) = Some src /\ k = f src.

(** P4: at most one entry of the resources map for a source path. *)
Definition one_entry_per_source (d : OrderedDict LibraryEntry) : Prop :=
  forall src, length (from_source src d) <= 1.

(** A resource entry sits under the name of its source. *)
Definition named_by_source (f : string -> string) (e : LibraryEntry) : Prop :=
  entry_class e = ResourceEntryC ->
  forall src, ld_source (library_doc e) = Some src -> entry_key e = f src.

(** No other resource file that the imports manager resolves has the name
    of the file [src]. *)
Definition name_of_one_file (m : ImportsManager) (f : string -> string) (src : string)
    : Prop :=
  forall n base doc src',
    get_libdoc_for_resource_import m n base = Ok doc ->
    ld_source doc = Some src' ->
    f src' = f src -> src' = src.

(** A resource entry with the name of the file [src] is an entry of that
    file. *)
Definition alone_under_name (f : string -> string) (src : string) (e : LibraryEntry)
    : Prop :=
  entry_class e = ResourceEntryC ->
  forall src', ld_source (library_doc e) = Some src' -> f src' = f src -> src' = src.

(** The document of a default library has the name of the library
    ([library_doc.py] is not among the sources). *)
Definition names_default_libraries (m : ImportsManager) (DEFAULT_LIBRARIES : list string)
    (base_dir : string) : Prop :=
  forall l doc,
    In l DEFAULT_LIBRARIES ->
    get_libdoc_for_library_import m l [] base_dir = Ok doc ->
    ld_name doc = l.

(** The entry of a default library: no alias, no arguments, no import
    range and no import source. *)
Definition default_entry (library : string) (doc : LibraryDoc) : LibraryEntry :=
  mkLibraryEntry LibraryEntryC (ld_name doc) library doc [] None Range_zero "" [] [].

Definition Range_eqb (a b : Range) : bool :=
  (line (range_start a) =? line (range_start b))%Z
  && (character (range_start a) =? character (range_start b))%Z
  && (line (range_end a) =? line (range_end b))%Z
  && (character (range_end a) =? character (range_end b))%Z.

(** [l1] is [l2] with some elements left out. *)
Fixpoint is_subsequence {A} (eqb : A -> A -> bool) (l1 l2 : list A) : bool :=
  match l1, l2 with
  | [], _ => true
  | _ :: _, [] => false
  | x :: l1', y :: l2' =>
      if eqb x y then is_subsequence eqb l1' l2' else is_subsequence eqb l1 l2'
  end.

(** The claim that the entries of a map are in the source order of their
    Import nodes: the ranges of the imports the entries come from, in the
    order of the map, are ranges of the imports of the file taken in their
    order. *)
Definition in_import_order (imports : list Import) (d : OrderedDict LibraryEntry) : bool :=
  is_subsequence Range_eqb (map import_range (od_values d)) (map Import_range imports).

(* ===================================================================== *)
(** ** Properties *)
(* ===================================================================== *)

(** *** invalidate *)

(** C8: [invalidate] empties the libraries, resources and variables maps,
    unsets the cached imports, own variables, keywords, library document,
    keyword finder and matcher tables, clears the initialized and analyzed
    flags and the diagnostics, all in the one step [reset_caches], and then
    calls the invalidation callback exactly once. *)
Theorem invalidate_resets_all_and_calls_back_once :
  forall s : Namespace,
    invalidate s = call_invalidated_callback (reset_caches s) /\
    _libraries (invalidate s) = [] /\
    _resources (invalidate s) = [] /\
    _variables (invalidate s) = [] /\
    _libraries_matchers (invalidate s) = None /\
    _resources_matchers (invalidate s) = None /\
    _imports (invalidate s) = None /\
    _own_variables (invalidate s) = None /\
    _keywords (invalidate s) = None /\
    _library_doc (invalidate s) = None /\
    _finder (invalidate s) = None /\
    _initialized (invalidate s) = false /\
    _analyzed (invalidate s) = false /\
    _diagnostics (invalidate s) = [] /\
    invalidated_calls (reset_caches s) = invalidated_calls s /\
    invalidated_calls (invalidate s) = S (invalidated_calls s).
Proof.
  intros s. unfold invalidate, call_invalidated_callback, reset_caches. simpl.
  repeat split; reflexivity.
Qed.

(** *** VariableMatcher *)

Lemma matcher_of_a : VariableMatcher__init__ "${a}" = Ok (mkVariableMatcher "${a}" "a" "a").
Proof. reflexivity. Qed.

Lemma matcher_of_A : VariableMatcher__init__ "${A}" = Ok (mkVariableMatcher "${A}" "A" "a").
Proof. reflexivity. Qed.

(** C10, at the names [${a}] and [${A}]: both matchers are built, they are
    equal by [__eq__], yet [__hash__] is the hash of the raw name, so whenever
    Python's string hash tells the two spellings apart the hashes differ and a
    dictionary holding one of them does not find it under the other. *)
Theorem VariableMatcher_equal_with_different_hash :
  forall str_hash : string -> Z,
    str_hash "${a}" <> str_hash "${A}" ->
    exists ma mb : VariableMatcher,
      VariableMatcher__init__ "${a}" = Ok ma /\
      VariableMatcher__init__ "${A}" = Ok mb /\
      VariableMatcher__eq__ ma mb = true /\
      VariableMatcher__hash__ str_hash ma <> VariableMatcher__hash__ str_hash mb /\
      (forall (V : Type) (v : V), md_get str_hash [(ma, v)] mb = None).
Proof.
  intros str_hash Hneq.
  exists (mkVariableMatcher "${a}" "a" "a"), (mkVariableMatcher "${A}" "A" "a").
  split; [apply matcher_of_a|]. split; [apply matcher_of_A|].
  split; [reflexivity|]. split; [exact Hneq|].
  intros V v. unfold md_get, key_matches, VariableMatcher__hash__. simpl vm_name.
  apply Z.eqb_neq in Hneq. rewrite Hneq. rewrite andb_false_r. reflexivity.
Qed.

Lemma VariableMatcher_equal_with_different_hash_witness :
  World.fnv_hash "${a}" <> World.fnv_hash "${A}" /\
  exists ma mb : VariableMatcher,
    VariableMatcher__init__ "${a}" = Ok ma /\
    VariableMatcher__init__ "${A}" = Ok mb /\
    VariableMatcher__eq__ ma mb = true /\
    VariableMatcher__hash__ World.fnv_hash ma <> VariableMatcher__hash__ World.fnv_hash mb /\
    (forall (V : Type) (v : V), md_get World.fnv_hash [(ma, v)] mb = None).
Proof.
  split.
  - vm_compute. discriminate.
  - apply (VariableMatcher_equal_with_different_hash World.fnv_hash).
    vm_compute. discriminate.
Defined.

(** *** get_variables and find_variable *)

Section MergeFacts.

Variable str_hash : string -> Z.

Lemma key_matches_sym :
  forall a b, key_matches str_hash a b = key_matches str_hash b a.
Proof.
  intros a b. unfold key_matches, VariableMatcher__eq__.
  rewrite (String.eqb_sym (normalized_name b)), (Z.eqb_sym (VariableMatcher__hash__ str_hash a)).
  reflexivity.
Qed.

Lemma key_matches_trans :
  forall a b c,
    key_matches str_hash a b = true -> key_matches str_hash b c = true ->
    key_matches str_hash a c = true.
Proof.
  intros a b c. unfold key_matches, VariableMatcher__eq__.
  rewrite !andb_true_iff, !String.eqb_eq, !Z.eqb_eq.
  intros [E1 H1] [E2 H2]. split; congruence.
Qed.

Lemma md_get_app :
  forall (V : Type) (d1 d2 : MatcherDict V) m,
    md_get str_hash (d1 ++ d2) m
    = match md_get str_hash d1 m with
      | Some x => Some x
      | None => md_get str_hash d2 m
      end.
Proof.
  intros V d1 d2 m. induction d1 as [|[k v] d1 IH]; simpl; [reflexivity|].
  destruct (key_matches str_hash k m); [reflexivity|apply IH].
Qed.

Lemma md_set_fresh :
  forall (V : Type) (d : MatcherDict V) k v,
    md_mem str_hash d k = false -> md_set str_hash d k v = d ++ [(k, v)].
Proof.
  intros V d k v. unfold md_mem. induction d as [|[k' v'] d IH]; simpl; [reflexivity|].
  destruct (key_matches str_hash k' k); [discriminate|].
  intros H. rewrite (IH H). reflexivity.
Qed.

(** A key that matches a stored key is found. *)
Lemma md_get_some_of_match :
  forall (V : Type) (d : MatcherDict V) k m,
    md_mem str_hash d k = true -> key_matches str_hash k m = true ->
    md_get str_hash d m <> None.
Proof.
  intros V d k m. unfold md_mem. induction d as [|[k' v'] d IH]; simpl; [discriminate|].
  destruct (key_matches str_hash k' k) eqn:E.
  - intros _ Hm. rewrite (key_matches_trans _ _ _ E Hm). discriminate.
  - intros H Hm. destruct (key_matches str_hash k' m); [discriminate|]. apply IH; assumption.
Qed.

(** What the merge loop leaves under a key: the value stored before, or
    else the first definition of the chain whose key matches. *)
Lemma merge_variables_get :
  forall chain d0 d,
    merge_variables str_hash chain d0 = Ok d ->
    forall m,
      md_get str_hash d m
      = match md_get str_hash d0 m with
        | Some x => Some x
        | None => first_key_match str_hash chain m
        end.
Proof.
  induction chain as [|var rest IH]; intros d0 d H m.
  - simpl in H. injection H as <-. simpl. destruct (md_get str_hash d0 m); reflexivity.
  - simpl in H. unfold first_key_match, key_of. simpl.
    destruct (var_name var) as [n|]; [|apply IH; exact H].
    destruct (VariableMatcher__init__ n) as [k|e]; simpl in H; [|discriminate].
    destruct (md_mem str_hash d0 k) eqn:Hmem; simpl in H.
    + rewrite (IH _ _ H m).
      destruct (md_get str_hash d0 m) eqn:G; [reflexivity|].
      destruct (key_matches str_hash k m) eqn:Km; [|reflexivity].
      exfalso. exact (md_get_some_of_match _ _ _ _ Hmem Km G).
    + rewrite (IH _ _ H m), (md_set_fresh _ _ _ _ Hmem), md_get_app. simpl.
      destruct (md_get str_hash d0 m); [reflexivity|].
      destruct (key_matches str_hash k m); reflexivity.
Qed.

(** The loop raises only for a name without a base. *)
Lemma merge_variables_ok :
  forall chain d0,
    all_valid chain = true -> exists d, merge_variables str_hash chain d0 = Ok d.
Proof.
  induction chain as [|var rest IH]; intros d0 H; simpl.
  - eexists; reflexivity.
  - simpl in H. apply andb_true_iff in H. destruct H as [Hv Hr].
    unfold valid_name in Hv.
    destruct (var_name var) as [n|]; [|apply IH; exact Hr].
    destruct (VariableMatcher__init__ n) as [k|e]; [|discriminate]. simpl.
    destruct (md_mem str_hash d0 k); simpl; apply IH; exact Hr.
Qed.

Variable uri_from_path : string -> Result string.
Variable path_parent : string -> string.
Variable DEFAULT_LIBRARIES : list string.
Variable imports_manager : ImportsManager.
Variable completion_order : forall A : Type, list A -> list A.
Variable BUILTIN_VARIABLES : list string.
Variable Node : Type.
Variable is_Keyword_or_TestCase : Node -> bool.
Variable BlockVariableVisitor_get : string -> Node -> option Position -> list VariableDefinition.

(** [find_variable] on an initialized chain of valid names: the first
    definition of the chain whose matcher has the hash of the probe and is
    equal to it. *)
Lemma find_variable_first_key_match :
  forall depth st name nodes position m,
    VariableMatcher__init__ name = Ok m ->
    let run :=
      ensure_initialized uri_from_path path_parent DEFAULT_LIBRARIES imports_manager
        completion_order depth st in
    snd run = None ->
    let own := get_own_variables (fst run) in
    let chain :=
      chained_variables imports_manager BUILTIN_VARIABLES Node is_Keyword_or_TestCase
        BlockVariableVisitor_get (fst own) (snd own) nodes position in
    all_valid chain = true ->
    snd (find_variable uri_from_path path_parent DEFAULT_LIBRARIES imports_manager
           completion_order BUILTIN_VARIABLES Node is_Keyword_or_TestCase
           BlockVariableVisitor_get str_hash depth st name nodes position)
    = Ok (first_key_match str_hash chain m).
Proof.
  intros depth st name nodes position m Hm run Hrun own chain Hvalid.
  unfold find_variable, get_variables. fold run.
  destruct run as [st1 raised] eqn:Er. simpl in Hrun. subst raised.
  subst own chain. simpl fst in *.
  destruct (get_own_variables st1) as [st2 vs] eqn:Eo. simpl in *.
  destruct (merge_variables_ok _ [] Hvalid) as [d Hd].
  rewrite Hd. simpl. rewrite Hm. simpl.
  rewrite (merge_variables_get _ _ _ Hd m). reflexivity.
Qed.

End MergeFacts.

Section VariablesSuite.
Import World Inputs.

Variable str_hash : string -> Z.

Let variables_of (n : string) :=
  find_variable uri_from_path path_parent DEFAULT_LIBRARIES variables_manager in_order
    BUILTIN_VARIABLES Node is_Keyword_or_TestCase BlockVariableVisitor_get str_hash 10
    variables_namespace n None None.

Let chain :=
  let '(st, _) :=
    ensure_initialized uri_from_path path_parent DEFAULT_LIBRARIES variables_manager
      in_order 10 variables_namespace in
  let '(st, own) := get_own_variables st in
  chained_variables variables_manager BUILTIN_VARIABLES Node is_Keyword_or_TestCase
    BlockVariableVisitor_get st own None None.

(** C3, at a suite that declares [${NAME}] and is run with the command-line
    variable [name]: the chain of [get_variables] has the file's own
    definition before the command-line one and the two names are canonically
    equal, so the first match is the file's own definition; but the two
    matchers hash differently, both are stored, and [find_variable] answers
    [${name}] with the command-line definition and does not find [${Name}]
    at all. *)
Theorem find_variable_misses_first_canonical_match :
  str_hash "${NAME}" <> str_hash "${name}" ->
  str_hash "${NAME}" <> str_hash "${Name}" ->
  str_hash "${name}" <> str_hash "${Name}" ->
  first_canonical_match chain "${name}" = Some own_NAME /\
  first_canonical_match chain "${Name}" = Some own_NAME /\
  snd (variables_of "${name}") = Ok (Some cli_name) /\
  snd (variables_of "${Name}") = Ok None /\
  cli_name <> own_NAME.
Proof.
  intros H1 H2 H3.
  apply Z.eqb_neq in H1, H2, H3.
  split; [reflexivity|]. split; [reflexivity|].
  split; [|split; [|discriminate]].
  - unfold variables_of.
    rewrite (find_variable_first_key_match str_hash uri_from_path path_parent
               DEFAULT_LIBRARIES variables_manager in_order BUILTIN_VARIABLES Node
               is_Keyword_or_TestCase BlockVariableVisitor_get 10 variables_namespace
               "${name}" None None (mkVariableMatcher "${name}" "name" "name")
               eq_refl eq_refl eq_refl).
    cbv -[Z.eqb]. rewrite H1. rewrite Z.eqb_refl. reflexivity.
  - unfold variables_of.
    rewrite (find_variable_first_key_match str_hash uri_from_path path_parent
               DEFAULT_LIBRARIES variables_manager in_order BUILTIN_VARIABLES Node
               is_Keyword_or_TestCase BlockVariableVisitor_get 10 variables_namespace
               "${Name}" None None (mkVariableMatcher "${Name}" "Name" "name")
               eq_refl eq_refl eq_refl).
    cbv -[Z.eqb]. rewrite H2, H3. reflexivity.
Qed.

End VariablesSuite.

Lemma find_variable_misses_first_canonical_match_witness :
  World.fnv_hash "${NAME}" <> World.fnv_hash "${name}" /\
  World.fnv_hash "${NAME}" <> World.fnv_hash "${Name}" /\
  World.fnv_hash "${name}" <> World.fnv_hash "${Name}" /\
  snd (find_variable World.uri_from_path World.path_parent World.DEFAULT_LIBRARIES
         Inputs.variables_manager World.in_order World.BUILTIN_VARIABLES World.Node
         World.is_Keyword_or_TestCase World.BlockVariableVisitor_get World.fnv_hash 10
         Inputs.variables_namespace "${name}" None None)
  = Ok (Some Inputs.cli_name).
Proof.
  assert (H1 : World.fnv_hash "${NAME}" <> World.fnv_hash "${name}")
    by (vm_compute; discriminate).
  assert (H2 : World.fnv_hash "${NAME}" <> World.fnv_hash "${Name}")
    by (vm_compute; discriminate).
  assert (H3 : World.fnv_hash "${name}" <> World.fnv_hash "${Name}")
    by (vm_compute; discriminate).
  split; [exact H1|]. split; [exact H2|]. split; [exact H3|].
  exact (proj1 (proj2 (proj2
    (find_variable_misses_first_canonical_match World.fnv_hash H1 H2 H3)))).
Defined.

(** *** _analyze and get_diagnostisc *)

Lemma analyzed_set_diagnostics :
  forall ds st, _analyzed (set_diagnostics ds st) = _analyzed st.
Proof. reflexivity. Qed.

(** A pass cancelled by the analyzer or by [check_canceled] leaves the
    diagnostics as they were and the namespace not analyzed. *)
Lemma analyze_cancelled_before_append :
  forall (aw : AnalyzeAwaits) (st : Namespace) (e : PyExc),
    _analyzed st = false ->
    exc_class e = CancelledErrorC ->
    analyzer_get aw = Raise e \/
    (exists result, analyzer_get aw = Ok result /\ check_canceled aw = Some e) ->
    snd (_analyze aw st) = Some e /\
    _diagnostics (fst (_analyze aw st)) = _diagnostics st /\
    _analyzed (fst (_analyze aw st)) = false.
Proof.
  intros aw st e Hna He Hc. unfold _analyze, _analyze_try. rewrite Hna.
  destruct Hc as [Hc | [result [Hr Hc]]].
  - rewrite Hc. simpl. rewrite He.
    destruct (_library_doc st), (analyzer_library_doc aw); simpl; auto.
  - rewrite Hr, Hc. simpl. rewrite He.
    destruct (_library_doc st), (analyzer_library_doc aw); simpl; auto.
Qed.

Section GetDiagnostics.

Variable uri_from_path : string -> Result string.
Variable path_parent : string -> string.
Variable DEFAULT_LIBRARIES : list string.
Variable imports_manager : ImportsManager.
Variable completion_order : forall A : Type, list A -> list A.

Let diagnose := get_diagnostisc uri_from_path path_parent DEFAULT_LIBRARIES imports_manager
  completion_order.

(** C9, for a pass cancelled while [get_library_doc] is awaited (the library
    document of the file is not cached yet): the cancellation propagates out
    of [get_diagnostisc] and the analyzed flag stays false, but the
    diagnostics of the analyzer are already appended; the next pass appends
    them a second time. *)
Theorem cancelled_pass_keeps_its_diagnostics :
  forall (depth : nat) (st : Namespace) (result : list Diagnostic) (doc : LibraryDoc),
    _initialized st = true ->
    _analyzed st = false ->
    _library_doc st = None ->
    let first := diagnose depth (Inputs.cancelled_at_libdoc result) st in
    let second := diagnose depth (Inputs.not_cancelled result doc) (fst first) in
    snd first = Raise CancelledError /\
    _analyzed (fst first) = false /\
    _diagnostics (fst first) = _diagnostics st ++ result /\
    snd second
    = Ok (_diagnostics st ++ result ++ result ++ map model_error_diagnostic (errors_list doc)).
Proof.
  intros depth st result doc Hi Ha Hl first second.
  assert (E1 : first
               = (set_analyzed false (append_diagnostics result st), Raise CancelledError)).
  { subst first. unfold diagnose, get_diagnostisc, ensure_initialized. rewrite Hi.
    unfold _analyze. rewrite Ha. unfold _analyze_try. rewrite Hl. simpl.
    unfold get_library_doc. simpl. rewrite Hl. reflexivity. }
  subst second. rewrite E1. simpl.
  split; [reflexivity|]. split; [reflexivity|]. split; [reflexivity|].
  unfold diagnose, get_diagnostisc, ensure_initialized. simpl. rewrite Hi.
  unfold _analyze. simpl. unfold _analyze_try. simpl. rewrite Hl. simpl.
  unfold get_library_doc. simpl. rewrite Hl. simpl.
  rewrite <- !app_assoc. reflexivity.
Qed.

End GetDiagnostics.

Lemma cancelled_pass_keeps_its_diagnostics_witness :
  let diagnose :=
    get_diagnostisc World.uri_from_path World.path_parent World.DEFAULT_LIBRARIES
      Inputs.variables_manager World.in_order 10 in
  let first :=
    diagnose (Inputs.cancelled_at_libdoc [Inputs.variable_not_found])
      Inputs.analyzed_namespace in
  let second :=
    diagnose
      (Inputs.not_cancelled [Inputs.variable_not_found]
         (World.resource_doc (World.mkResourceFile "/t/suite.robot" [] [])))
      (fst first) in
  snd first = Raise CancelledError /\
  _analyzed (fst first) = false /\
  _diagnostics (fst first) = [Inputs.variable_not_found] /\
  snd second = Ok [Inputs.variable_not_found; Inputs.variable_not_found].
Proof.
  exact (cancelled_pass_keeps_its_diagnostics World.uri_from_path World.path_parent
           World.DEFAULT_LIBRARIES Inputs.variables_manager World.in_order 10
           Inputs.analyzed_namespace [Inputs.variable_not_found]
           (World.resource_doc (World.mkResourceFile "/t/suite.robot" [] []))
           eq_refl eq_refl eq_refl).
Defined.

(** *** KeywordFinder *)

(** Two libraries have the keyword and exactly one of them is a standard
    library: the keyword of the other one is returned and one warning is
    added. *)
Lemma stdlib_conflict_returns_custom :
  forall (kw : string) (s : FinderState) (m1 m2 : Match),
    matches_in (od_values (_libraries (namespace s))) kw = [m1; m2] ->
    _get_keyword_based_on_search_order (search_order (namespace s)) [m1; m2] = [m1; m2] ->
    in_stdlibs (name (fst m1)) = negb (in_stdlibs (name (fst m2))) ->
    let custom := if in_stdlibs (name (fst m1)) then m2 else m1 in
    let standard := if in_stdlibs (name (fst m1)) then m1 else m2 in
    _get_keyword_from_libraries kw s
    = (add_diagnostic
         (KeywordError
            (_create_custom_and_standard_keyword_conflict_warning_message custom standard)
            WARNING) s,
       Found (Some (snd custom))).
Proof.
  intros kw s m1 m2 Hm Ho Hx custom standard.
  unfold _get_keyword_from_libraries. rewrite Hm. cbn [length Nat.ltb Nat.leb].
  rewrite Ho. unfold _filter_stdlib_runner. subst custom standard.
  destruct (in_stdlibs (name (fst m1))).
  - reflexivity.
  - destruct (in_stdlibs (name (fst m2))); [reflexivity|discriminate].
Qed.

(** C4, at a suite that imports [OperatingSystem  WITH NAME  OS] and the
    custom library [MyOs], both with the keyword [Copy File]: the lookup
    returns the keyword of [MyOs] and records one warning; the warning names
    [MyOs], but where it announces the standard library it prints the name
    of the keyword, and the name [OperatingSystem] does not occur in it. *)
Theorem conflict_warning_does_not_name_standard_library :
  let run := Inputs.lookup Inputs.conflict_libs [] [] "Copy File"
               (Inputs.conflict_namespace (Some "OS")) in
  snd run = Ok (Some (World.keyword "MyOs" "Copy File")) /\
  Inputs.finder_diagnostics (fst run)
  = [KeywordError
       ("Keyword 'Copy File' found both from a custom test library 'MyOs' and a "
        ++ "standard library 'Copy File' imported as 'OS'. The custom keyword is used. "
        ++ "To select explicitly, and to get rid of this warning, use either "
        ++ "'MyOs.Copy File' or 'OS.Copy File'.")%string WARNING] /\
  (forall d, In d (Inputs.finder_diagnostics (fst run)) ->
     contains "MyOs" (de_message d) = true /\
     contains "OperatingSystem" (de_message d) = false).
Proof.
  split; [vm_compute; reflexivity|].
  split; [vm_compute; reflexivity|].
  intros d Hd. vm_compute in Hd. destruct Hd as [<-|[]].
  split; vm_compute; reflexivity.
Qed.

Lemma search_order_keeps_some :
  forall order (entries : list Match),
    entries <> [] -> _get_keyword_based_on_search_order order entries <> [].
Proof.
  induction order as [|libname order IH]; intros entries H; simpl; [exact H|].
  match goal with
  | |- context [filter ?f entries] => destruct (filter f entries)
  end; [apply IH; exact H|discriminate].
Qed.

Lemma explicit_step :
  forall name s,
    (if contains_char "." name then _get_explicit_keyword name s else (s, Found None))
    = apply_verdict (explicit_verdict (namespace s) name) s.
Proof.
  intros name s. unfold explicit_verdict, explicit_matches, _get_explicit_keyword.
  destruct (contains_char "." name); [|reflexivity].
  destruct (flat_map _ _) as [|m [|m' found]]; reflexivity.
Qed.

Lemma resource_step :
  forall name s,
    _get_keyword_from_resource_files name s
    = apply_verdict (resource_verdict (namespace s) name) s.
Proof.
  intros name s. unfold resource_verdict, resource_matches, _get_keyword_from_resource_files.
  destruct (matches_in _ name) as [|m [|m' found]] eqn:E; [reflexivity|reflexivity|].
  cbn [narrowed length Nat.ltb Nat.leb].
  pose proof (search_order_keeps_some (search_order (namespace s)) (m :: m' :: found)) as H.
  destruct (_get_keyword_based_on_search_order _ _) as [|x [|x' l]];
    [exfalso; apply H; [discriminate|reflexivity]|reflexivity|reflexivity].
Qed.

Lemma library_step :
  forall kw s,
    _get_keyword_from_libraries kw s
    = apply_verdict (library_verdict (namespace s) kw) s.
Proof.
  intros kw s. unfold library_verdict, library_matches, _get_keyword_from_libraries.
  destruct (matches_in _ kw) as [|m [|m' found]] eqn:E; [reflexivity|reflexivity|].
  cbn [narrowed length Nat.ltb Nat.leb].
  pose proof (search_order_keeps_some (search_order (namespace s)) (m :: m' :: found)) as H.
  destruct (_get_keyword_based_on_search_order _ _) as [|x [|x' [|x'' l]]];
    [exfalso; apply H; [discriminate|reflexivity]|reflexivity| |reflexivity].
  unfold _filter_stdlib_runner.
  destruct (in_stdlibs (name (fst x))); [reflexivity|].
  destruct (in_stdlibs (name (fst x'))); reflexivity.
Qed.

Lemma explicit_verdict_scope :
  forall a b n, same_scope a b -> explicit_verdict a n = explicit_verdict b n.
Proof.
  intros a b n [Hl [Hr _]]. unfold explicit_verdict, explicit_matches, find_keywords.
  rewrite Hl, Hr. reflexivity.
Qed.

Lemma resource_verdict_scope :
  forall a b n, same_scope a b -> resource_verdict a n = resource_verdict b n.
Proof.
  intros a b n [_ [Hr Ho]]. unfold resource_verdict, resource_matches, narrowed.
  rewrite Hr, Ho. reflexivity.
Qed.

Lemma library_verdict_scope :
  forall a b n, same_scope a b -> library_verdict a n = library_verdict b n.
Proof.
  intros a b n [Hl [_ Ho]]. unfold library_verdict, library_matches, narrowed.
  rewrite Hl, Ho. reflexivity.
Qed.

Lemma resolves_scope :
  forall own a b n out, same_scope a b -> resolves own a n out -> resolves own b n out.
Proof.
  intros own a b n out Hs H.
  induction H as [|n k Hn Hk|n Hn Hk He|n Hn Hk He Hr|n Hn Hk He Hr Hl
                 |n p out Hn Hk He Hr Hl Hp H IH|n Hn Hk He Hr Hl Hp];
    try rewrite (explicit_verdict_scope _ _ n Hs) in *;
    try rewrite (resource_verdict_scope _ _ n Hs) in *;
    try rewrite (library_verdict_scope _ _ n Hs) in *.
  - apply resolves_empty.
  - apply resolves_self; assumption.
  - apply resolves_explicit; assumption.
  - apply resolves_resource; assumption.
  - apply resolves_library; assumption.
  - eapply resolves_bdd; eassumption.
  - apply resolves_none; assumption.
Qed.

Lemma add_diagnostics_fold :
  forall ws s,
    let s' := fold_left (fun s d => add_diagnostic d s) ws s in
    diagnostics (finder s') = diagnostics (finder s) ++ ws /\
    _cache (finder s') = _cache (finder s) /\
    self_library_doc (finder s') = self_library_doc (finder s) /\
    namespace s' = namespace s.
Proof.
  induction ws as [|w ws IH]; intros s; simpl.
  - rewrite app_nil_r. auto.
  - destruct (IH (add_diagnostic w s)) as [Hd [Hc [Hl Hn]]].
    rewrite Hd, Hc, Hl, Hn. simpl. rewrite <- app_assoc. auto.
Qed.

(** A step that does not miss decides the search. *)
Lemma apply_verdict_decides :
  forall v s,
    v <> Miss ->
    let r := apply_verdict v s in
    snd r = search_of (outcome_of v) /\
    snd r <> Found None /\
    diagnostics (finder (fst r)) = diagnostics (finder s) ++ emitted (outcome_of v) /\
    _cache (finder (fst r)) = _cache (finder s).
Proof.
  intros v s Hv. destruct v as [|k ws|e]; [contradiction| |]; simpl.
  - destruct (add_diagnostics_fold ws s) as [Hd [Hc _]].
    repeat split; try assumption; discriminate.
  - repeat split; discriminate.
Qed.

Lemma self_step :
  forall await name s doc,
    self_doc await s = Ok doc ->
    exists s1,
      _get_keyword_from_self await name s = (s1, Found (keywords_get (keywords doc) name)) /\
      self_library_doc (finder s1) = Some doc /\
      diagnostics (finder s1) = diagnostics (finder s) /\
      _cache (finder s1) = _cache (finder s) /\
      same_scope (namespace s1) (namespace s).
Proof.
  intros await name s doc H. unfold self_doc in H. unfold _get_keyword_from_self.
  destruct (self_library_doc (finder s)) as [d|] eqn:E.
  - injection H as ->. exists s. repeat split; auto.
  - unfold get_library_doc in *.
    destruct (_library_doc (namespace s)) as [d|].
    + simpl in H. injection H as ->. eexists; repeat split; reflexivity.
    + destruct await as [d|e]; simpl in H; [|discriminate].
      injection H as ->. eexists; repeat split; reflexivity.
Qed.

Lemma drop_length :
  forall n s, String.length (drop n s) = (String.length s - n)%nat.
Proof.
  induction n as [|n IH]; intros s; simpl.
  - rewrite Nat.sub_0_r. reflexivity.
  - destruct s; simpl; [reflexivity|apply IH].
Qed.

Lemma bdd_prefix_not_empty :
  forall name prefix, bdd_prefix name = Some prefix -> (1 <= String.length prefix)%nat.
Proof.
  intros name prefix H. unfold bdd_prefix in H. apply find_some in H. destruct H as [H _].
  simpl in H. repeat (destruct H as [<-|H]; [simpl; lia|]). contradiction.
Qed.

(** [_find_keyword] on a name that is not empty, step by step. *)
Lemma _find_keyword_steps :
  forall d await c rest s,
    let called := String c rest in
    _find_keyword (S d) await (StrName called) s
    = let '(s1, r1) := _get_keyword_from_self await called s in
      match r1 with
      | Found None =>
          let '(s2, r2) := apply_verdict (explicit_verdict (namespace s1) called) s1 in
          match r2 with
          | Found None =>
              let '(s3, r3) := apply_verdict (resource_verdict (namespace s2) called) s2 in
              match r3 with
              | Found None =>
                  let '(s4, r4) :=
                    apply_verdict (library_verdict (namespace s3) called) s3 in
                  match r4 with
                  | Found None =>
                      match bdd_prefix called with
                      | Some prefix =>
                          _find_keyword d await
                            (StrName (drop (String.length prefix) called)) s4
                      | None => (s4, Found None)
                      end
                  | _ => (s4, r4)
                  end
              | _ => (s3, r3)
              end
          | _ => (s2, r2)
          end
      | _ => (s1, r1)
      end.
Proof.
  intros d await c rest s called. subst called. cbn [_find_keyword].
  destruct (_get_keyword_from_self await (String c rest) s) as [s1 [[k|]| |e]];
    try reflexivity.
  rewrite explicit_step.
  destruct (apply_verdict (explicit_verdict (namespace s1) (String c rest)) s1)
    as [s2 [[k|]| |e]]; try reflexivity.
  unfold _get_implicit_keyword. rewrite resource_step.
  destruct (apply_verdict (resource_verdict (namespace s2) (String c rest)) s2)
    as [s3 [[k|]| |e]]; try reflexivity.
  rewrite library_step.
  destruct (apply_verdict (library_verdict (namespace s3) (String c rest)) s3)
    as [s4 [[k|]| |e]]; reflexivity.
Qed.

Ltac decided_by rule Ev :=
  match goal with
  | |- resolves _ _ _ (Resolved ?k ?ws) =>
      change (Resolved k ws) with (outcome_of (Hit k ws))
  | |- resolves _ _ _ (Stopped ?e) =>
      change (Stopped e) with (outcome_of (Stop e))
  end;
  rewrite <- Ev; apply rule; try assumption; try discriminate;
  rewrite Ev; discriminate.

(** [_find_keyword] follows the order of resolution: whatever the name,
    with enough depth for its BDD prefixes, the search ends in an outcome of
    [resolves], returns what that outcome says and adds its diagnostics. *)
Lemma _find_keyword_resolves :
  forall await doc depth called s,
    (String.length called < depth)%nat ->
    self_doc await s = Ok doc ->
    exists out s',
      resolves (keywords doc) (namespace s) called out /\
      _find_keyword depth await (StrName called) s = (s', search_of out) /\
      diagnostics (finder s') = diagnostics (finder s) ++ emitted out /\
      _cache (finder s') = _cache (finder s).
Proof.
  intros await doc. induction depth as [|d IH]; intros called s Hlen Hdoc; [lia|].
  destruct called as [|c rest].
  - exists (Stopped (KeywordError "Keyword name cannot be empty." ERROR)).
    eexists. split; [apply resolves_empty|]. simpl. repeat split.
  - remember (String c rest) as called eqn:Hcalled.
    assert (Hne : called <> "") by (subst called; discriminate).
    destruct (self_step await called s doc Hdoc) as [s1 [E1 [L1 [D1 [C1 S1]]]]].
    assert (Hdoc1 : self_doc await s1 = Ok doc) by (unfold self_doc; rewrite L1; reflexivity).
    assert (Hstep := _find_keyword_steps d await c rest s). cbv zeta in Hstep.
    rewrite <- Hcalled in Hstep. rewrite Hstep. clear Hstep. rewrite E1.
    destruct (keywords_get (keywords doc) called) as [k|] eqn:Ek.
    { exists (Resolved k []), s1. split; [apply resolves_self; assumption|].
      split; [reflexivity|]. split; [rewrite app_nil_r; exact D1|exact C1]. }
    rewrite (explicit_verdict_scope _ _ called S1).
    destruct (explicit_verdict (namespace s) called) as [|k ws|e] eqn:Ev; cbn [apply_verdict].
    2:{ destruct (add_diagnostics_fold ws s1) as [Hd [Hc _]].
        exists (Resolved k ws). eexists. split; [decided_by resolves_explicit Ev|].
        split; [reflexivity|]. simpl. rewrite <- D1, <- C1. split; assumption. }
    2:{ exists (Stopped e). eexists. split; [decided_by resolves_explicit Ev|].
        split; [reflexivity|]. simpl. rewrite <- D1, <- C1. split; reflexivity. }
    rewrite (resource_verdict_scope _ _ called S1).
    destruct (resource_verdict (namespace s) called) as [|k ws|e] eqn:Er; cbn [apply_verdict].
    2:{ destruct (add_diagnostics_fold ws s1) as [Hd [Hc _]].
        exists (Resolved k ws). eexists. split; [decided_by resolves_resource Er|].
        split; [reflexivity|]. simpl. rewrite <- D1, <- C1. split; assumption. }
    2:{ exists (Stopped e). eexists. split; [decided_by resolves_resource Er|].
        split; [reflexivity|]. simpl. rewrite <- D1, <- C1. split; reflexivity. }
    rewrite (library_verdict_scope _ _ called S1).
    destruct (library_verdict (namespace s) called) as [|k ws|e] eqn:El; cbn [apply_verdict].
    2:{ destruct (add_diagnostics_fold ws s1) as [Hd [Hc _]].
        exists (Resolved k ws). eexists. split; [decided_by resolves_library El|].
        split; [reflexivity|]. simpl. rewrite <- D1, <- C1. split; assumption. }
    2:{ exists (Stopped e). eexists. split; [decided_by resolves_library El|].
        split; [reflexivity|]. simpl. rewrite <- D1, <- C1. split; reflexivity. }
    destruct (bdd_prefix called) as [prefix|] eqn:Ep.
    + assert (Hshorter : (String.length (drop (String.length prefix) called) < d)%nat).
      { rewrite drop_length. pose proof (bdd_prefix_not_empty _ _ Ep).
        assert (String.length called = S (String.length rest))
          by (subst called; reflexivity).
        lia. }
      destruct (IH _ s1 Hshorter Hdoc1) as [out [s' [R [E [D C]]]]].
      exists out, s'. split.
      * eapply resolves_bdd; try eassumption.
        exact (resolves_scope _ _ _ _ _ S1 R).
      * split; [exact E|]. rewrite <- D1, <- C1. split; assumption.
    + exists NotFound, s1. split; [apply resolves_none; assumption|].
      split; [reflexivity|]. simpl. rewrite app_nil_r. split; assumption.
Qed.

Lemma cache_get_set :
  forall c n v, cache_get (cache_set c n v) n = Some v.
Proof.
  induction c as [|[k v'] c IH]; intros n v; simpl.
  - destruct (NameArg_eq_dec n n); [reflexivity|contradiction].
  - destruct (NameArg_eq_dec k n) as [E|E]; simpl.
    + destruct (NameArg_eq_dec k n); [reflexivity|contradiction].
    + destruct (NameArg_eq_dec k n); [contradiction|apply IH].
Qed.

(** C2, amended: [find_keyword] resolves a name that is not memoized in the
    order own keywords, explicit [owner.keyword] matches of a dotted name,
    resources, libraries, BDD prefix, the first step that does not miss
    deciding. A hit is returned with the warnings of its step; when every
    step misses the result is [None] with the error that no keyword was
    found; when a step stops the search (empty name, several matches left)
    the result is [None] with the error of that step only, and nothing is
    memoized. In particular the call [Given log in] resolves to the declared
    keyword [Log In] without any diagnostic. *)
Theorem find_keyword_follows_resolution :
  (forall await doc depth called s,
      (String.length called < depth)%nat ->
      self_doc await s = Ok doc ->
      cache_get (_cache (finder s)) (StrName called) = None ->
      exists out,
        resolves (keywords doc) (namespace s) called out /\
        let r := KeywordFinder_find_keyword depth await (StrName called) s in
        snd r = Ok (fst (answer called out)) /\
        diagnostics (finder (fst r)) = snd (answer called out) /\
        cache_get (_cache (finder (fst r))) (StrName called)
        = match out with
          | Stopped _ => None
          | _ => Some (answer called out)
          end) /\
  (let run := Inputs.lookup World.std_libs [] ["Log In"] "Given log in" Inputs.bdd_namespace in
   snd run = Ok (Some (World.keyword "suite" "Log In")) /\
   Inputs.finder_diagnostics (fst run) = []).
Proof.
  split; [|split; vm_compute; reflexivity].
  intros await doc depth called s Hlen Hdoc Hcache.
  unfold KeywordFinder_find_keyword.
  set (s0 := mkFinderState (namespace s)
               (mkKeywordFinder [] (self_library_doc (finder s)) (_cache (finder s)))).
  change (_cache (finder s0)) with (_cache (finder s)). rewrite Hcache.
  assert (Hdoc0 : self_doc await s0 = Ok doc) by exact Hdoc.
  destruct (_find_keyword_resolves await doc depth called s0 Hlen Hdoc0)
    as [out [s' [R [E [D C]]]]].
  exists out. split; [exact R|]. rewrite E. simpl in D.
  destruct out as [k ws| |e]; simpl search_of; cbv iota; simpl.
  - rewrite D. repeat split. rewrite cache_get_set. reflexivity.
  - rewrite D. repeat split. rewrite cache_get_set. reflexivity.
  - rewrite D, C. repeat split. exact Hcache.
Qed.

Lemma find_keyword_follows_resolution_witness :
  (String.length "Given log in" < 100)%nat /\
  self_doc (Ok (Inputs.suite_doc ["Log In"])) Inputs.fresh_finder
  = Ok (Inputs.suite_doc ["Log In"]) /\
  cache_get (_cache (finder Inputs.fresh_finder)) (StrName "Given log in") = None /\
  exists out,
    resolves (keywords (Inputs.suite_doc ["Log In"])) (namespace Inputs.fresh_finder)
      "Given log in" out /\
    let r := KeywordFinder_find_keyword 100 (Ok (Inputs.suite_doc ["Log In"]))
               (StrName "Given log in") Inputs.fresh_finder in
    snd r = Ok (fst (answer "Given log in" out)) /\
    diagnostics (finder (fst r)) = snd (answer "Given log in" out) /\
    cache_get (_cache (finder (fst r))) (StrName "Given log in")
    = match out with
      | Stopped _ => None
      | _ => Some (answer "Given log in" out)
      end.
Proof.
  assert (H1 : (String.length "Given log in" < 100)%nat) by (vm_compute; lia).
  split; [exact H1|]. split; [reflexivity|]. split; [reflexivity|].
  exact (proj1 find_keyword_follows_resolution (Ok (Inputs.suite_doc ["Log In"]))
           (Inputs.suite_doc ["Log In"]) 100%nat "Given log in" Inputs.fresh_finder
           H1 eq_refl eq_refl).
Defined.

(** C2 as stated fails where two libraries have the keyword: the library
    step has matches, yet the lookup returns [None], and the error recorded
    is not the one for a keyword that was not found. *)
Lemma first_hit_claim_fails_when_ambiguous :
  let run := Inputs.lookup Inputs.ambiguous_libs [] [] "Open" Inputs.ambiguous_namespace in
  snd run = Ok None /\
  ~ first_hit_claim (keywords (Inputs.suite_doc [])) (fst run) "Open" None
      (Inputs.finder_diagnostics (fst run)).
Proof.
  split; [vm_compute; reflexivity|].
  intros [H _]. inversion H; subst.
  - match goal with
    | Hl : library_matches _ _ = [] |- _ => vm_compute in Hl; discriminate Hl
    end.
  - match goal with
    | Hl : library_matches _ _ = [] |- _ => vm_compute in Hl; discriminate Hl
    end.
Qed.

(** *** The import loop: states up to diagnostics *)

Lemma agree_refl : forall a, agree a a.
Proof. reflexivity. Qed.

Lemma agree_sym : forall a b, agree a b -> agree b a.
Proof. unfold agree. intros a b H. symmetry. exact H. Qed.

Lemma agree_trans : forall a b c, agree a b -> agree b c -> agree a c.
Proof. unfold agree. intros a b c H1 H2. congruence. Qed.

Lemma agree_diagnostics : forall ds a, agree (set_diagnostics ds a) a.
Proof. reflexivity. Qed.

Lemma agree_append :
  forall x y a b, agree a b -> agree (append_diagnostics x a) (append_diagnostics y b).
Proof. unfold agree. intros x y a b H. exact H. Qed.

Lemma agree_append_l : forall x a b, agree a b -> agree (append_diagnostics x a) b.
Proof. unfold agree. intros x a b H. exact H. Qed.

Lemma agree_append_r : forall x a b, agree a b -> agree a (append_diagnostics x b).
Proof. unfold agree. intros x a b H. exact H. Qed.

Lemma agree_fields :
  forall a b,
    agree a b ->
    _libraries a = _libraries b /\ _resources a = _resources b /\
    _variables a = _variables b /\ ns_source a = ns_source b.
Proof.
  intros a b H. unfold agree, core in H. injection H as H1 H2 H3 H4. auto.
Qed.

Lemma agree_set_resources :
  forall v a b, agree a b -> agree (set_resources v a) (set_resources v b).
Proof.
  intros v a b H. destruct (agree_fields _ _ H) as [H1 [H2 [H3 H4]]].
  unfold agree, core. simpl. congruence.
Qed.

Lemma agree_set_libraries :
  forall v a b, agree a b -> agree (set_libraries v a) (set_libraries v b).
Proof.
  intros v a b H. destruct (agree_fields _ _ H) as [H1 [H2 [H3 H4]]].
  unfold agree, core. simpl. congruence.
Qed.

Lemma agree_set_variables :
  forall v a b, agree a b -> agree (set_variables v a) (set_variables v b).
Proof.
  intros v a b H. destruct (agree_fields _ _ H) as [H1 [H2 [H3 H4]]].
  unfold agree, core. simpl. congruence.
Qed.

Lemma is_prefix_refl : forall (A : Type) (l : list A), is_prefix l l.
Proof. intros A l. exists []. rewrite app_nil_r. reflexivity. Qed.

Lemma is_prefix_trans :
  forall (A : Type) (l1 l2 l3 : list A), is_prefix l1 l2 -> is_prefix l2 l3 -> is_prefix l1 l3.
Proof.
  intros A l1 l2 l3 [x ->] [y ->]. exists (x ++ y). rewrite app_assoc. reflexivity.
Qed.

(** [d[k] = v] keeps the keys that are there, in their order. *)
Lemma od_set_keys_prefix :
  forall (V : Type) (d : OrderedDict V) k v, is_prefix (od_keys d) (od_keys (od_set d k v)).
Proof.
  intros V d k v. induction d as [|[k' v'] d IH]; simpl.
  - exists [k]. reflexivity.
  - destruct (k' =? k)%string; simpl.
    + apply is_prefix_refl.
    + destruct IH as [l E]. exists l. unfold od_keys in *. rewrite E. reflexivity.
Qed.

Lemma od_set_new :
  forall (V : Type) (d : OrderedDict V) k v, od_get d k = None -> od_set d k v = d ++ [(k, v)].
Proof.
  intros V d k v. induction d as [|[k' v'] d IH]; simpl; [reflexivity|].
  destruct (k' =? k)%string; [discriminate|]. intros H. rewrite (IH H). reflexivity.
Qed.

Lemma od_get_set_same :
  forall (V : Type) (d : OrderedDict V) k v, od_get (od_set d k v) k = Some v.
Proof.
  intros V d k v. induction d as [|[k' v'] d IH]; simpl.
  - rewrite String.eqb_refl. reflexivity.
  - destruct (k' =? k)%string eqn:E; simpl; rewrite E; [reflexivity|exact IH].
Qed.

Lemma od_get_set_other :
  forall (V : Type) (d : OrderedDict V) k k' v,
    k <> k' -> od_get (od_set d k v) k' = od_get d k'.
Proof.
  intros V d k k' v Hne. induction d as [|[k0 v0] d IH]; simpl.
  - destruct (String.eqb_spec k k'); [contradiction|reflexivity].
  - destruct (String.eqb_spec k0 k) as [->|E]; simpl.
    + destruct (String.eqb_spec k k'); [contradiction|reflexivity].
    + destruct (k0 =? k')%string; [reflexivity|exact IH].
Qed.

Lemma agree_inv : forall a b, agree a b -> a = graft a b.
Proof.
  intros a b H. destruct a, b. unfold agree, core in H. simpl in H.
  injection H; intros; subst. reflexivity.
Qed.

Create HintDb agree.
#[local] Hint Resolve agree_refl agree_diagnostics agree_append agree_append_l agree_append_r
  agree_set_resources agree_set_libraries agree_set_variables : agree.

Ltac fields :=
  cbn [set_diagnostics append_diagnostics set_resources set_libraries set_variables graft
       _resources _libraries _variables ns_source _diagnostics fst snd] in *.

Section ImportLoop.

Variable uri_from_path : string -> Result string.
Variable path_parent : string -> string.
Variable imports_manager : ImportsManager.

(** What one turn of the commit loop does to the namespace, as a chain of
    steps: any relation that is kept by each step is kept by the turn. *)
Lemma commit_entry_steps :
  forall (R : Namespace -> Namespace -> Prop) (P : LibraryEntry -> Prop)
         (n : list Import -> string -> Namespace -> Namespace * option PyExc)
         (top_level : bool),
    (forall a, R a a) ->
    (forall a b c, R a b -> R b c -> R a c) ->
    (forall ds s, R s (append_diagnostics ds s)) ->
    (forall s e,
        P e -> entry_class e = LibraryEntryC -> skipped_builtin top_level e = false ->
        od_mem (_libraries s) (entry_key e) = false ->
        R s (set_libraries (od_set (_libraries s) (entry_key e) e) s)) ->
    (forall s e,
        P e -> entry_class e = VariablesEntryC ->
        od_mem (_variables s) (entry_key e) = false ->
        R s (set_variables (od_set (_variables s) (entry_key e) e) s)) ->
    (forall s e src,
        P e -> entry_class e = ResourceEntryC -> ld_source (library_doc e) = Some src ->
        from_source src (_resources s) = [] -> src <> ns_source s ->
        R s (set_resources (od_set (_resources s) (entry_key e) e) s)) ->
    (forall s e src first rest,
        P e -> entry_class e = ResourceEntryC -> ld_source (library_doc e) = Some src ->
        top_level = true -> src <> ns_source s ->
        from_source src (_resources s) = first :: rest ->
        R s (set_resources (od_set (_resources s) (entry_key e) e) s)) ->
    (forall i b x, R x (fst (n i b x))) ->
    forall s e, P e -> R s (fst (commit_entry uri_from_path path_parent n top_level s e)).
Proof.
  intros R P n top_level Hrefl Htrans Hdiag Hlib Hvar Hnew Hagain Hn s e HP.
  assert (Hbuilt : forall d x, R x (fst (append_built d x))).
  { intros [d|ex] x; [apply Hdiag|apply Hrefl]. }
  assert (Hreport : forall found info x,
             R x (fst (report_already_imported top_level found info x))).
  { intros [|first rest] info x; [apply Hrefl|]. cbn [report_already_imported].
    destruct (top_level && truthy (ld_source (library_doc first)));
      [apply Hbuilt|apply Hrefl]. }
  unfold commit_entry. destruct (entry_class e) eqn:Hc.
  - fold (skipped_builtin top_level e).
    destruct (skipped_builtin top_level e) eqn:Hs; [apply Hbuilt|].
    pose proof (Hreport (filter (same_import e) (od_values (_libraries s)))
                  (library_already_imported_info uri_from_path e) s) as H1.
    destruct (report_already_imported top_level _ _ s) as [st1 [ex|]];
      cbn [fst] in *; [exact H1|].
    destruct (od_mem (_libraries st1) (entry_key e)) eqn:Hm; [exact H1|].
    cbn [fst]. exact (Htrans _ _ _ H1 (Hlib st1 e HP Hc Hs Hm)).
  - destruct (ld_source (library_doc e)) as [src|] eqn:Hsrc; [|apply Hrefl].
    fold (from_source src (_resources s)).
    destruct (from_source src (_resources s)) as [|first rest] eqn:Hf.
    + cbn [is_nil andb]. destruct (String.eqb_spec src (ns_source s)) as [He|Hne].
      * cbn [negb]. destruct top_level; [apply Hdiag|apply Hrefl].
      * cbn [negb].
        pose proof (Hnew s e src HP Hc Hsrc Hf Hne) as H1.
        pose proof (Hn (imports e) (path_parent src)
                      (set_resources (od_set (_resources s) (entry_key e) e) s)) as H2.
        destruct (n (imports e) (path_parent src) _) as [s2 [ex|]]; cbn [fst] in *.
        -- destruct (is_fatal ex); [exact (Htrans _ _ _ H1 H2)|].
           destruct top_level; [|exact (Htrans _ _ _ H1 H2)].
           exact (Htrans _ _ _ (Htrans _ _ _ H1 H2) (Hdiag _ _)).
        -- exact (Htrans _ _ _ H1 H2).
    + cbn [is_nil andb]. destruct top_level eqn:Ht; [|apply Hrefl].
      destruct (String.eqb_spec src (ns_source s)) as [He|Hne]; [apply Hdiag|].
      destruct (truthy (ld_source (library_doc first))); [|apply Hrefl].
      exact (Htrans _ _ _ (Hagain s e src first rest HP Hc Hsrc eq_refl Hne Hf) (Hbuilt _ _)).
  - pose proof (Hreport (filter (same_import e) (od_values (_variables s)))
                  (variables_already_imported_info uri_from_path e) s) as H1.
    destruct (report_already_imported top_level _ _ s) as [st1 [ex|]];
      cbn [fst] in *; [exact H1|].
    destruct (od_mem (_variables st1) (entry_key e)) eqn:Hm; [exact H1|].
    cbn [fst]. exact (Htrans _ _ _ H1 (Hvar st1 e HP Hc Hm)).
Qed.


Lemma commit_loop_steps :
  forall (R : Namespace -> Namespace -> Prop) (P : LibraryEntry -> Prop)
         (n : list Import -> string -> Namespace -> Namespace * option PyExc)
         (top_level : bool),
    (forall a, R a a) ->
    (forall a b c, R a b -> R b c -> R a c) ->
    (forall s e, P e -> R s (fst (commit_entry uri_from_path path_parent n top_level s e))) ->
    forall es s,
      (forall e, In (GEntry e) es -> P e) ->
      R s (fst (commit_loop uri_from_path path_parent n top_level es s)).
Proof.
  intros R P n top_level Hrefl Htrans Hstep es.
  induction es as [|g es IH]; intros s HP; [apply Hrefl|].
  cbn [commit_loop]. destruct g as [e| |ex].
  - pose proof (Hstep s e (HP e (or_introl eq_refl))) as H.
    destruct (commit_entry uri_from_path path_parent n top_level s e) as [a [r|]];
      cbn [fst] in *; [exact H|].
    refine (Htrans _ _ _ H (IH a _)). intros e' He'. apply HP. right. exact He'.
  - apply IH. intros e' He'. apply HP. right. exact He'.
  - destruct (is_fatal ex); [apply Hrefl|].
    apply IH. intros e' He'. apply HP. right. exact He'.
Qed.

(** *** Runs that differ in the diagnostics and in the order of completion *)

Ltac same := fields; split; [unfold agree; reflexivity|reflexivity].

Lemma commit_entry_agree :
  forall n1 n2 top_level s1 s2 e,
    agree_runs n1 n2 ->
    agree s1 s2 ->
    agree (fst (commit_entry uri_from_path path_parent n1 top_level s1 e))
          (fst (commit_entry uri_from_path path_parent n2 top_level s2 e)) /\
    snd (commit_entry uri_from_path path_parent n1 top_level s1 e)
    = snd (commit_entry uri_from_path path_parent n2 top_level s2 e).
Proof.
  intros n1 n2 top_level s1 s2 e Hn Ha.
  rewrite (agree_inv _ _ Ha). clear Ha.
  unfold commit_entry, report_already_imported, append_built. destruct (entry_class e).
  - fields.
    destruct (top_level && (name e =? BUILTIN_LIBRARY_NAME)%string
              && match alias e with Some _ => false | None => true end);
      [destruct (builtin_override_info uri_from_path e); same|].
    destruct (filter (same_import e) (od_values (_libraries s2))) as [|first rest];
      [|destruct (top_level && truthy (ld_source (library_doc first)));
        [destruct (library_already_imported_info uri_from_path e first); [|same]|]];
      fields; destruct (od_mem (_libraries s2) (entry_key e)); same.
  - destruct (ld_source (library_doc e)) as [src|]; [|same].
    fields.
    destruct (is_nil (filter (fun e0 => source_is e0 (Some src)) (od_values (_resources s2)))
              && negb (src =? ns_source s2)%string).
    + match goal with
      | |- context [n1 ?i ?b ?x] =>
          match goal with
          | |- context [n2 i b ?y] =>
              destruct (Hn i b x y) as [A1 A2]; [unfold agree; reflexivity|];
              destruct (n1 i b x) as [a r1]; destruct (n2 i b y) as [b' r2]
          end
      end.
      fields. subst r2. destruct r1 as [ex|]; [|split; [exact A1|reflexivity]].
      destruct (is_fatal ex); [split; [exact A1|reflexivity]|].
      destruct top_level; fields; split; try reflexivity; auto with agree.
    + destruct top_level; [|same].
      destruct (src =? ns_source s2)%string; [same|].
      destruct (filter (fun e0 => source_is e0 (Some src)) (od_values (_resources s2)))
        as [|first rest]; [same|].
      destruct (truthy (ld_source (library_doc first))); [|same].
      destruct (resource_already_imported_info uri_from_path e first); same.
  - fields.
    destruct (filter (same_import e) (od_values (_variables s2))) as [|first rest];
      [|destruct (top_level && truthy (ld_source (library_doc first)));
        [destruct (variables_already_imported_info uri_from_path e first); [|same]|]];
      fields; destruct (od_mem (_variables s2) (entry_key e)); same.
Qed.

Lemma commit_loop_agree :
  forall n1 n2 top_level es s1 s2,
    agree_runs n1 n2 ->
    agree s1 s2 ->
    agree (fst (commit_loop uri_from_path path_parent n1 top_level es s1))
          (fst (commit_loop uri_from_path path_parent n2 top_level es s2)) /\
    snd (commit_loop uri_from_path path_parent n1 top_level es s1)
    = snd (commit_loop uri_from_path path_parent n2 top_level es s2).
Proof.
  intros n1 n2 top_level es. induction es as [|g es IH]; intros s1 s2 Hn Ha; simpl.
  - split; [exact Ha|reflexivity].
  - destruct g as [e| |ex].
    + destruct (commit_entry_agree n1 n2 top_level s1 s2 e Hn Ha) as [A1 A2].
      destruct (commit_entry uri_from_path path_parent n1 top_level s1 e) as [a r1].
      destruct (commit_entry uri_from_path path_parent n2 top_level s2 e) as [b r2].
      simpl in A1, A2. subst r2. destruct r1; [split; [exact A1|reflexivity]|].
      apply IH; assumption.
    + apply IH; assumption.
    + destruct (is_fatal ex); [split; [exact Ha|reflexivity]|apply IH; assumption].
Qed.

(** A task reads nothing but the resources of the namespace. *)
Lemma _import_agree :
  forall s1 s2 base top_level v,
    agree s1 s2 ->
    _import uri_from_path imports_manager s1 base top_level v
    = _import uri_from_path imports_manager s2 base top_level v.
Proof.
  intros s1 s2 base top_level v Ha. rewrite (agree_inv _ _ Ha). reflexivity.
Qed.

Lemma _import_imports_agree :
  forall (co1 co2 : forall A : Type, list A -> list A) depth top_level imps base s1 s2,
    agree s1 s2 ->
    agree (fst (_import_imports uri_from_path path_parent imports_manager co1 depth imps
                  base top_level s1))
          (fst (_import_imports uri_from_path path_parent imports_manager co2 depth imps
                  base top_level s2)) /\
    snd (_import_imports uri_from_path path_parent imports_manager co1 depth imps base
           top_level s1)
    = snd (_import_imports uri_from_path path_parent imports_manager co2 depth imps base
             top_level s2).
Proof.
  intros co1 co2. induction depth as [|d IH]; intros top_level imps base s1 s2 Ha.
  - simpl. split; [exact Ha|reflexivity].
  - cbn [_import_imports].
    rewrite (map_ext _ _ (fun v => _import_agree s1 s2 base top_level v Ha)).
    apply commit_loop_agree.
    + intros i b x y Hxy. apply IH. exact Hxy.
    + apply agree_append. exact Ha.
Qed.

(** *** The import loop only extends *)

Lemma extends_refl : forall a, extends a a.
Proof.
  intros a. unfold extends. repeat split; try (exists []; rewrite app_nil_r; reflexivity).
Qed.

Lemma extends_trans : forall a b c, extends a b -> extends b c -> extends a c.
Proof.
  intros a b c [[d1 D1] [[l1 L1] [[v1 V1] [R1 S1]]]] [[d2 D2] [[l2 L2] [[v2 V2] [R2 S2]]]].
  unfold extends. repeat split.
  - exists (d1 ++ d2). rewrite D2, D1, app_assoc. reflexivity.
  - exists (l1 ++ l2). rewrite L2, L1, app_assoc. reflexivity.
  - exists (v1 ++ v2). rewrite V2, V1, app_assoc. reflexivity.
  - exact (is_prefix_trans _ _ _ _ R1 R2).
  - congruence.
Qed.

Lemma extends_append : forall ds a, extends a (append_diagnostics ds a).
Proof.
  intros ds a. unfold extends. fields. repeat split;
    try (exists []; rewrite app_nil_r; reflexivity).
  exists ds. reflexivity.
Qed.

Lemma od_set_absent :
  forall (V : Type) (d : OrderedDict V) k v, od_mem d k = false -> od_set d k v = d ++ [(k, v)].
Proof.
  intros V d k v H. apply od_set_new. unfold od_mem in H.
  destruct (od_get d k); [discriminate|reflexivity].
Qed.

Lemma extends_set_libraries :
  forall s k e, od_mem (_libraries s) k = false ->
    extends s (set_libraries (od_set (_libraries s) k e) s).
Proof.
  intros s k e Hm. unfold extends. fields. rewrite (od_set_absent _ _ _ _ Hm).
  repeat split; try (exists []; rewrite app_nil_r; reflexivity). eexists; reflexivity.
Qed.

Lemma extends_set_variables :
  forall s k e, od_mem (_variables s) k = false ->
    extends s (set_variables (od_set (_variables s) k e) s).
Proof.
  intros s k e Hm. unfold extends. fields. rewrite (od_set_absent _ _ _ _ Hm).
  repeat split; try (exists []; rewrite app_nil_r; reflexivity). eexists; reflexivity.
Qed.

Lemma extends_set_resources :
  forall s k e, extends s (set_resources (od_set (_resources s) k e) s).
Proof.
  intros s k e. unfold extends. fields.
  repeat split; try (exists []; rewrite app_nil_r; reflexivity). apply od_set_keys_prefix.
Qed.

Lemma commit_entry_extends :
  forall n top_level s e,
    extends_runs n ->
    extends s (fst (commit_entry uri_from_path path_parent n top_level s e)).
Proof.
  intros n top_level s e Hn.
  apply (commit_entry_steps extends (fun _ => True) n top_level); try exact I.
  - apply extends_refl.
  - apply extends_trans.
  - intros ds x. apply extends_append.
  - intros x e0 _ _ _ Hm. apply extends_set_libraries. exact Hm.
  - intros x e0 _ _ Hm. apply extends_set_variables. exact Hm.
  - intros x e0 src _ _ _ _ _. apply extends_set_resources.
  - intros x e0 src first rest _ _ _ _ _ _. apply extends_set_resources.
  - exact Hn.
Qed.

Lemma commit_loop_extends :
  forall n top_level es s,
    extends_runs n ->
    extends s (fst (commit_loop uri_from_path path_parent n top_level es s)).
Proof.
  intros n top_level es s Hn.
  apply (commit_loop_steps extends (fun _ => True) n top_level).
  - apply extends_refl.
  - apply extends_trans.
  - intros x e _. apply commit_entry_extends. exact Hn.
  - intros e _. exact I.
Qed.

(** The import loop only extends the namespace. *)
Lemma _import_imports_extends :
  forall (co : forall A : Type, list A -> list A) depth top_level imps base s,
    extends s
      (fst (_import_imports uri_from_path path_parent imports_manager co depth imps base
              top_level s)).
Proof.
  intros co. induction depth as [|d IH]; intros top_level imps base s.
  - apply extends_refl.
  - cbn [_import_imports].
    refine (extends_trans _ _ _ (extends_append _ s) _).
    apply commit_loop_extends. intros i b x. apply IH.
Qed.

(** *** What the loop leaves out *)

(** The loop over a list in two parts. *)
Lemma commit_loop_app :
  forall n top_level es1 es2 s,
    commit_loop uri_from_path path_parent n top_level (es1 ++ es2) s
    = let '(s', raised) := commit_loop uri_from_path path_parent n top_level es1 s in
      match raised with
      | Some e => (s', Some e)
      | None => commit_loop uri_from_path path_parent n top_level es2 s'
      end.
Proof.
  intros n top_level es1 es2. induction es1 as [|g es1 IH]; intros s; simpl.
  - reflexivity.
  - destruct g as [e| |ex].
    + destruct (commit_entry uri_from_path path_parent n top_level s e) as [a [r|]];
        [reflexivity|apply IH].
    + apply IH.
    + destruct (is_fatal ex); [reflexivity|apply IH].
Qed.

(** At top level an entry for the library [BuiltIn] without alias is not
    stored: the loop adds the information diagnostic and goes on, or is left
    by the exception of [Uri.from_path]. *)
Lemma commit_entry_builtin :
  forall n s e,
    entry_class e = LibraryEntryC -> skipped_builtin true e = true ->
    commit_entry uri_from_path path_parent n true s e
    = append_built (builtin_override_info uri_from_path e) s.
Proof.
  intros n s e Hc Hs. unfold commit_entry. rewrite Hc.
  fold (skipped_builtin true e). rewrite Hs. reflexivity.
Qed.

(** What the loop skips: [None], and at top level an entry for the library
    [BuiltIn] without alias whose diagnostic can be built. *)
Lemma commit_loop_skips :
  forall n top_level es1 g es2 s,
    extends_runs n -> agree_runs n n ->
    (g = GNone \/
     exists e d, g = GEntry e /\ entry_class e = LibraryEntryC /\ top_level = true /\
                 skipped_builtin true e = true /\
                 builtin_override_info uri_from_path e = Ok d) ->
    let full := commit_loop uri_from_path path_parent n top_level (es1 ++ g :: es2) s in
    let rest := commit_loop uri_from_path path_parent n top_level (es1 ++ es2) s in
    agree (fst full) (fst rest) /\ snd full = snd rest.
Proof.
  intros n top_level es1 g es2 s He Hn Hg full rest. subst full rest.
  rewrite !commit_loop_app.
  destruct (commit_loop uri_from_path path_parent n top_level es1 s) as [a [r|]];
    [split; reflexivity|].
  destruct Hg as [->|[e [d [-> [Hc [-> [Hs Hd]]]]]]].
  - simpl. split; reflexivity.
  - cbn [commit_loop]. rewrite (commit_entry_builtin n a e Hc Hs), Hd.
    cbn [append_built].
    apply commit_loop_agree; [exact Hn|]. apply agree_append_l. apply agree_refl.
Qed.

Lemma extends_diagnostics :
  forall a b d, extends a b -> In d (_diagnostics a) -> In d (_diagnostics b).
Proof.
  intros a b d [[out E] _] H. rewrite E. apply in_or_app. left. exact H.
Qed.

Lemma od_get_app_some :
  forall (V : Type) (d l : OrderedDict V) k v,
    od_get d k = Some v -> od_get (d ++ l) k = Some v.
Proof.
  intros V d l k v. induction d as [|[k' v'] d IH]; simpl; [discriminate|].
  destruct (k' =? k)%string; [auto|exact IH].
Qed.

(** A library that is in the map stays there, unchanged. *)
Lemma extends_libraries :
  forall a b k e,
    extends a b -> od_get (_libraries a) k = Some e -> od_get (_libraries b) k = Some e.
Proof.
  intros a b k e [_ [[l E] _]] H. rewrite E. apply od_get_app_some. exact H.
Qed.

(** What a task appends is among the diagnostics once all tasks are done. *)
Lemma gathered_diagnostic :
  forall (co : forall A : Type, list A -> list A) (tasks : list (Gathered * list Diagnostic))
         g ds d,
    rearranges co -> In (g, ds) tasks -> In d ds ->
    In d (concat (map snd (co _ tasks))).
Proof.
  intros co tasks g ds d Hco Ht Hd. apply in_concat. exists ds. split; [|exact Hd].
  apply in_map_iff. exists (g, ds). split; [reflexivity|].
  apply (Permutation_in _ (Permutation_sym (Hco _ tasks))). exact Ht.
Qed.

(** *** Keys *)

Lemma od_mem_in_keys :
  forall (V : Type) (d : OrderedDict V) k, od_mem d k = true <-> In k (od_keys d).
Proof.
  intros V d k. unfold od_mem, od_keys. induction d as [|[k' v] d IH]; simpl.
  - split; [discriminate|intros []].
  - destruct (String.eqb_spec k' k) as [->|Hne].
    + split; [left; reflexivity|reflexivity].
    + rewrite IH. split; [right; assumption|intros [H|H]; [contradiction|exact H]].
Qed.

Lemma od_mem_app :
  forall (V : Type) (d l : OrderedDict V) k,
    od_mem (d ++ l) k = od_mem d k || od_mem l k.
Proof.
  intros V d l k. unfold od_mem. induction d as [|[k' v] d IH]; simpl; [reflexivity|].
  destruct (k' =? k)%string; [reflexivity|exact IH].
Qed.

Lemma od_mem_set :
  forall (V : Type) (d : OrderedDict V) k v, od_mem (od_set d k v) k = true.
Proof. intros V d k v. unfold od_mem. rewrite od_get_set_same. reflexivity. Qed.

Lemma is_prefix_in :
  forall (A : Type) (l1 l2 : list A) x, is_prefix l1 l2 -> In x l1 -> In x l2.
Proof. intros A l1 l2 x [l ->] H. apply in_or_app. left. exact H. Qed.

(** *** Libraries are added under fresh keys *)

Lemma adds_fresh_keys_refl : forall a, adds_fresh_keys a a.
Proof.
  intros a. exists []. split; [rewrite app_nil_r; reflexivity|intros k e []].
Qed.

Lemma adds_fresh_keys_trans :
  forall a b c, adds_fresh_keys a b -> adds_fresh_keys b c -> adds_fresh_keys a c.
Proof.
  intros a b c [l1 [E1 F1]] [l2 [E2 F2]]. exists (l1 ++ l2). split.
  - rewrite E2, E1, app_assoc. reflexivity.
  - intros k e H. apply in_app_or in H. destruct H as [H|H]; [exact (F1 k e H)|].
    destruct (F2 k e H) as [H2 K2]. split; [|exact K2].
    rewrite E1, od_mem_app in H2. apply orb_false_iff in H2. apply H2.
Qed.

Lemma adds_fresh_keys_same :
  forall a b, _libraries b = _libraries a -> adds_fresh_keys a b.
Proof.
  intros a b H. exists []. split; [rewrite app_nil_r; exact H|intros k e []].
Qed.

Lemma commit_entry_fresh :
  forall n top_level s e,
    (forall i b x, adds_fresh_keys x (fst (n i b x))) ->
    adds_fresh_keys s (fst (commit_entry uri_from_path path_parent n top_level s e)).
Proof.
  intros n top_level s e Hn.
  apply (commit_entry_steps adds_fresh_keys (fun _ => True) n top_level); try exact I.
  - apply adds_fresh_keys_refl.
  - apply adds_fresh_keys_trans.
  - intros ds x. apply adds_fresh_keys_same. reflexivity.
  - intros x e0 _ _ _ Hm. exists [(entry_key e0, e0)]. fields. split.
    + apply od_set_absent. exact Hm.
    + intros k e1 [H|[]]. injection H as <- <-. split; [exact Hm|reflexivity].
  - intros x e0 _ _ _. apply adds_fresh_keys_same. reflexivity.
  - intros x e0 src _ _ _ _ _. apply adds_fresh_keys_same. reflexivity.
  - intros x e0 src first rest _ _ _ _ _ _. apply adds_fresh_keys_same. reflexivity.
  - exact Hn.
Qed.

Lemma _import_imports_fresh :
  forall (co : forall A : Type, list A -> list A) depth top_level imps base s,
    adds_fresh_keys s
      (fst (_import_imports uri_from_path path_parent imports_manager co depth imps base
              top_level s)).
Proof.
  intros co. induction depth as [|d IH]; intros top_level imps base s.
  - apply adds_fresh_keys_refl.
  - cbn [_import_imports]. eapply adds_fresh_keys_trans.
    2: { apply (commit_loop_steps adds_fresh_keys (fun _ => True)).
         - apply adds_fresh_keys_refl.
         - apply adds_fresh_keys_trans.
         - intros x e _. apply commit_entry_fresh. intros i b y. apply IH.
         - intros e _. exact I. }
    apply adds_fresh_keys_same. reflexivity.
Qed.

(** What is under a key of the libraries after the loop was there before. *)
Lemma fresh_keys_keep :
  forall a b k e,
    adds_fresh_keys a b -> od_mem (_libraries a) k = true ->
    In (k, e) (_libraries b) -> In (k, e) (_libraries a).
Proof.
  intros a b k e [l [E F]] Hm H. rewrite E in H. apply in_app_or in H.
  destruct H as [H|H]; [exact H|]. destruct (F k e H) as [H1 _].
  rewrite H1 in Hm. discriminate.
Qed.

(** *** Entries are committed *)

Lemma committed_extends :
  forall e a b, extends a b -> committed e a -> committed e b.
Proof.
  intros e a b [_ [[l L] [[v V] [R S]]]] H. unfold committed in *.
  destruct (entry_class e).
  - destruct H as [H|H]; [left; exact H|right]. rewrite L, od_mem_app, H. reflexivity.
  - rewrite S. destruct H as [H|[H|H]]; [left; exact H|right; left; exact H|].
    right. right. apply od_mem_in_keys. apply (is_prefix_in _ _ _ _ R).
    apply od_mem_in_keys. exact H.
  - rewrite V, od_mem_app, H. reflexivity.
Qed.

Lemma append_built_cases :
  forall d s,
    (exists x, d = Ok x /\ append_built d s = (append_diagnostics [x] s, None)) \/
    (exists e, d = Raise e /\ append_built d s = (s, Some e)).
Proof.
  intros [x|e] s; [left; exists x|right; exists e]; split; reflexivity.
Qed.

Lemma report_already_imported_core :
  forall top_level found info s,
    let r := report_already_imported top_level found info s in
    _libraries (fst r) = _libraries s /\ _variables (fst r) = _variables s /\
    _resources (fst r) = _resources s /\ ns_source (fst r) = ns_source s.
Proof.
  intros top_level [|first rest] info s; cbn; [repeat split|].
  destruct (top_level && truthy (ld_source (library_doc first))); [|repeat split].
  destruct (info first); repeat split.
Qed.

Lemma commit_entry_commits :
  forall n s e,
    extends_runs n ->
    snd (commit_entry uri_from_path path_parent n true s e) = None ->
    committed e (fst (commit_entry uri_from_path path_parent n true s e)).
Proof.
  intros n s e Hn. unfold commit_entry, committed.
  destruct (entry_class e) eqn:Hc.
  - fold (skipped_builtin true e).
    destruct (skipped_builtin true e) eqn:Hs; [intros _; left; reflexivity|].
    pose proof (report_already_imported_core true
                  (filter (same_import e) (od_values (_libraries s)))
                  (library_already_imported_info uri_from_path e) s) as [Hl _].
    destruct (report_already_imported true _ _ s) as [st1 [ex|]];
      cbn [fst snd] in *; [discriminate|].
    intros _. right.
    destruct (od_mem (_libraries st1) (entry_key e)) eqn:Hm; cbn [fst]; [exact Hm|].
    fields. apply od_mem_set.
  - destruct (ld_source (library_doc e)) as [src|] eqn:Hsrc; [|discriminate].
    fold (from_source src (_resources s)).
    destruct (from_source src (_resources s)) as [|first rest] eqn:Hf.
    + cbn [is_nil andb]. destruct (String.eqb_spec src (ns_source s)) as [He|Hne].
      * cbn [negb]. intros _. left. fields. rewrite He. reflexivity.
      * cbn [negb].
        pose proof (Hn (imports e) (path_parent src)
                      (set_resources (od_set (_resources s) (entry_key e) e) s)) as H2.
        assert (Hk : od_mem (_resources (fst (n (imports e) (path_parent src)
                        (set_resources (od_set (_resources s) (entry_key e) e) s))))
                       (entry_key e) = true).
        { destruct H2 as [_ [_ [_ [R _]]]]. apply od_mem_in_keys.
          apply (is_prefix_in _ _ _ _ R). apply od_mem_in_keys. fields. apply od_mem_set. }
        destruct (n (imports e) (path_parent src) _) as [s2 [ex|]]; cbn [fst snd] in *.
        -- destruct (is_fatal ex); [discriminate|]. intros _. right. right. exact Hk.
        -- intros _. right. right. exact Hk.
    + cbn [is_nil andb].
      destruct (String.eqb_spec src (ns_source s)) as [He|Hne].
      * intros _. left. fields. rewrite He. reflexivity.
      * destruct (truthy (ld_source (library_doc first))) eqn:Ht.
        -- destruct (append_built_cases (resource_already_imported_info uri_from_path e first)
                       (set_resources (od_set (_resources s) (entry_key e) e) s))
             as [[x [_ ->]]|[ex [_ ->]]]; cbn [fst snd]; [|discriminate].
           intros _. right. right. fields. apply od_mem_set.
        -- intros _. right. left. cbn [fst].
           assert (Hin : In first (from_source src (_resources s)))
             by (rewrite Hf; left; reflexivity).
           unfold from_source in Hin. apply filter_In in Hin. destruct Hin as [_ Hs].
           unfold source_is in Hs. unfold truthy in Ht.
           destruct (ld_source (library_doc first)) as [fs|]; [|discriminate].
           cbn [option_eqb] in Hs. apply String.eqb_eq in Hs. subst fs.
           apply negb_false_iff in Ht. apply String.eqb_eq in Ht. subst src. reflexivity.
  - pose proof (report_already_imported_core true
                  (filter (same_import e) (od_values (_variables s)))
                  (variables_already_imported_info uri_from_path e) s) as [_ [Hv _]].
    destruct (report_already_imported true _ _ s) as [st1 [ex|]];
      cbn [fst snd] in *; [discriminate|].
    intros _.
    destruct (od_mem (_variables st1) (entry_key e)) eqn:Hm; cbn [fst]; [exact Hm|].
    fields. apply od_mem_set.
Qed.

(** Every entry that a task returned is committed when the loop comes to
    its end. *)
Lemma commit_loop_commits :
  forall n es s,
    extends_runs n ->
    snd (commit_loop uri_from_path path_parent n true es s) = None ->
    forall e, In (GEntry e) es ->
      committed e (fst (commit_loop uri_from_path path_parent n true es s)).
Proof.
  intros n es. induction es as [|g es IH]; intros s Hn Hok e He; [destruct He|].
  cbn [commit_loop] in *. destruct g as [e0| |ex].
  - pose proof (commit_entry_commits n s e0 Hn) as Hc.
    destruct (commit_entry uri_from_path path_parent n true s e0) as [a [r|]] eqn:E;
      cbn [fst snd] in *; [discriminate|].
    destruct He as [He|He].
    + injection He as ->.
      apply (committed_extends e a); [|exact (Hc eq_refl)].
      apply commit_loop_extends. exact Hn.
    + apply IH; assumption.
  - destruct He as [He|He]; [discriminate|]. apply IH; assumption.
  - destruct (is_fatal ex); [discriminate|].
    destruct He as [He|He]; [discriminate|]. apply IH; assumption.
Qed.

(** *** Libraries are committed in source order *)

Lemma commit_entry_segment :
  forall n top_level s e,
    extends_runs n ->
    snd (commit_entry uri_from_path path_parent n top_level s e) = None ->
    exists seg,
      _libraries (fst (commit_entry uri_from_path path_parent n top_level s e))
      = _libraries s ++ seg /\
      match entry_class e with
      | LibraryEntryC =>
          seg = if skipped_builtin top_level e || od_mem (_libraries s) (entry_key e)
                then [] else [(entry_key e, e)]
      | ResourceEntryC => True
      | VariablesEntryC => seg = []
      end.
Proof.
  intros n top_level s e Hn.
  destruct (entry_class e) eqn:Hc.
  - unfold commit_entry. rewrite Hc. fold (skipped_builtin top_level e).
    destruct (skipped_builtin top_level e) eqn:Hs.
    + intros _. exists []. split; [|reflexivity]. rewrite app_nil_r.
      destruct (builtin_override_info uri_from_path e); reflexivity.
    + pose proof (report_already_imported_core top_level
                    (filter (same_import e) (od_values (_libraries s)))
                    (library_already_imported_info uri_from_path e) s) as [Hl _].
      destruct (report_already_imported top_level _ _ s) as [st1 [ex|]];
        cbn [fst snd] in *; [discriminate|].
      intros _. rewrite <- Hl. cbn [orb].
      destruct (od_mem (_libraries st1) (entry_key e)) eqn:Hm; cbn [fst].
      * exists []. rewrite app_nil_r. split; reflexivity.
      * exists [(entry_key e, e)]. fields. split; [|reflexivity].
        apply od_set_absent. exact Hm.
  - intros _. destruct (commit_entry_extends n top_level s e Hn) as [_ [[l L] _]].
    exists l. split; [exact L|exact I].
  - unfold commit_entry. rewrite Hc.
    pose proof (report_already_imported_core top_level
                  (filter (same_import e) (od_values (_variables s)))
                  (variables_already_imported_info uri_from_path e) s) as [Hl _].
    destruct (report_already_imported top_level _ _ s) as [st1 [ex|]];
      cbn [fst snd] in *; [discriminate|].
    intros _. exists []. rewrite app_nil_r. split; [|reflexivity].
    destruct (od_mem (_variables st1) (entry_key e)); exact Hl.
Qed.

Lemma commit_loop_segments :
  forall n top_level es s,
    extends_runs n ->
    snd (commit_loop uri_from_path path_parent n top_level es s) = None ->
    exists segs,
      _libraries (fst (commit_loop uri_from_path path_parent n top_level es s))
      = _libraries s ++ concat segs /\
      libraries_in_source_order top_level (_libraries s) es segs.
Proof.
  intros n top_level es. induction es as [|g es IH]; intros s Hn Hok.
  - exists []. split; [cbn; rewrite app_nil_r; reflexivity|exact I].
  - cbn [commit_loop] in *. destruct g as [e| |ex].
    + pose proof (commit_entry_segment n top_level s e Hn) as Hseg.
      destruct (commit_entry uri_from_path path_parent n top_level s e) as [a [r|]];
        cbn [fst snd] in *; [discriminate|].
      destruct (Hseg eq_refl) as [seg [L Hs]].
      destruct (IH a Hn Hok) as [segs [L' Hs']].
      exists (seg :: segs). cbn [concat libraries_in_source_order]. split.
      * rewrite L', L, app_assoc. reflexivity.
      * split; [exact Hs|]. rewrite <- L. exact Hs'.
    + destruct (IH s Hn Hok) as [segs [L' Hs']].
      exists ([] :: segs). cbn [concat libraries_in_source_order app]. split; [exact L'|].
      split; [reflexivity|]. rewrite app_nil_r. exact Hs'.
    + destruct (is_fatal ex); [discriminate|].
      destruct (IH s Hn Hok) as [segs [L' Hs']].
      exists ([] :: segs). cbn [concat libraries_in_source_order app]. split; [exact L'|].
      split; [reflexivity|]. rewrite app_nil_r. exact Hs'.
Qed.

(** *** Resources sit under the name of their source *)

Lemma od_set_in :
  forall (V : Type) (d : OrderedDict V) k v k' v',
    In (k', v') (od_set d k v) -> (k', v') = (k, v) \/ In (k', v') d.
Proof.
  intros V d k v k' v'. induction d as [|[k0 v0] d IH]; cbn [od_set].
  - intros [H|[]]. left. symmetry. exact H.
  - destruct (String.eqb_spec k0 k) as [->|Hne].
    + intros [H|H]; [left; symmetry; exact H|right; right; exact H].
    + intros [H|H]; [right; left; exact H|].
      destruct (IH H) as [H1|H1]; [left; exact H1|right; right; exact H1].
Qed.

Lemma od_set_keys :
  forall (V : Type) (d : OrderedDict V) k v,
    od_keys (od_set d k v) = if od_mem d k then od_keys d else od_keys d ++ [k].
Proof.
  intros V d k v. unfold od_keys, od_mem. induction d as [|[k0 v0] d IH]; cbn; [reflexivity|].
  destruct (k0 =? k)%string; cbn; [reflexivity|].
  rewrite IH. destruct (od_get d k); reflexivity.
Qed.

Lemma od_set_NoDup :
  forall (V : Type) (d : OrderedDict V) k v,
    NoDup (od_keys d) -> NoDup (od_keys (od_set d k v)).
Proof.
  intros V d k v H. rewrite od_set_keys. destruct (od_mem d k) eqn:Hm; [exact H|].
  apply NoDup_app; [exact H|constructor; [intros []|constructor]|].
  intros x Hx [<-|[]]. apply od_mem_in_keys in Hx. congruence.
Qed.

Lemma od_get_in :
  forall (V : Type) (d : OrderedDict V) k v, od_get d k = Some v -> In (k, v) d.
Proof.
  intros V d k v. induction d as [|[k0 v0] d IH]; cbn; [discriminate|].
  destruct (String.eqb_spec k0 k) as [->|Hne].
  - intros H. injection H as ->. left. reflexivity.
  - intros H. right. apply IH. exact H.
Qed.

Lemma in_od_get :
  forall (V : Type) (d : OrderedDict V) k v,
    NoDup (od_keys d) -> In (k, v) d -> od_get d k = Some v.
Proof.
  intros V d k v. induction d as [|[k0 v0] d IH]; cbn; [intros _ []|].
  intros Hnd [H|H].
  - injection H as -> ->. rewrite String.eqb_refl. reflexivity.
  - inversion Hnd as [|? ? Hnot Hnd']; subst.
    destruct (String.eqb_spec k0 k) as [->|Hne].
    + exfalso. apply Hnot. unfold od_keys. apply in_map_iff. exists (k, v). split; auto.
    + apply IH; assumption.
Qed.

Lemma keyed_by_source_set :
  forall f d e src,
    keyed_by_source f d -> ld_source (library_doc e) = Some src ->
    keyed_by_source f (od_set d (f src) e).
Proof.
  intros f d e src [Hnd Hk] Hs. split; [apply od_set_NoDup; exact Hnd|].
  intros k e' H. apply od_set_in in H. destruct H as [H|H].
  - injection H as -> ->. exists src. split; [exact Hs|reflexivity].
  - apply Hk. exact H.
Qed.

(** P4 for a map keyed by source: each source has at most one entry. *)
Lemma keyed_by_source_one_entry :
  forall f d, keyed_by_source f d -> one_entry_per_source d.
Proof.
  intros f d. induction d as [|[k e] d IH]; intros [Hnd Hk] src; [cbn; lia|].
  inversion Hnd as [|? ? Hnot Hnd']; subst.
  assert (Hd : keyed_by_source f d).
  { split; [exact Hnd'|]. intros k' e' H. apply Hk. right. exact H. }
  specialize (IH Hd src). unfold from_source, od_values in *. cbn [map filter snd].
  destruct (source_is e (Some src)) eqn:He; [|exact IH].
  destruct (filter (fun e0 => source_is e0 (Some src)) (map snd d)) as [|e' rest] eqn:Hf;
    [cbn; lia|].
  exfalso. apply Hnot.
  assert (Hin : In e' (filter (fun e0 => source_is e0 (Some src)) (map snd d)))
    by (rewrite Hf; left; reflexivity).
  apply filter_In in Hin. destruct Hin as [Hin He'].
  apply in_map_iff in Hin. destruct Hin as [[k' e''] [E Hin]].
  cbn in E. subst e''.
  destruct (Hk k e (or_introl eq_refl)) as [s1 [S1 K1]].
  destruct (Hk k' e' (or_intror Hin)) as [s2 [S2 K2]].
  unfold source_is in He, He'. rewrite S1 in He. rewrite S2 in He'. cbn in He, He'.
  apply String.eqb_eq in He, He'. subst s1 s2 k.
  unfold od_keys. apply in_map_iff. exists (k', e'). split; [exact K2|exact Hin].
Qed.

(** In a map keyed by source the entry under the name of a source is the
    only entry of that source. *)
Lemma keyed_by_source_only :
  forall f d e src,
    keyed_by_source f d -> od_get d (f src) = Some e ->
    ld_source (library_doc e) = Some src ->
    from_source src d = [e].
Proof.
  intros f d e src Hk Hg Hs.
  pose proof (keyed_by_source_one_entry f d Hk src) as H1.
  assert (Hin : In e (from_source src d)).
  { unfold from_source. apply filter_In. split.
    - unfold od_values. apply in_map_iff. exists (f src, e). split; [reflexivity|].
      apply od_get_in. exact Hg.
    - unfold source_is. rewrite Hs. cbn. apply String.eqb_refl. }
  destruct (from_source src d) as [|x [|y rest]]; [destruct Hin| |cbn in H1; lia].
  destruct Hin as [->|[]]. reflexivity.
Qed.

(** The entries that tasks return for resources are named after their
    source when the imports manager names the documents so. *)
Lemma task_named_by_source :
  forall f st base top_level v e,
    names_resources_by_source imports_manager f ->
    fst (_import uri_from_path imports_manager st base top_level v) = GEntry e ->
    named_by_source f e.
Proof.
  intros f st base top_level v e Hf. unfold _import.
  assert (Hb : forall e0, bound (_import_try uri_from_path imports_manager st base top_level v)
                          = Some e0 -> named_by_source f e0).
  { intros e0. unfold _import_try.
    destruct v as [se nm tok args al|se nm tok|se nm tok args|se nm tok];
      try (destruct nm as [n|]); cbn [bound]; try discriminate.
    - unfold _get_library_entry.
      destruct (get_libdoc_for_library_import imports_manager n args base);
        cbn [bind bound]; [|discriminate].
      match goal with |- context [libdoc_error_diagnostics ?u ?r ?x] =>
        destruct (if top_level then libdoc_error_diagnostics u r x else ([], None)) end.
      cbn [bound]. intros H. injection H as <-. intros Hc. discriminate Hc.
    - destruct (find_file imports_manager n base) as [source|]; cbn [bound]; [|discriminate].
      destruct (existsb _ _); cbn [bound]; [discriminate|].
      unfold _get_resource_entry.
      destruct (get_namespace_for_resource_import imports_manager n base) as [ns|];
        cbn [bind bound]; [|discriminate].
      destruct (get_libdoc_for_resource_import imports_manager n base) as [doc|] eqn:Hd;
        cbn [bind bound]; [|discriminate].
      match goal with |- context [libdoc_error_diagnostics ?u ?r ?x] =>
        destruct (if top_level then libdoc_error_diagnostics u r x else ([], None)) end.
      cbn [bound]. intros H. injection H as <-. intros _ src Hs.
      cbn [with_import library_doc] in Hs.
      destruct (Hf n base doc src Hd Hs) as [Hn Hne].
      unfold entry_key, with_import. cbn [alias name import_name]. rewrite Hn.
      unfold or_else. destruct (String.eqb_spec (f src) ""); [contradiction|reflexivity].
    - unfold _get_variables_entry.
      destruct (get_libdoc_for_variables_import imports_manager n args base);
        cbn [bind bound]; [|discriminate].
      match goal with |- context [libdoc_error_diagnostics ?u ?r ?x] =>
        destruct (if top_level then libdoc_error_diagnostics u r x else ([], None)) end.
      cbn [bound]. intros H. injection H as <-. intros Hc. discriminate Hc. }
  destruct (raised _) as [ex|].
  - destruct (is_fatal ex); cbn [fst]; [discriminate|].
    destruct (bound _) as [e0|]; cbn [gathered]; [|discriminate].
    intros H. injection H as <-. apply Hb. reflexivity.
  - cbn [fst]. destruct (bound _) as [e0|]; cbn [gathered]; [|discriminate].
    intros H. injection H as <-. apply Hb. reflexivity.
Qed.

Section NamedBySource.

Variable f : string -> string.
Hypothesis Hf : names_resources_by_source imports_manager f.

Let keeps_keyed (a b : Namespace) : Prop :=
  keyed_by_source f (_resources a) -> keyed_by_source f (_resources b).

Lemma commit_entry_keyed :
  forall n top_level s e,
    (forall i b x, keeps_keyed x (fst (n i b x))) ->
    named_by_source f e ->
    keeps_keyed s (fst (commit_entry uri_from_path path_parent n top_level s e)).
Proof.
  intros n top_level s e Hn.
  apply (commit_entry_steps keeps_keyed (named_by_source f) n top_level).
  - intros a H. exact H.
  - intros a b c H1 H2 H. exact (H2 (H1 H)).
  - intros ds x H. exact H.
  - intros x e0 _ _ _ _ H. exact H.
  - intros x e0 _ _ _ H. exact H.
  - intros x e0 src HP Hc Hs _ _ H. fields. rewrite (HP Hc src Hs).
    apply keyed_by_source_set; assumption.
  - intros x e0 src first rest HP Hc Hs _ _ _ H. fields. rewrite (HP Hc src Hs).
    apply keyed_by_source_set; assumption.
  - exact Hn.
Qed.

Lemma commit_loop_keyed :
  forall n top_level es s,
    (forall i b x, keeps_keyed x (fst (n i b x))) ->
    (forall e, In (GEntry e) es -> named_by_source f e) ->
    keeps_keyed s (fst (commit_loop uri_from_path path_parent n top_level es s)).
Proof.
  intros n top_level es s Hn HP.
  apply (commit_loop_steps keeps_keyed (named_by_source f) n top_level).
  - intros a H. exact H.
  - intros a b c H1 H2 H. exact (H2 (H1 H)).
  - intros x e He. apply commit_entry_keyed; assumption.
  - exact HP.
Qed.

Lemma tasks_named :
  forall st base top_level imps e,
    In (GEntry e) (map fst (map (_import uri_from_path imports_manager st base top_level) imps)) ->
    named_by_source f e.
Proof.
  intros st base top_level imps e H. rewrite map_map in H. apply in_map_iff in H.
  destruct H as [v [Hv _]]. exact (task_named_by_source f st base top_level v e Hf Hv).
Qed.

(** The import loop keeps the resources keyed by source. *)
Lemma _import_imports_keyed :
  forall (co : forall A : Type, list A -> list A) depth top_level imps base s,
    keeps_keyed s
      (fst (_import_imports uri_from_path path_parent imports_manager co depth imps base
              top_level s)).
Proof.
  intros co. induction depth as [|d IH]; intros top_level imps base s.
  - intros H. exact H.
  - cbn [_import_imports]. intros H.
    apply (commit_loop_keyed _ top_level _ _ (fun i b x => IH false i b x)).
    + apply tasks_named.
    + exact H.
Qed.

(** The entries that tasks return for resources are those of documents the
    imports manager resolved. *)
Lemma task_alone_under_name :
  forall src st base top_level v e,
    name_of_one_file imports_manager f src ->
    fst (_import uri_from_path imports_manager st base top_level v) = GEntry e ->
    alone_under_name f src e.
Proof.
  intros src st base top_level v e Hone. unfold _import.
  assert (Hb : forall e0, bound (_import_try uri_from_path imports_manager st base top_level v)
                          = Some e0 -> alone_under_name f src e0).
  { intros e0. unfold _import_try.
    destruct v as [se nm tok args al|se nm tok|se nm tok args|se nm tok];
      try (destruct nm as [n|]); cbn [bound]; try discriminate.
    - unfold _get_library_entry.
      destruct (get_libdoc_for_library_import imports_manager n args base);
        cbn [bind bound]; [|discriminate].
      match goal with |- context [libdoc_error_diagnostics ?u ?r ?x] =>
        destruct (if top_level then libdoc_error_diagnostics u r x else ([], None)) end.
      cbn [bound]. intros H. injection H as <-. intros Hc. discriminate Hc.
    - destruct (find_file imports_manager n base) as [source|]; cbn [bound]; [|discriminate].
      destruct (existsb _ _); cbn [bound]; [discriminate|].
      unfold _get_resource_entry.
      destruct (get_namespace_for_resource_import imports_manager n base) as [ns|];
        cbn [bind bound]; [|discriminate].
      destruct (get_libdoc_for_resource_import imports_manager n base) as [doc|] eqn:Hd;
        cbn [bind bound]; [|discriminate].
      match goal with |- context [libdoc_error_diagnostics ?u ?r ?x] =>
        destruct (if top_level then libdoc_error_diagnostics u r x else ([], None)) end.
      cbn [bound]. intros H. injection H as <-. intros _ src' Hs.
      cbn [with_import library_doc] in Hs. exact (Hone n base doc src' Hd Hs).
    - unfold _get_variables_entry.
      destruct (get_libdoc_for_variables_import imports_manager n args base);
        cbn [bind bound]; [|discriminate].
      match goal with |- context [libdoc_error_diagnostics ?u ?r ?x] =>
        destruct (if top_level then libdoc_error_diagnostics u r x else ([], None)) end.
      cbn [bound]. intros H. injection H as <-. intros Hc. discriminate Hc. }
  destruct (raised _) as [ex|].
  - destruct (is_fatal ex); cbn [fst]; [discriminate|].
    destruct (bound _) as [e0|]; cbn [gathered]; [|discriminate].
    intros H. injection H as <-. apply Hb. reflexivity.
  - cbn [fst]. destruct (bound _) as [e0|]; cbn [gathered]; [|discriminate].
    intros H. injection H as <-. apply Hb. reflexivity.
Qed.

(** One resource file, whose name no other file has. *)
Variable src : string.
Hypothesis Hone : name_of_one_file imports_manager f src.

Lemma tasks_alone :
  forall st base top_level imps e,
    In (GEntry e) (map fst (map (_import uri_from_path imports_manager st base top_level) imps)) ->
    alone_under_name f src e.
Proof.
  intros st base top_level imps e H. rewrite map_map in H. apply in_map_iff in H.
  destruct H as [v [Hv _]]. exact (task_alone_under_name src st base top_level v e Hone Hv).
Qed.

Lemma in_from_source :
  forall d k e s,
    od_get d k = Some e -> ld_source (library_doc e) = Some s -> In e (from_source s d).
Proof.
  intros d k e s Hg Hs. unfold from_source. apply filter_In. split.
  - unfold od_values. apply in_map_iff. exists (k, e). split; [reflexivity|].
    apply od_get_in. exact Hg.
  - unfold source_is. rewrite Hs. cbn. apply String.eqb_refl.
Qed.

Lemma from_source_source :
  forall d s e, In e (from_source s d) -> ld_source (library_doc e) = Some s.
Proof.
  intros d s e H. unfold from_source in H. apply filter_In in H. destruct H as [_ H].
  unfold source_is in H. destruct (ld_source (library_doc e)) as [x|]; [|discriminate].
  cbn in H. apply String.eqb_eq in H. subst x. reflexivity.
Qed.

(** The entry [e0] of the file stays where it is. *)
Section Entry.

Variable e0 : LibraryEntry.
Hypothesis He0 : ld_source (library_doc e0) = Some src.

Let keeps_entry (a b : Namespace) : Prop :=
  od_get (_resources a) (f src) = Some e0 -> od_get (_resources b) (f src) = Some e0.

(** An entry that is named by its source, alone under the name of [src],
    and at top level not an entry of [src]. *)
Let other (top_level : bool) (e : LibraryEntry) : Prop :=
  named_by_source f e /\ alone_under_name f src e /\
  (top_level = true -> entry_class e = ResourceEntryC ->
   ld_source (library_doc e) <> Some src).

Lemma commit_entry_keeps_entry :
  forall n top_level s e,
    (forall i b x, keeps_entry x (fst (n i b x))) ->
    other top_level e ->
    keeps_entry s (fst (commit_entry uri_from_path path_parent n top_level s e)).
Proof.
  intros n top_level s e Hn Hother.
  apply (commit_entry_steps keeps_entry (other top_level) n top_level).
  - intros a H. exact H.
  - intros a b c H1 H2 H. exact (H2 (H1 H)).
  - intros ds x H. exact H.
  - intros x e1 _ _ _ _ H. exact H.
  - intros x e1 _ _ _ H. exact H.
  - intros x e1 src' [HP [Ha _]] Hc Hs Hnone _ H. fields. rewrite (HP Hc src' Hs).
    rewrite od_get_set_other; [exact H|].
    intros Hk. pose proof (Ha Hc src' Hs Hk) as ->.
    pose proof (in_from_source _ _ _ _ H He0) as Hin. rewrite Hnone in Hin. destruct Hin.
  - intros x e1 src' first rest [HP [Ha Ho]] Hc Hs Ht _ _ H. fields. rewrite (HP Hc src' Hs).
    rewrite od_get_set_other; [exact H|].
    intros Hk. pose proof (Ha Hc src' Hs Hk) as ->. exact (Ho Ht Hc Hs).
  - exact Hn.
  - exact Hother.
Qed.

Lemma _import_imports_keeps_entry :
  forall (co : forall A : Type, list A -> list A) depth imps base s,
    keeps_entry s
      (fst (_import_imports uri_from_path path_parent imports_manager co depth imps base
              false s)).
Proof.
  intros co. induction depth as [|d IH]; intros imps base s.
  - intros H. exact H.
  - cbn [_import_imports]. intros H.
    apply (commit_loop_steps keeps_entry (other false)
             (fun i b x =>
                _import_imports uri_from_path path_parent imports_manager co d i b false x)
             false).
    + intros a H1. exact H1.
    + intros a b c H1 H2 H3. exact (H2 (H1 H3)).
    + intros x e He. apply commit_entry_keeps_entry; [apply IH|exact He].
    + intros e He. split; [exact (tasks_named _ _ _ _ _ He)|].
      split; [exact (tasks_alone _ _ _ _ _ He)|discriminate].
    + exact H.
Qed.

(** At top level the entry stays while the loop goes through the results of
    imports of other files. *)
Lemma commit_loop_keeps_entry :
  forall (co : forall A : Type, list A -> list A) depth es s,
    (forall e, In (GEntry e) es ->
       named_by_source f e /\ alone_under_name f src e /\
       (entry_class e = ResourceEntryC -> ld_source (library_doc e) <> Some src)) ->
    keeps_entry s
      (fst (commit_loop uri_from_path path_parent
              (fun i b x =>
                 _import_imports uri_from_path path_parent imports_manager co depth i b
                   false x)
              true es s)).
Proof.
  intros co depth es s Hes.
  apply (commit_loop_steps keeps_entry (other true) _ true).
  - intros a H1. exact H1.
  - intros a b c H1 H2 H3. exact (H2 (H1 H3)).
  - intros x e He. apply commit_entry_keeps_entry; [|exact He].
    intros i b y. apply _import_imports_keeps_entry.
  - intros e He. destruct (Hes e He) as [H1 [H2 H3]].
    split; [exact H1|]. split; [exact H2|]. intros _. exact H3.
Qed.

End Entry.

(** The turn of a resource entry of the file at top level leaves that entry
    under the name of the file. *)
Lemma commit_entry_stores :
  forall (co : forall A : Type, list A -> list A) depth s e,
    named_by_source f e ->
    entry_class e = ResourceEntryC ->
    ld_source (library_doc e) = Some src ->
    src <> ns_source s -> src <> "" ->
    let r := commit_entry uri_from_path path_parent
               (fun i b x =>
                  _import_imports uri_from_path path_parent imports_manager co depth i b
                    false x)
               true s e in
    snd r = None ->
    od_get (_resources (fst r)) (f src) = Some e.
Proof.
  intros co depth s e Hnamed Hc Hs Hne Hnot r. subst r.
  unfold commit_entry. rewrite Hc, Hs. fold (from_source src (_resources s)).
  rewrite (Hnamed Hc src Hs).
  destruct (from_source src (_resources s)) as [|first rest] eqn:Hfrom.
  - cbn [is_nil andb]. destruct (String.eqb_spec src (ns_source s)); [contradiction|].
    cbn [negb].
    pose proof (_import_imports_keeps_entry e Hs co depth (imports e) (path_parent src)
                  (set_resources (od_set (_resources s) (f src) e) s)) as Hk.
    cbv zeta in Hk.
    assert (Hset : od_get (_resources (set_resources (od_set (_resources s) (f src) e) s))
                     (f src) = Some e) by (fields; apply od_get_set_same).
    specialize (Hk Hset).
    destruct (_import_imports uri_from_path path_parent imports_manager co depth
                (imports e) (path_parent src) false _) as [s2 [ex|]]; cbn [fst snd] in *.
    + destruct (is_fatal ex); [discriminate|]. intros _. exact Hk.
    + intros _. exact Hk.
  - cbn [is_nil andb]. destruct (String.eqb_spec src (ns_source s)); [contradiction|].
    assert (Ht : truthy (ld_source (library_doc first)) = true).
    { assert (Hin : In first (from_source src (_resources s)))
        by (rewrite Hfrom; left; reflexivity).
      unfold from_source in Hin. apply filter_In in Hin. destruct Hin as [_ Hsrc].
      unfold source_is in Hsrc.
      destruct (ld_source (library_doc first)) as [fs|]; [|discriminate].
      cbn in Hsrc. apply String.eqb_eq in Hsrc. subst fs. cbn.
      destruct (String.eqb_spec src ""); [contradiction|reflexivity]. }
    rewrite Ht.
    destruct (append_built_cases (resource_already_imported_info uri_from_path e first)
                (set_resources (od_set (_resources s) (f src) e) s))
      as [[x [_ ->]]|[ex [_ ->]]]; cbn [fst snd]; [|discriminate].
    intros _. fields. apply od_get_set_same.
Qed.

(** The turn of a resource entry of a file that is in the map already: the
    information diagnostic is appended. *)
Lemma commit_entry_reports_duplicate :
  forall n s e first rest,
    entry_class e = ResourceEntryC ->
    ld_source (library_doc e) = Some src ->
    src <> ns_source s -> src <> "" ->
    from_source src (_resources s) = first :: rest ->
    let r := commit_entry uri_from_path path_parent n true s e in
    snd r = None ->
    exists u,
      uri_from_path (import_source first) = Ok u /\
      In (information (import_range e) "Resource already imported."
            (Some [mkRelated (mkLocation u (import_range first)) ""]))
         (_diagnostics (fst r)).
Proof.
  intros n s e first rest Hc Hs Hne Hnot Hfrom r. subst r.
  unfold commit_entry. rewrite Hc, Hs. fold (from_source src (_resources s)).
  rewrite Hfrom. cbn [is_nil andb].
  destruct (String.eqb_spec src (ns_source s)); [contradiction|].
  assert (Ht : truthy (ld_source (library_doc first)) = true).
  { assert (Hin : In first (from_source src (_resources s)))
      by (rewrite Hfrom; left; reflexivity).
    unfold from_source in Hin. apply filter_In in Hin. destruct Hin as [_ Hsrc].
    unfold source_is in Hsrc.
    destruct (ld_source (library_doc first)) as [fs|]; [|discriminate].
    cbn in Hsrc. apply String.eqb_eq in Hsrc. subst fs. cbn.
    destruct (String.eqb_spec src ""); [contradiction|reflexivity]. }
  rewrite Ht. unfold resource_already_imported_info, related_to.
  destruct (uri_from_path (import_source first)) as [u|ex]; cbn [bind append_built fst snd];
    [|discriminate].
  intros _. exists u. split; [reflexivity|]. fields. apply in_or_app. right. left. reflexivity.
Qed.

(** The loop at top level over a list of results: of the imports of the
    file [src] the entry of the last one is in the map at the end, and it is
    the only entry of the file. *)
Lemma commit_loop_keeps_last :
  forall (co : forall A : Type, list A -> list A) depth es1 e es2 s,
    (forall e', In (GEntry e') (es1 ++ GEntry e :: es2) ->
       named_by_source f e' /\ alone_under_name f src e') ->
    entry_class e = ResourceEntryC ->
    ld_source (library_doc e) = Some src ->
    src <> ns_source s -> src <> "" ->
    (forall e', In (GEntry e') es2 -> entry_class e' = ResourceEntryC ->
       ld_source (library_doc e') <> Some src) ->
    keyed_by_source f (_resources s) ->
    let r := commit_loop uri_from_path path_parent
               (fun i b x =>
                  _import_imports uri_from_path path_parent imports_manager co depth i b
                    false x)
               true (es1 ++ GEntry e :: es2) s in
    snd r = None ->
    from_source src (_resources (fst r)) = [e].
Proof.
  intros co depth es1 e es2 s HP Hc Hs Hne Hnot Hes2 Hk r. subst r.
  set (n := fun i b x =>
              _import_imports uri_from_path path_parent imports_manager co depth i b false x).
  assert (Hfinal : keyed_by_source f
             (_resources (fst (commit_loop uri_from_path path_parent n true
                                 (es1 ++ GEntry e :: es2) s)))).
  { apply (commit_loop_keyed n true (es1 ++ GEntry e :: es2) s).
    - intros i b x. apply _import_imports_keyed.
    - intros e' He'. apply (HP e' He').
    - exact Hk. }
  intros Hok. apply (keyed_by_source_only f); [exact Hfinal| |exact Hs].
  revert Hok. clear Hfinal. rewrite commit_loop_app.
  pose proof (commit_loop_extends n true es1 s) as Hext.
  destruct (commit_loop uri_from_path path_parent n true es1 s) as [a [ex|]];
    cbn [fst snd] in *; [discriminate|].
  assert (Hsrc : ns_source a = ns_source s).
  { apply Hext. intros i b x. apply _import_imports_extends. }
  cbn [commit_loop].
  assert (Hnamed : named_by_source f e).
  { apply HP. apply in_or_app. right. left. reflexivity. }
  pose proof (commit_entry_stores co depth a e Hnamed Hc Hs) as Hst. cbv zeta in Hst.
  rewrite Hsrc in Hst. specialize (Hst Hne Hnot). fold n in Hst.
  destruct (commit_entry uri_from_path path_parent n true a e) as [b [ex|]];
    cbn [fst snd] in *; [discriminate|].
  intros _. apply (commit_loop_keeps_entry e Hs co depth es2 b); [|exact (Hst eq_refl)].
  intros e' He'.
  assert (Hin : In (GEntry e') (es1 ++ GEntry e :: es2))
    by (apply in_or_app; right; right; exact He').
  destruct (HP e' Hin) as [H1 H2].
  split; [exact H1|]. split; [exact H2|]. exact (Hes2 e' He').
Qed.

(** An import of the file [src] after another one: the information
    diagnostic is appended, related to the import before it. *)
Lemma commit_loop_reports_duplicate :
  forall (co : forall A : Type, list A -> list A) depth es0 e0 mid e es2 s,
    (forall e', In (GEntry e') (es0 ++ GEntry e0 :: mid ++ GEntry e :: es2) ->
       named_by_source f e' /\ alone_under_name f src e') ->
    entry_class e0 = ResourceEntryC -> ld_source (library_doc e0) = Some src ->
    entry_class e = ResourceEntryC -> ld_source (library_doc e) = Some src ->
    src <> ns_source s -> src <> "" ->
    (forall e', In (GEntry e') mid -> entry_class e' = ResourceEntryC ->
       ld_source (library_doc e') <> Some src) ->
    keyed_by_source f (_resources s) ->
    let r := commit_loop uri_from_path path_parent
               (fun i b x =>
                  _import_imports uri_from_path path_parent imports_manager co depth i b
                    false x)
               true (es0 ++ GEntry e0 :: mid ++ GEntry e :: es2) s in
    snd r = None ->
    exists u,
      uri_from_path (import_source e0) = Ok u /\
      In (information (import_range e) "Resource already imported."
            (Some [mkRelated (mkLocation u (import_range e0)) ""]))
         (_diagnostics (fst r)).
Proof.
  intros co depth es0 e0 mid e es2 s HP Hc0 Hs0 Hc Hs Hne Hnot Hmid Hk r. subst r.
  set (n := fun i b x =>
              _import_imports uri_from_path path_parent imports_manager co depth i b false x).
  assert (Hn : extends_runs n) by (intros i b x; apply _import_imports_extends).
  replace (es0 ++ GEntry e0 :: mid ++ GEntry e :: es2)
    with ((es0 ++ GEntry e0 :: mid) ++ GEntry e :: es2)
    by (rewrite <- app_assoc; reflexivity).
  rewrite commit_loop_app.
  pose proof (commit_loop_keeps_last co depth es0 e0 mid s) as Hlast. cbv zeta in Hlast.
  fold n in Hlast.
  pose proof (commit_loop_extends n true (es0 ++ GEntry e0 :: mid) s Hn) as Hext.
  destruct (commit_loop uri_from_path path_parent n true (es0 ++ GEntry e0 :: mid) s)
    as [a [ex|]]; cbn [fst snd] in *; [discriminate|].
  assert (Hfrom : from_source src (_resources a) = [e0]).
  { apply Hlast; try assumption; [|reflexivity].
    intros e' He'. apply HP. apply in_app_or in He'. apply in_or_app.
    destruct He' as [He'|[He'|He']]; [left; exact He'|right; left; exact He'|].
    right. right. apply in_or_app. left. exact He'. }
  assert (Hsrc : ns_source a = ns_source s) by apply Hext.
  cbn [commit_loop].
  pose proof (commit_entry_reports_duplicate n a e e0 [] Hc Hs) as Hdup. cbv zeta in Hdup.
  rewrite Hsrc in Hdup. specialize (Hdup Hne Hnot Hfrom).
  destruct (commit_entry uri_from_path path_parent n true a e) as [b [ex|]];
    cbn [fst snd] in *; [discriminate|].
  intros Hok. destruct (Hdup eq_refl) as [u [Hu Hin]]. exists u. split; [exact Hu|].
  pose proof (commit_loop_extends n true es2 b Hn) as [[out Hout] _].
  rewrite Hout. apply in_or_app. left. exact Hin.
Qed.

End NamedBySource.
(** *** A task that raises *)

(** When the report of the errors of a document raises, nothing of it has
    been appended, and the document has errors. *)
Lemma libdoc_error_diagnostics_raises :
  forall r result e,
    snd (libdoc_error_diagnostics uri_from_path r result) = Some e ->
    fst (libdoc_error_diagnostics uri_from_path r result) = [] /\
    has_errors (library_doc result) = true.
Proof.
  intros r result e. unfold libdoc_error_diagnostics.
  destruct (ld_source (library_doc result)); [|discriminate].
  destruct (has_errors (library_doc result)); [|discriminate].
  destruct (existsb _ _); [|discriminate].
  destruct (related_of_errors uri_from_path (library_doc result) _); [discriminate|].
  intros _. split; reflexivity.
Qed.

(** A task that raises has appended nothing before. *)
Lemma raised_appended_nil :
  forall st base top_level v e,
    raised (_import_try uri_from_path imports_manager st base top_level v) = Some e ->
    appended (_import_try uri_from_path imports_manager st base top_level v) = [].
Proof.
  intros st base top_level v e. unfold _import_try.
  destruct v as [se nm tok args al|se nm tok|se nm tok args|se nm tok];
    try (destruct nm as [n|]); cbn [raised appended]; try reflexivity.
  - destruct (_get_library_entry imports_manager n args al base) as [x|ex];
      cbn [raised appended]; [|reflexivity].
    destruct top_level; cbn [andb]; [|discriminate].
    match goal with |- context [libdoc_error_diagnostics uri_from_path ?r ?x] =>
      pose proof (libdoc_error_diagnostics_raises r x e) as H end.
    destruct (libdoc_error_diagnostics uri_from_path _ _) as [errs ex]; cbn [fst snd] in *.
    cbn [raised appended]. intros ->. destruct (H eq_refl) as [-> He].
    unfold has_errors in He.
    destruct (errors (library_doc (with_import x _ _))) as [[|? ?]|]; try discriminate.
    reflexivity.
  - destruct (find_file imports_manager n base) as [found|]; cbn [raised appended];
      [|reflexivity].
    destruct (existsb _ _); cbn [raised appended]; [reflexivity|].
    destruct (_get_resource_entry imports_manager n base) as [x|ex];
      cbn [raised appended]; [|reflexivity].
    destruct top_level; cbn [andb]; [|discriminate].
    match goal with |- context [libdoc_error_diagnostics uri_from_path ?r ?x] =>
      pose proof (libdoc_error_diagnostics_raises r x e) as H end.
    destruct (libdoc_error_diagnostics uri_from_path _ _) as [errs ex]; cbn [fst snd] in *.
    cbn [raised appended]. intros ->. destruct (H eq_refl) as [-> He].
    rewrite He. reflexivity.
  - destruct (_get_variables_entry imports_manager n args base) as [x|ex];
      cbn [raised appended]; [|reflexivity].
    destruct top_level; [|discriminate].
    match goal with |- context [libdoc_error_diagnostics uri_from_path ?r ?x] =>
      pose proof (libdoc_error_diagnostics_raises r x e) as H end.
    destruct (libdoc_error_diagnostics uri_from_path _ _) as [errs ex]; cbn [fst snd] in *.
    cbn [raised appended]. intros ->. destruct (H eq_refl) as [-> He]. reflexivity.
Qed.

Section TopLevel.

Variable co1 co2 : forall A : Type, list A -> list A.

Let run co depth imps base st :=
  _import_imports uri_from_path path_parent imports_manager co depth imps base true st.

Lemma agree_runs_nested :
  forall (co co' : forall A : Type, list A -> list A) d,
    agree_runs
      (fun imps base s =>
         _import_imports uri_from_path path_parent imports_manager co d imps base false s)
      (fun imps base s =>
         _import_imports uri_from_path path_parent imports_manager co' d imps base false s).
Proof. intros co co' d i b x y H. apply _import_imports_agree. exact H. Qed.

Lemma extends_runs_nested :
  forall (co : forall A : Type, list A -> list A) d,
    extends_runs
      (fun imps base s =>
         _import_imports uri_from_path path_parent imports_manager co d imps base false s).
Proof. intros co d i b x. apply _import_imports_extends. Qed.

(** An import whose task leaves [None], or at top level an entry for
    [BuiltIn] without alias whose diagnostic can be built, can be left out
    of the list: the other imports are committed to the same maps and the
    same exception, if any, is raised. *)
Lemma skipped_import :
  forall depth pre v post base st,
    (fst (_import uri_from_path imports_manager st base true v) = GNone \/
     exists e d, fst (_import uri_from_path imports_manager st base true v) = GEntry e /\
                 entry_class e = LibraryEntryC /\
                 skipped_builtin true e = true /\
                 builtin_override_info uri_from_path e = Ok d) ->
    agree (fst (run co1 (S depth) (pre ++ v :: post) base st))
          (fst (run co2 (S depth) (pre ++ post) base st)) /\
    snd (run co1 (S depth) (pre ++ v :: post) base st)
    = snd (run co2 (S depth) (pre ++ post) base st).
Proof.
  intros depth pre v post base st Hv. unfold run. cbn [_import_imports].
  rewrite !map_app. cbn [map]. rewrite ?map_app. cbn [map].
  match goal with
  | |- context [commit_loop _ _ ?n1 true (?es1 ++ ?g :: ?es2) ?s1] =>
      match goal with
      | |- context [commit_loop _ _ ?n2 true (es1 ++ es2) ?s2] =>
          destruct (commit_loop_skips n1 true es1 g es2 s1) as [A1 A2];
            [apply extends_runs_nested|apply agree_runs_nested| |
             destruct (commit_loop_agree n1 n2 true (es1 ++ es2) s1 s2) as [B1 B2];
               [apply agree_runs_nested|apply agree_append; apply agree_refl|]]
      end
  end.
  - destruct Hv as [Hv|[e [d [Hv [Hc [Hs Hd]]]]]].
    + left. exact Hv.
    + right. exists e, d. repeat split; assumption.
  - split; [exact (agree_trans _ _ _ A1 B1)|congruence].
Qed.

(** Every import whose task returned an entry is committed by a call at
    top level that returns. *)
Lemma _import_imports_commits :
  forall (co : forall A : Type, list A -> list A) depth imps base st,
    snd (run co (S depth) imps base st) = None ->
    forall v e,
      In v imps ->
      fst (_import uri_from_path imports_manager st base true v) = GEntry e ->
      committed e (fst (run co (S depth) imps base st)).
Proof.
  intros co depth imps base st Hok v e Hv He. unfold run in *. cbn [_import_imports] in *.
  apply commit_loop_commits; [apply extends_runs_nested|exact Hok|].
  rewrite map_map. apply in_map_iff. exists v. split; assumption.
Qed.

(** What a task appended is among the diagnostics after the call. *)
Lemma _import_imports_reports :
  forall (co : forall A : Type, list A -> list A) depth imps base st v d,
    rearranges co -> In v imps ->
    In d (snd (_import uri_from_path imports_manager st base true v)) ->
    In d (_diagnostics (fst (run co (S depth) imps base st))).
Proof.
  intros co depth imps base st v d Hco Hv Hd. unfold run. cbn [_import_imports].
  eapply extends_diagnostics; [apply commit_loop_extends; apply extends_runs_nested|].
  fields. apply in_or_app. right.
  apply (gathered_diagnostic co _
           (fst (_import uri_from_path imports_manager st base true v))
           (snd (_import uri_from_path imports_manager st base true v)) d Hco);
    [|exact Hd].
  rewrite <- surjective_pairing. apply in_map. exact Hv.
Qed.

(** An import that raises at top level. When an import raises an exception
    that is not a cancellation, a system exit or a keyboard interrupt, its
    task appends exactly one diagnostic: an error at the range of the import,
    with the message and the type name of the exception; the diagnostic is
    among the diagnostics after the call. When the exception was raised
    before an entry was bound to [result], that is by the imports manager
    or by the checks on the import, the task returns [None], and the maps
    and the exception raised are those of the call on the list without that
    import: nothing is stored for it. Whenever the call returns, every import
    of the list whose task returned an entry is committed. *)
Theorem failed_import_is_reported :
  forall depth pre v post base st e,
    rearranges co1 ->
    raised (_import_try uri_from_path imports_manager st base true v) = Some e ->
    is_fatal e = false ->
    let result := bound (_import_try uri_from_path imports_manager st base true v) in
    let reported := exception_diagnostic (Import_range v) e in
    let full := run co1 (S depth) (pre ++ v :: post) base st in
    _import uri_from_path imports_manager st base true v = (gathered result, [reported]) /\
    d_range reported = Import_range v /\
    d_message reported = exc_str e /\
    d_code reported = Some (exc_qualname e) /\
    d_severity reported = ERROR /\
    In reported (_diagnostics (fst full)) /\
    (result = None ->
     agree (fst full) (fst (run co2 (S depth) (pre ++ post) base st)) /\
     snd full = snd (run co2 (S depth) (pre ++ post) base st)) /\
    (snd full = None ->
     forall v' e',
       In v' (pre ++ v :: post) ->
       fst (_import uri_from_path imports_manager st base true v') = GEntry e' ->
       committed e' (fst full)).
Proof.
  intros depth pre v post base st e Hco Hraise Hfatal result reported full.
  assert (Htask : _import uri_from_path imports_manager st base true v
                  = (gathered result, [reported])).
  { unfold _import. rewrite Hraise, Hfatal.
    rewrite (raised_appended_nil st base true v e Hraise). reflexivity. }
  split; [exact Htask|]. do 4 (split; [reflexivity|]).
  split; [|split].
  - apply (_import_imports_reports co1 depth _ base st v reported Hco).
    + apply in_or_app. right. left. reflexivity.
    + rewrite Htask. left. reflexivity.
  - intros Hnone. apply skipped_import. left. rewrite Htask, Hnone. reflexivity.
  - intros Hok v' e' Hv' He'. exact (_import_imports_commits co1 depth _ base st Hok v' e' Hv' He').
Qed.

End TopLevel.

(** *** The default libraries and ensure_initialized *)

Variable DEFAULT_LIBRARIES : list string.

Lemma until_raise_none :
  forall (A : Type) (l : list (Result A * list Diagnostic)),
    snd (until_raise l) = None <-> Forall returned l.
Proof.
  intros A l. induction l as [|[[a|e] ds] l IH]; simpl.
  - split; [constructor|reflexivity].
  - destruct (until_raise l) as [ds' r]. simpl in *. rewrite IH. split.
    + intros H. constructor; [exists a; reflexivity|exact H].
    + intros H. inversion H. assumption.
  - split; [discriminate|]. intros H. inversion H as [|x y [a Ha] Hl]. discriminate.
Qed.

Lemma default_libraries_fold_agree :
  forall (tasks : list (Result (option LibraryEntry) * list Diagnostic)) s1 s2,
    agree s1 s2 ->
    agree
      (fold_left
         (fun s t =>
            match fst t with
            | Ok (Some e) => set_libraries (od_set (_libraries s) (entry_key e) e) s
            | _ => s
            end) tasks s1)
      (fold_left
         (fun s t =>
            match fst t with
            | Ok (Some e) => set_libraries (od_set (_libraries s) (entry_key e) e) s
            | _ => s
            end) tasks s2).
Proof.
  induction tasks as [|[[[e|]|ex] ds] tasks IH]; intros s1 s2 H; simpl;
    try (apply IH; exact H); [exact H|].
  apply IH. destruct (agree_fields _ _ H) as [Hl _]. rewrite Hl.
  apply agree_set_libraries. exact H.
Qed.

(** The default libraries give the same maps whatever the order in which
    their tasks complete, and raise under one order if they do under another. *)
Lemma _import_default_libraries_agree :
  forall (co1 co2 : forall A : Type, list A -> list A) s1 s2,
    rearranges co1 -> rearranges co2 ->
    agree s1 s2 ->
    let d1 := _import_default_libraries path_parent DEFAULT_LIBRARIES imports_manager co1 s1 in
    let d2 := _import_default_libraries path_parent DEFAULT_LIBRARIES imports_manager co2 s2 in
    agree (fst d1) (fst d2) /\ (snd d1 = None <-> snd d2 = None).
Proof.
  intros co1 co2 s1 s2 H1 H2 Ha d1 d2. subst d1 d2. unfold _import_default_libraries.
  assert (Et : map (_import_lib path_parent imports_manager s1) DEFAULT_LIBRARIES
               = map (_import_lib path_parent imports_manager s2) DEFAULT_LIBRARIES).
  { apply map_ext. intros l. unfold _import_lib.
    destruct (agree_fields _ _ Ha) as [_ [_ [_ Hs]]]. rewrite Hs. reflexivity. }
  rewrite Et.
  set (tasks := map (_import_lib path_parent imports_manager s2) DEFAULT_LIBRARIES).
  pose proof (until_raise_none _ (co1 _ tasks)) as R1.
  pose proof (until_raise_none _ (co2 _ tasks)) as R2.
  assert (R : Forall returned (co1 _ tasks) <-> Forall returned (co2 _ tasks)).
  { split; intros H.
    - apply (Permutation_Forall (Permutation_sym (H2 _ tasks))).
      apply (Permutation_Forall (H1 _ tasks)). exact H.
    - apply (Permutation_Forall (Permutation_sym (H1 _ tasks))).
      apply (Permutation_Forall (H2 _ tasks)). exact H. }
  destruct (until_raise (co1 _ tasks)) as [ds1 [e1|]];
    destruct (until_raise (co2 _ tasks)) as [ds2 [e2|]]; simpl in *.
  - split; [exact Ha|]. split; discriminate.
  - exfalso. assert (H : Some e1 = None) by (apply R1, R, R2; reflexivity). discriminate.
  - exfalso. assert (H : Some e2 = None) by (apply R2, R, R1; reflexivity). discriminate.
  - split; [|split; reflexivity].
    apply default_libraries_fold_agree. apply agree_append. exact Ha.
Qed.

Lemma get_imports_agree : forall st, agree (fst (get_imports st)) st.
Proof. intros st. unfold get_imports. destruct (_imports st); reflexivity. Qed.

Lemma get_imports_document : forall st, document (fst (get_imports st)) = document st.
Proof. intros st. unfold get_imports. destruct (_imports st); reflexivity. Qed.

(** The default libraries leave resources, variables and the source as
    they are. *)
Lemma default_libraries_fold_frame :
  forall (tasks : list (Result (option LibraryEntry) * list Diagnostic)) s,
    let s' := fold_left
                (fun s t =>
                   match fst t with
                   | Ok (Some e) => set_libraries (od_set (_libraries s) (entry_key e) e) s
                   | _ => s
                   end) tasks s in
    _resources s' = _resources s /\ _variables s' = _variables s /\
    ns_source s' = ns_source s /\ _diagnostics s' = _diagnostics s.
Proof.
  induction tasks as [|[[[e|]|ex] ds] tasks IH]; intros s; cbn [fold_left fst];
    try (apply IH); [repeat split|].
  destruct (IH (set_libraries (od_set (_libraries s) (entry_key e) e) s)) as [H1 [H2 [H3 H4]]].
  repeat split; assumption.
Qed.

Lemma _import_default_libraries_keeps :
  forall (co : forall A : Type, list A -> list A) s,
    let d := _import_default_libraries path_parent DEFAULT_LIBRARIES imports_manager co s in
    _resources (fst d) = _resources s /\ _variables (fst d) = _variables s /\
    ns_source (fst d) = ns_source s.
Proof.
  intros co s d. subst d. unfold _import_default_libraries.
  destruct (until_raise _) as [ds [e|]]; cbn [fst]; [repeat split|].
  destruct (default_libraries_fold_frame
              (map (_import_lib path_parent imports_manager s) DEFAULT_LIBRARIES)
              (append_diagnostics ds s)) as [H1 [H2 [H3 _]]].
  repeat split; assumption.
Qed.

(** Namespaces with the same maps get the same default libraries. *)
Lemma _import_default_libraries_same :
  forall (co : forall A : Type, list A -> list A) s1 s2,
    agree s1 s2 ->
    let d1 := _import_default_libraries path_parent DEFAULT_LIBRARIES imports_manager co s1 in
    let d2 := _import_default_libraries path_parent DEFAULT_LIBRARIES imports_manager co s2 in
    agree (fst d1) (fst d2) /\ snd d1 = snd d2.
Proof.
  intros co s1 s2 Ha d1 d2. subst d1 d2. unfold _import_default_libraries.
  assert (Et : map (_import_lib path_parent imports_manager s1) DEFAULT_LIBRARIES
               = map (_import_lib path_parent imports_manager s2) DEFAULT_LIBRARIES).
  { apply map_ext. intros l. unfold _import_lib.
    destruct (agree_fields _ _ Ha) as [_ [_ [_ Hs]]]. rewrite Hs. reflexivity. }
  rewrite Et.
  destruct (until_raise _) as [ds [e|]]; cbn [fst snd].
  - split; [exact Ha|reflexivity].
  - split; [|reflexivity]. apply default_libraries_fold_agree. apply agree_append. exact Ha.
Qed.

(** An initialization that finds no snapshot imports the default libraries
    and then the imports of the file, in their order. *)
Lemma ensure_initialized_fresh :
  forall (co : forall A : Type, list A -> list A) depth st,
    _initialized st = false -> no_snapshot st ->
    exists s0,
      agree s0 st /\
      let d := _import_default_libraries path_parent DEFAULT_LIBRARIES imports_manager co s0 in
      let i := _import_imports uri_from_path path_parent imports_manager co depth
                 (snd (get_imports st)) (path_parent (ns_source (fst d))) true (fst d) in
      let r := ensure_initialized uri_from_path path_parent DEFAULT_LIBRARIES imports_manager
                 co depth st in
      match snd d with
      | Some e => agree (fst r) (fst d) /\ snd r = Some e
      | None =>
          agree (fst r) (fst i) /\ _diagnostics (fst r) = _diagnostics (fst i) /\
          snd r = snd i
      end.
Proof.
  intros co depth st Hi Hs. unfold ensure_initialized. rewrite Hi.
  pose proof (get_imports_agree st) as Ha. pose proof (get_imports_document st) as Hd.
  destruct (get_imports st) as [st1 imports]. simpl in Ha, Hd. simpl snd.
  unfold no_snapshot in Hs. rewrite <- Hd in Hs.
  assert (E : exists s0, agree s0 st /\
            (let '(st, data_entry) :=
               match document st1 with
               | None => (st1, None)
               | Some doc =>
                   match data_Namespace doc with
                   | None =>
                       (set_document (Some (mkTextDocument (Some imports) (data_DataEntry doc)))
                          st1, None)
                   | Some old_imports =>
                       if negb (imports_eqb old_imports imports) then
                         (set_document
                            (Some (mkTextDocument (Some (merged_imports old_imports imports))
                                     None)) st1, None)
                       else (st1, data_DataEntry doc)
                   end
               end in (st, data_entry)) = (s0, None)).
  { destruct (document st1) as [doc|]; [|exists st1; split; [exact Ha|reflexivity]].
    destruct (data_Namespace doc) as [old|].
    - destruct (negb (imports_eqb old imports)).
      + eexists; split; [|reflexivity]. exact Ha.
      + exists st1. split; [exact Ha|]. rewrite Hs. reflexivity.
    - eexists; split; [|reflexivity]. exact Ha. }
  destruct E as [s0 [Ha0 E]]. exists s0. split; [exact Ha0|].
  match type of E with
  | (let '(_, _) := ?m in _) = _ => destruct m as [sx dx]
  end.
  injection E as -> ->.
  destruct (_import_default_libraries path_parent DEFAULT_LIBRARIES imports_manager co s0)
    as [s1 [e|]]; simpl; [split; reflexivity|].
  destruct (_import_imports uri_from_path path_parent imports_manager co depth imports
              (path_parent (ns_source s1)) true s1) as [s2 [e|]]; simpl;
    [repeat split; reflexivity|].
  destruct (document s2); repeat split; reflexivity.
Qed.

(** A task reads the resources of the namespace and nothing else of it. *)
Lemma _import_resources :
  forall s1 s2 base top_level v,
    _resources s1 = _resources s2 ->
    _import uri_from_path imports_manager s1 base top_level v
    = _import uri_from_path imports_manager s2 base top_level v.
Proof.
  intros s1 s2 base top_level v H. unfold _import, _import_try. rewrite H. reflexivity.
Qed.

(** An initialization without snapshot that returns: the namespace [s1]
    after the default libraries, which has the maps that
    [_import_default_libraries] gives on the namespace itself, and from
    there the import loop of the imports of the file at top level, which
    returns and leaves the maps and the diagnostics of the initialized
    namespace. *)
Lemma ensure_initialized_returns :
  forall (co : forall A : Type, list A -> list A) depth st,
    _initialized st = false -> no_snapshot st ->
    let r := ensure_initialized uri_from_path path_parent DEFAULT_LIBRARIES imports_manager
               co depth st in
    let d := _import_default_libraries path_parent DEFAULT_LIBRARIES imports_manager co st in
    snd r = None ->
    exists s1,
      agree s1 (fst d) /\ snd d = None /\
      _resources s1 = _resources st /\ _variables s1 = _variables st /\
      ns_source s1 = ns_source st /\
      let i := _import_imports uri_from_path path_parent imports_manager co depth
                 (snd (get_imports st)) (path_parent (ns_source st)) true s1 in
      agree (fst r) (fst i) /\ _diagnostics (fst r) = _diagnostics (fst i) /\ snd i = None.
Proof.
  intros co depth st Hi Hs r d Hok.
  destruct (ensure_initialized_fresh co depth st Hi Hs) as [s0 [A0 E]].
  fold r in E. cbv zeta in E.
  destruct (_import_default_libraries_same co s0 st A0) as [Ad Rd]. fold d in Ad, Rd.
  pose proof (_import_default_libraries_keeps co s0) as [F1 [F2 F3]].
  destruct (agree_fields _ _ A0) as [_ [R0 [V0 S0]]].
  destruct (_import_default_libraries path_parent DEFAULT_LIBRARIES imports_manager co s0)
    as [s1 [e|]]; cbn [fst snd] in *.
  - destruct E as [_ E]. rewrite E in Hok. discriminate.
  - exists s1. split; [exact Ad|]. split; [symmetry; exact Rd|].
    split; [congruence|]. split; [congruence|]. split; [congruence|].
    rewrite F3, S0 in E. destruct E as [E1 [E2 E3]].
    split; [exact E1|]. split; [exact E2|]. rewrite <- E3. exact Hok.
Qed.

(** *** The entries of the default libraries *)

Lemma entry_key_default :
  forall l doc, ld_name doc = l -> entry_key (default_entry l doc) = l.
Proof.
  intros l doc H. unfold entry_key, default_entry. cbn [alias name import_name or_else].
  rewrite H. destruct (l =? "")%string; reflexivity.
Qed.

Lemma _get_library_entry_default :
  forall l base e,
    _get_library_entry imports_manager l [] None base = Ok e ->
    exists doc,
      get_libdoc_for_library_import imports_manager l [] base = Ok doc /\
      e = default_entry l doc.
Proof.
  intros l base e. unfold _get_library_entry.
  destruct (get_libdoc_for_library_import imports_manager l [] base) as [doc|];
    cbn [bind]; [|discriminate].
  intros H. injection H as <-. exists doc. split; reflexivity.
Qed.

Section DefaultEntries.

Variable st0 : Namespace.
Hypothesis Hnames :
  names_default_libraries imports_manager DEFAULT_LIBRARIES (path_parent (ns_source st0)).

Let store (s : Namespace) (t : Result (option LibraryEntry) * list Diagnostic) : Namespace :=
  match fst t with
  | Ok (Some e) => set_libraries (od_set (_libraries s) (entry_key e) e) s
  | _ => s
  end.

(** The entry of a default library is under the name of the library once
    the loop over the results is through. *)
Lemma default_libraries_fold_get :
  forall L s k doc,
    (forall l, In l L -> In l DEFAULT_LIBRARIES) ->
    get_libdoc_for_library_import imports_manager k [] (path_parent (ns_source st0)) = Ok doc ->
    In k L \/ od_get (_libraries s) k = Some (default_entry k doc) ->
    od_get (_libraries (fold_left store (map (_import_lib path_parent imports_manager st0) L) s))
      k = Some (default_entry k doc).
Proof.
  induction L as [|l L IH]; intros s k doc HL Hk H.
  - destruct H as [[]|H]. exact H.
  - cbn [map fold_left]. apply IH; [intros x Hx; apply HL; right; exact Hx|exact Hk|].
    unfold store at 1. unfold _import_lib.
    destruct (_get_library_entry imports_manager l [] None (path_parent (ns_source st0)))
      as [e|ex] eqn:He.
    + destruct (_get_library_entry_default l _ e He) as [doc' [Hd ->]].
      assert (Hkey : entry_key (default_entry l doc') = l).
      { apply entry_key_default. apply (Hnames l doc'); [apply HL; left; reflexivity|exact Hd]. }
      cbn [fst]. rewrite Hkey. fields.
      destruct (String.eqb_spec l k) as [->|Hne].
      * right. rewrite Hd in Hk. injection Hk as ->. apply od_get_set_same.
      * destruct H as [[H|H]|H]; [contradiction|left; exact H|right].
        rewrite od_get_set_other by exact Hne. exact H.
    + destruct (String.eqb_spec l k) as [->|Hne].
      * exfalso. unfold _get_library_entry in He. rewrite Hk in He. discriminate He.
      * destruct (is_fatal ex); cbn [fst];
          (destruct H as [[H|H]|H]; [contradiction|left; exact H|right; exact H]).
Qed.

(** What is in the libraries after the loop over the results was there
    before or is the entry of a default library, under its name. *)
Lemma default_libraries_fold_in :
  forall L s k e,
    (forall l, In l L -> In l DEFAULT_LIBRARIES) ->
    In (k, e)
       (_libraries (fold_left store (map (_import_lib path_parent imports_manager st0) L) s)) ->
    In (k, e) (_libraries s) \/
    exists doc,
      get_libdoc_for_library_import imports_manager k [] (path_parent (ns_source st0)) = Ok doc /\
      e = default_entry k doc.
Proof.
  induction L as [|l L IH]; intros s k e HL H.
  - left. exact H.
  - cbn [map fold_left] in H.
    apply IH in H; [|intros x Hx; apply HL; right; exact Hx].
    destruct H as [H|H]; [|right; exact H].
    unfold store in H. unfold _import_lib in H.
    destruct (_get_library_entry imports_manager l [] None (path_parent (ns_source st0)))
      as [e'|ex] eqn:He.
    + destruct (_get_library_entry_default l _ e' He) as [doc' [Hd ->]].
      assert (Hkey : entry_key (default_entry l doc') = l).
      { apply entry_key_default. apply (Hnames l doc'); [apply HL; left; reflexivity|exact Hd]. }
      cbn [fst] in H. rewrite Hkey in H. fields.
      apply od_set_in in H. destruct H as [H|H]; [|left; exact H].
      injection H as -> ->. right. exists doc'. split; [exact Hd|reflexivity].
    + destruct (is_fatal ex); cbn [fst] in H; left; exact H.
Qed.

Lemma _import_default_libraries_get :
  forall (co : forall A : Type, list A -> list A) k doc,
    let d := _import_default_libraries path_parent DEFAULT_LIBRARIES imports_manager co st0 in
    snd d = None ->
    In k DEFAULT_LIBRARIES ->
    get_libdoc_for_library_import imports_manager k [] (path_parent (ns_source st0)) = Ok doc ->
    od_get (_libraries (fst d)) k = Some (default_entry k doc).
Proof.
  intros co k doc d. subst d. unfold _import_default_libraries.
  destruct (until_raise _) as [ds [ex|]]; cbn [fst snd]; [discriminate|].
  intros _ Hin Hk.
  apply (default_libraries_fold_get DEFAULT_LIBRARIES (append_diagnostics ds st0) k doc);
    [auto|exact Hk|left; exact Hin].
Qed.

Lemma _import_default_libraries_in :
  forall (co : forall A : Type, list A -> list A) k e,
    let d := _import_default_libraries path_parent DEFAULT_LIBRARIES imports_manager co st0 in
    In (k, e) (_libraries (fst d)) ->
    In (k, e) (_libraries st0) \/
    exists doc,
      get_libdoc_for_library_import imports_manager k [] (path_parent (ns_source st0)) = Ok doc /\
      e = default_entry k doc.
Proof.
  intros co k e d. subst d. unfold _import_default_libraries.
  destruct (until_raise _) as [ds [ex|]]; cbn [fst snd]; [intros H; left; exact H|].
  intros H.
  apply (default_libraries_fold_in DEFAULT_LIBRARIES (append_diagnostics ds st0) k e) in H;
    [exact H|auto].
Qed.

End DefaultEntries.

(** The loop does not return when a task was ended by an exception that
    ends the work. *)
Lemma commit_loop_fatal :
  forall n top_level es s ex,
    In (GExc ex) es -> is_fatal ex = true ->
    snd (commit_loop uri_from_path path_parent n top_level es s) <> None.
Proof.
  intros n top_level es. induction es as [|g es IH]; intros s ex Hin Hf; [destruct Hin|].
  cbn [commit_loop]. destruct g as [e| |ex'].
  - destruct Hin as [Hin|Hin]; [discriminate|].
    destruct (commit_entry uri_from_path path_parent n top_level s e) as [a [r|]];
      cbn [snd]; [discriminate|]. exact (IH a ex Hin Hf).
  - destruct Hin as [Hin|Hin]; [discriminate|]. exact (IH s ex Hin Hf).
  - destruct Hin as [Hin|Hin].
    + injection Hin as ->. rewrite Hf. discriminate.
    + destruct (is_fatal ex'); [discriminate|]. exact (IH s ex Hin Hf).
Qed.

(** *** The library BuiltIn *)

(** At top level the turn of an entry for [BuiltIn] without alias, in a
    loop that returns, appends the information diagnostic. *)
Lemma commit_loop_builtin_reported :
  forall n es1 e es2 s,
    extends_runs n ->
    entry_class e = LibraryEntryC -> skipped_builtin true e = true ->
    snd (commit_loop uri_from_path path_parent n true (es1 ++ GEntry e :: es2) s) = None ->
    exists d,
      builtin_override_info uri_from_path e = Ok d /\
      In d (_diagnostics
              (fst (commit_loop uri_from_path path_parent n true (es1 ++ GEntry e :: es2) s))).
Proof.
  intros n es1 e es2 s Hn Hc Hs. rewrite commit_loop_app.
  destruct (commit_loop uri_from_path path_parent n true es1 s) as [a [ex|]];
    cbn [fst snd]; [discriminate|].
  cbn [commit_loop]. rewrite (commit_entry_builtin n a e Hc Hs).
  destruct (builtin_override_info uri_from_path e) as [d|ex]; cbn [append_built];
    [|discriminate].
  intros _. exists d. split; [reflexivity|].
  eapply extends_diagnostics; [apply commit_loop_extends; exact Hn|].
  fields. apply in_or_app. right. left. reflexivity.
Qed.


(** *** The order of the entries *)

Lemma extends_keys :
  forall a b,
    extends a b ->
    is_prefix (od_keys (_libraries a)) (od_keys (_libraries b)) /\
    is_prefix (od_keys (_resources a)) (od_keys (_resources b)) /\
    is_prefix (od_keys (_variables a)) (od_keys (_variables b)).
Proof.
  intros a b [_ [[l L] [[v V] [R _]]]]. unfold od_keys in *. rewrite L, V, !map_app.
  repeat split; [eexists; reflexivity|exact R|eexists; reflexivity].
Qed.

Lemma agree_keys :
  forall a a' b,
    agree a a' ->
    is_prefix (od_keys (_libraries a')) (od_keys (_libraries b)) /\
    is_prefix (od_keys (_resources a')) (od_keys (_resources b)) /\
    is_prefix (od_keys (_variables a')) (od_keys (_variables b)) ->
    is_prefix (od_keys (_libraries a)) (od_keys (_libraries b)) /\
    is_prefix (od_keys (_resources a)) (od_keys (_resources b)) /\
    is_prefix (od_keys (_variables a)) (od_keys (_variables b)).
Proof.
  intros a a' b H. destruct (agree_fields _ _ H) as [-> [-> [-> _]]]. auto.
Qed.

(** The entries of a list of imports come after the entries of the imports
    before them, whatever the order in which the tasks complete. *)
Lemma import_order_prefix :
  forall (co1 co2 : forall A : Type, list A -> list A) depth top_level pre post base s1 s2,
    agree s1 s2 ->
    let a := _import_imports uri_from_path path_parent imports_manager co1 (S depth) pre base
               top_level s1 in
    let b := _import_imports uri_from_path path_parent imports_manager co2 (S depth)
               (pre ++ post) base top_level s2 in
    is_prefix (od_keys (_libraries (fst a))) (od_keys (_libraries (fst b))) /\
    is_prefix (od_keys (_resources (fst a))) (od_keys (_resources (fst b))) /\
    is_prefix (od_keys (_variables (fst a))) (od_keys (_variables (fst b))).
Proof.
  intros co1 co2 depth top_level pre post base s1 s2 Ha a b. subst a b.
  cbn [_import_imports]. rewrite !map_app, commit_loop_app.
  rewrite (map_ext _ _ (fun v => _import_agree s1 s2 base top_level v Ha)).
  match goal with
  | |- context [fst (commit_loop _ _ ?n1 top_level ?es ?x)] =>
      match goal with
      | |- context [let '(_, _) := commit_loop _ _ ?n2 top_level es ?y in _] =>
          destruct (commit_loop_agree n1 n2 top_level es x y) as [A1 A2];
            [apply agree_runs_nested|apply agree_append; exact Ha|];
          destruct (commit_loop uri_from_path path_parent n1 top_level es x) as [sa ra];
          destruct (commit_loop uri_from_path path_parent n2 top_level es y) as [sb rb]
      end
  end.
  simpl in A1, A2. subst rb. cbn [fst].
  apply (agree_keys _ _ _ A1).
  destruct ra as [e|].
  - simpl. repeat split; apply is_prefix_refl.
  - apply extends_keys. apply commit_loop_extends. apply extends_runs_nested.
Qed.

Lemma committed_agree :
  forall e a b, agree a b -> committed e a -> committed e b.
Proof.
  intros e a b H. destruct (agree_fields _ _ H) as [L [R [V S]]].
  unfold committed. rewrite L, R, V, S. intros X. exact X.
Qed.


(** *** Resources imported more than once *)


End ImportLoop.

(** *** The import loop on a suite *)

Lemma in_order_rearranges : rearranges World.in_order.
Proof. intros A l. apply Permutation_refl. Qed.

Lemma reversed_rearranges : rearranges World.reversed.
Proof. intros A l. apply Permutation_sym, Permutation_rev. Qed.

(** The imports manager over a table of files names the documents of
    resources by the stem of their path. *)
Lemma manager_resource_doc :
  forall libs files cli n base doc,
    get_libdoc_for_resource_import (World.manager libs files cli) n base = Ok doc ->
    exists file, In file files /\ doc = World.resource_doc file.
Proof.
  intros libs files cli n base doc. cbn [World.manager get_libdoc_for_resource_import].
  unfold World.lookup_file.
  destruct (find (fun f => World.rf_path f =? World.resolve n base)%string files)
    as [file|] eqn:Hfind; cbn [bind]; [|discriminate].
  intros H. injection H as <-. exists file. split; [|reflexivity].
  apply find_some in Hfind. apply Hfind.
Qed.

Lemma manager_names_resources_by_source :
  forall libs files cli,
    Forall (fun file => World.file_stem (World.rf_path file) <> "") files ->
    names_resources_by_source (World.manager libs files cli) World.file_stem.
Proof.
  intros libs files cli Hall n base doc src Hdoc Hsrc.
  destruct (manager_resource_doc libs files cli n base doc Hdoc) as [file [Hin ->]].
  cbn in Hsrc. injection Hsrc as <-. split; [reflexivity|].
  rewrite Forall_forall in Hall. exact (Hall file Hin).
Qed.

Lemma manager_name_of_one_file :
  forall libs files cli src,
    Forall (fun file => World.file_stem (World.rf_path file) = World.file_stem src ->
                        World.rf_path file = src) files ->
    name_of_one_file (World.manager libs files cli) World.file_stem src.
Proof.
  intros libs files cli src Hall n base doc src' Hdoc Hsrc Hname.
  destruct (manager_resource_doc libs files cli n base doc Hdoc) as [file [Hin ->]].
  cbn in Hsrc. injection Hsrc as <-.
  rewrite Forall_forall in Hall. exact (Hall file Hin Hname).
Qed.

Lemma manager_names_default_libraries :
  forall libs files cli defaults base,
    names_default_libraries (World.manager libs files cli) defaults base.
Proof.
  intros libs files cli defaults base l doc _.
  cbn [World.manager get_libdoc_for_library_import].
  destruct (find (fun d => ld_name d =? l)%string libs) as [d|] eqn:Hfind; [|discriminate].
  intros H. injection H as <-. apply find_some in Hfind. destruct Hfind as [_ H].
  apply String.eqb_eq in H. exact H.
Qed.

Lemma two_files_named : names_resources_by_source Inputs.two_files_manager World.file_stem.
Proof.
  apply manager_names_resources_by_source.
  apply Forall_cons; [vm_compute; discriminate|].
  apply Forall_cons; [vm_compute; discriminate|apply Forall_nil].
Qed.

Lemma a_resource_alone :
  name_of_one_file Inputs.two_files_manager World.file_stem "/t/a.resource".
Proof.
  apply manager_name_of_one_file.
  apply Forall_cons; [intros _; reflexivity|].
  apply Forall_cons; [intros H; vm_compute in H; discriminate H|apply Forall_nil].
Qed.

Lemma failed_import_is_reported_witness :
  rearranges World.in_order /\
  raised (_import_try World.uri_from_path Inputs.suite_manager Inputs.with_defaults "/t" true
            Inputs.library_nope) = Some Inputs.nope_error /\
  is_fatal Inputs.nope_error = false /\
  (let full := Inputs.top World.in_order
                 [Inputs.resource_a; Inputs.library_nope; Inputs.library_myos] in
   _import World.uri_from_path Inputs.suite_manager Inputs.with_defaults "/t" true
     Inputs.library_nope
   = (GNone, [exception_diagnostic (Import_range Inputs.library_nope) Inputs.nope_error]) /\
   In (exception_diagnostic (Import_range Inputs.library_nope) Inputs.nope_error)
      (_diagnostics (fst full)) /\
   agree (fst full)
     (fst (Inputs.top World.reversed [Inputs.resource_a; Inputs.library_myos])) /\
   committed (Inputs.entry_of Inputs.library_myos) (fst full) /\
   committed (Inputs.entry_of Inputs.resource_a) (fst full)).
Proof.
  assert (H2 : raised (_import_try World.uri_from_path Inputs.suite_manager
                         Inputs.with_defaults "/t" true Inputs.library_nope)
               = Some Inputs.nope_error) by reflexivity.
  assert (H3 : is_fatal Inputs.nope_error = false) by reflexivity.
  pose proof (failed_import_is_reported World.uri_from_path World.path_parent
                Inputs.suite_manager World.in_order World.reversed 4 [Inputs.resource_a]
                Inputs.library_nope [Inputs.library_myos] "/t" Inputs.with_defaults
                Inputs.nope_error in_order_rearranges H2 H3) as W.
  cbv zeta in W. destruct W as [Htask [_ [_ [_ [_ [Hin [Hskip Hcommit]]]]]]].
  split; [exact in_order_rearranges|]. split; [exact H2|]. split; [exact H3|].
  cbv zeta. unfold Inputs.top. split; [exact Htask|]. split; [exact Hin|].
  split; [exact (proj1 (Hskip eq_refl))|].
  assert (Hok : snd (_import_imports World.uri_from_path World.path_parent
                       Inputs.suite_manager World.in_order 5
                       [Inputs.resource_a; Inputs.library_nope; Inputs.library_myos] "/t" true
                       Inputs.with_defaults) = None)
    by (vm_compute; reflexivity).
  split.
  - apply (Hcommit Hok Inputs.library_myos); [right; right; left; reflexivity|reflexivity].
  - apply (Hcommit Hok Inputs.resource_a); [left; reflexivity|reflexivity].
Defined.







(* ===================================================================== *)
(** ** Further properties *)
(* ===================================================================== *)

(** *** Positions and ranges *)

Ltac zcases :=
  repeat match goal with
  | H : context [Z.ltb ?a ?b] |- _ => destruct (Z.ltb_spec a b)
  | H : context [Z.leb ?a ?b] |- _ => destruct (Z.leb_spec a b)
  | H : context [Z.eqb ?a ?b] |- _ => destruct (Z.eqb_spec a b)
  | |- context [Z.ltb ?a ?b] => destruct (Z.ltb_spec a b)
  | |- context [Z.leb ?a ?b] => destruct (Z.leb_spec a b)
  | |- context [Z.eqb ?a ?b] => destruct (Z.eqb_spec a b)
  end; simpl in *; try discriminate; try reflexivity; try lia.

(** The four comparisons of positions are those of one total order, the
    lexicographic order on line and character: [<=] holds one way or the other,
    both ways only between equal positions, it is transitive, and [<], [>],
    [>=] are derived from it. *)
Theorem Position_order_total :
  forall a b c : Position,
    (Position__le__ a b = true \/ Position__le__ b a = true) /\
    (Position__le__ a b = true -> Position__le__ b a = true -> a = b) /\
    (Position__le__ a b = true -> Position__le__ b c = true -> Position__le__ a c = true) /\
    Position__ge__ a b = Position__le__ b a /\
    Position__gt__ a b = Position__lt__ b a /\
    Position__lt__ a b = negb (Position__le__ b a).
Proof.
  intros [la ca] [lb cb] [lc cc].
  unfold Position__le__, Position__ge__, Position__gt__, Position__lt__. simpl.
  split; [|split; [|split; [|split; [|split]]]].
  - destruct (Z.ltb_spec la lb); [left; reflexivity|].
    destruct (Z.ltb_spec lb la); [right; reflexivity|].
    assert (la = lb) by lia. subst. rewrite Z.eqb_refl.
    destruct (Z.leb_spec ca cb); [left; reflexivity|right]. apply Z.leb_le. lia.
  - intros H1 H2. zcases. f_equal; lia.
  - intros H1 H2. zcases.
  - rewrite (Z.eqb_sym la lb). reflexivity.
  - rewrite (Z.eqb_sym la lb). reflexivity.
  - zcases.
Qed.

(** A range is half open: a position is in it exactly when it is at or
    after the start and before the end; so the end is never in the range, the
    start is in it when the range is not empty, and no position is in a range
    whose end is not after its start. *)
Theorem is_in_range_half_open :
  forall (p : Position) (r : Range),
    (is_in_range p r = true <->
     Position__le__ (range_start r) p = true /\ Position__lt__ p (range_end r) = true) /\
    is_in_range (range_end r) r = false /\
    is_in_range (range_start r) r = Position__lt__ (range_start r) (range_end r) /\
    (Position__le__ (range_end r) (range_start r) = true -> is_in_range p r = false).
Proof.
  intros [lp cp] [[ls cs] [le ce]]. unfold is_in_range, Position__le__, Position__lt__. simpl.
  split; [split|split; [|split]].
  - intros H. apply andb_true_iff in H. apply H.
  - intros [H1 H2]. rewrite H1, H2. reflexivity.
  - rewrite Z.ltb_irrefl, Z.eqb_refl, Z.ltb_irrefl. apply andb_false_r.
  - rewrite Z.ltb_irrefl, Z.eqb_refl, Z.leb_refl. reflexivity.
  - intros H. zcases.
Qed.

(** Extending a range twice is extending it by the sums, and extending by
    nothing gives the range back. *)
Theorem Range_extend_composes :
  forall (r : Range) (a b c d a' b' c' d' : Z),
    Range_extend (Range_extend r a b c d) a' b' c' d'
    = Range_extend r (a + a') (b + b') (c + c') (d + d') /\
    Range_extend r 0 0 0 0 = r.
Proof.
  intros [[ls cs] [le ce]] a b c d a' b' c' d'. unfold Range_extend. simpl.
  split; (f_equal; f_equal; lia).
Qed.

(** *** Tokens, nodes and their ranges *)

(** [get_tokens_at_position] keeps exactly the tokens on the position's line
    that hold its character from their first column up to and including
    their end column: the end is included, as [range.end == position] is
    tested beside the half-open range. The order of the statement is kept. *)
Theorem get_tokens_at_position_includes_end :
  forall (tokens : list Token) (p : Position) (t : Token),
    (In t (get_tokens_at_position tokens p) <->
     In t tokens /\ line p = (lineno t - 1)%Z /\
     ((tok_col_offset t <= character p < tok_end_col_offset t)%Z
      \/ character p = tok_end_col_offset t)) /\
    (exists keep, get_tokens_at_position tokens p = filter keep tokens).
Proof.
  intros tokens [lp cp] [l c e v]. split; [|eexists; reflexivity].
  unfold get_tokens_at_position.
  rewrite filter_In. simpl.
  unfold is_in_range, Position_eqb, range_from_token, Position__le__, Position__lt__. simpl.
  split.
  - intros [Hin H]. split; [exact Hin|].
    apply orb_true_iff in H. destruct H as [H|H].
    + apply andb_true_iff in H. destruct H as [H1 H2]. zcases.
    + apply andb_true_iff in H. destruct H as [H1 H2].
      apply Z.eqb_eq in H1, H2. subst. split; [reflexivity|right; reflexivity].
  - intros [Hin [Hl H]]. split; [exact Hin|]. subst lp.
    destruct H as [H|H].
    + apply orb_true_iff. left. apply andb_true_iff. split; zcases.
    + subst cp. apply orb_true_iff. right. rewrite !Z.eqb_refl. reflexivity.
Qed.

(** The range of an import collected by [ImportVisitor] is the range
    [range_from_token_or_node] gives for its node and name token, whenever
    the node has a name token or an end line. (With neither, [Import.range]
    ends on line -2 and [range_from_node] on line -1.) *)
Theorem import_range_is_range_from_token_or_node :
  forall (src : string) (s : Statement) (n : ImportNode) (i : Import),
    import_of src s = Some (n, i) ->
    n_name_token n <> None \/ n_end_lineno n <> None ->
    Import_range i = range_from_token_or_node (Some n) (n_name_token n).
Proof.
  intros src s n i H Hn.
  destruct s as [m|m|m|m|]; simpl in H; try discriminate;
    injection H as <- <-;
    unfold Import_range, range_from_token_or_node, range_from_token, range_from_node,
      node_entity; simpl;
    (destruct (n_name_token m) as [t|]; [reflexivity|]);
    (destruct Hn as [Hn|Hn]; [contradiction|]);
    (destruct (n_end_lineno m); [reflexivity|contradiction]).
Qed.

Lemma import_range_is_range_from_token_or_node_witness :
  Import_range (ResourceImport (mkSourceEntity 3 0 3 20 "suite.robot") (Some "a.resource") None)
  = mkRange (mkPosition 2 0) (mkPosition 2 20).
Proof.
  refine (import_range_is_range_from_token_or_node "suite.robot"
            (StResourceImport
               (mkImportNode (Some "a.resource") None [] None 3 0 (Some 3%Z) (Some 20%Z)))
            (mkImportNode (Some "a.resource") None [] None 3 0 (Some 3%Z) (Some 20%Z))
            (ResourceImport (mkSourceEntity 3 0 3 20 "suite.robot") (Some "a.resource") None)
            eq_refl (or_intror _)).
  simpl. discriminate.
Defined.

(** The two whitespace helpers agree: the string of
    [whitespace_from_begin_of_token] is a prefix of the token's value, made
    of spaces and tabs only and followed by neither; and
    [whitespace_at_begin_of_token] is the width of that prefix with a tab
    counted twice, so between its length and twice its length. *)
Theorem whitespace_helpers_agree :
  forall t : Token,
    let ws := whitespace_from_begin_of_token t in
    (exists rest, value t = (ws ++ rest)%string /\ whitespace_from_begin rest = EmptyString) /\
    whitespace_from_begin ws = ws /\
    whitespace_at_begin ws = whitespace_at_begin_of_token t /\
    (Z.of_nat (String.length ws) <= whitespace_at_begin_of_token t
     <= 2 * Z.of_nat (String.length ws))%Z.
Proof.
  intros [l c e v]. unfold whitespace_from_begin_of_token, whitespace_at_begin_of_token.
  cbn [value]. cbv zeta.
  induction v as [|a v IH].
  - simpl. repeat split; try lia. exists EmptyString. split; reflexivity.
  - destruct IH as [[rest [E1 E2]] [I2 [I3 I4]]].
    cbn [whitespace_from_begin whitespace_at_begin].
    destruct (a =? " ")%char eqn:Ea; [|destruct (a =? tab_char)%char eqn:Eb].
    + cbn [orb]. repeat split.
      * exists rest. split; [simpl; f_equal; exact E1|exact E2].
      * cbn [whitespace_from_begin]. rewrite Ea. cbn [orb]. f_equal. exact I2.
      * cbn [whitespace_at_begin]. rewrite Ea. f_equal. exact I3.
      * cbn [String.length]. lia.
      * cbn [String.length]. lia.
    + cbn [orb]. repeat split.
      * exists rest. split; [simpl; f_equal; exact E1|exact E2].
      * cbn [whitespace_from_begin]. rewrite Ea, Eb. cbn [orb]. f_equal. exact I2.
      * cbn [whitespace_at_begin]. rewrite Ea, Eb. f_equal. exact I3.
      * cbn [String.length]. lia.
      * cbn [String.length]. lia.
    + cbn [orb]. repeat split; try (simpl; lia).
      exists (String a v). split; [reflexivity|].
      cbn [whitespace_from_begin]. rewrite Ea, Eb. reflexivity.
Qed.

(** *** Variables *)

Lemma VariableMatcher__init__name :
  forall n k, VariableMatcher__init__ n = Ok k -> vm_name k = n.
Proof.
  intros n k. unfold VariableMatcher__init__.
  destruct (Robot.search_base "$@&%" n); [|discriminate].
  intros H. injection H as <-. reflexivity.
Qed.

(** Comparing a matcher with a string is comparing it with the matcher of
    that string, in either direction, when the string has a base; when it has
    none, building the matcher raises [InvalidVariableError] and the
    comparison raises the [AttributeError] of [normalize(None)]. *)
Theorem VariableMatcher_eq_str_agrees :
  forall (self : VariableMatcher) (o : string),
    match VariableMatcher__init__ o with
    | Ok m =>
        VariableMatcher__eq__str self o = Ok (VariableMatcher__eq__ m self) /\
        VariableMatcher__eq__ self m = VariableMatcher__eq__ m self
    | Raise e =>
        e = InvalidVariableError o /\
        VariableMatcher__eq__str self o = Raise AttributeError_split
    end.
Proof.
  intros self o. unfold VariableMatcher__init__, VariableMatcher__eq__str.
  destruct (Robot.search_base "$@&%" o) as [base|]; [|split; reflexivity].
  unfold VariableMatcher__eq__. simpl. split; [reflexivity|apply String.eqb_sym].
Qed.

Lemma variable_state_plain :
  forall k, plain_key k = true ->
    Robot.variable_state 1 false (k ++ "}")%string = Some (k, EmptyString).
Proof.
  induction k as [|c k IH]; intros H; [reflexivity|].
  cbn [plain_key] in H. apply andb_true_iff in H. destruct H as [Hc Hk].
  apply negb_true_iff in Hc. apply orb_false_iff in Hc. destruct Hc as [Hc Hb].
  apply orb_false_iff in Hc. destruct Hc as [Ho Hcl].
  simpl. rewrite Ho, Hcl, Hb. simpl. rewrite (IH Hk). reflexivity.
Qed.

Lemma plain_key_matcher :
  forall k, plain_key k = true ->
    VariableMatcher__init__ ("${" ++ k ++ "}")
    = Ok (mkVariableMatcher ("${" ++ k ++ "}") k (Robot.normalize k "_")).
Proof.
  intros k H. unfold VariableMatcher__init__, Robot.search_base, Robot.search.
  change (Robot.find_start "$@&%" false None false ("${" ++ k ++ "}"))
    with (Some ("$"%char, (k ++ "}")%string)).
  cbv beta iota. rewrite (variable_state_plain k H). reflexivity.
Qed.

(** A command-line variable whose key has no brace and no backslash gets a
    valid name: the definition [${key}] is stored under a matcher whose base
    is the key itself, so the command-line variables never make
    [get_variables] raise. *)
Theorem command_line_variables_are_valid :
  forall (imports_manager : ImportsManager) (keys : list string),
    config_variables imports_manager = Some keys ->
    forallb plain_key keys = true ->
    map key_of (get_command_line_variables imports_manager)
    = map (fun k => Some (mkVariableMatcher ("${" ++ k ++ "}") k (Robot.normalize k "_"))) keys
    /\ all_valid (get_command_line_variables imports_manager) = true.
Proof.
  intros im keys Hc Hp. unfold get_command_line_variables, all_valid. rewrite Hc.
  clear Hc. induction keys as [|k keys IH]; [split; reflexivity|].
  cbn [forallb] in Hp. apply andb_true_iff in Hp. destruct Hp as [Hk Hp].
  destruct (IH Hp) as [I1 I2]. cbn [map forallb]. rewrite I1, I2.
  unfold key_of, valid_name, CommandLineVariableDefinition. cbn [var_name].
  rewrite (plain_key_matcher k Hk). split; reflexivity.
Qed.

Lemma command_line_variables_are_valid_witness :
  all_valid (get_command_line_variables Inputs.variables_manager) = true.
Proof.
  exact (proj2 (command_line_variables_are_valid Inputs.variables_manager ["name"]
                  eq_refl eq_refl)).
Defined.

Section VariableLookup.

Variable str_hash : string -> Z.

Lemma first_key_match_canonical :
  forall chain name m,
    VariableMatcher__init__ name = Ok m ->
    hash_agrees_on str_hash chain name = true ->
    first_key_match str_hash chain m = first_canonical_match chain name.
Proof.
  intros chain name m Hm. unfold first_key_match, first_canonical_match, hash_agrees_on.
  induction chain as [|v chain IH]; intros Hh; [reflexivity|].
  cbn [forallb] in Hh. apply andb_true_iff in Hh. destruct Hh as [Hv Hh].
  cbn [find]. rewrite (IH Hh).
  assert (E : match key_of v with
              | Some k => key_matches str_hash k m
              | None => false
              end
              = match var_name v with
                | Some n => canonically_equal n name
                | None => false
                end).
  { unfold key_of. destruct (var_name v) as [n|]; [|reflexivity].
    unfold canonically_equal in *. rewrite Hm in *.
    destruct (VariableMatcher__init__ n) as [k|e] eqn:Ek; [|reflexivity].
    unfold key_matches, VariableMatcher__hash__.
    destruct (VariableMatcher__eq__ k m); [|reflexivity].
    rewrite (VariableMatcher__init__name _ _ Ek), (VariableMatcher__init__name _ _ Hm).
    rewrite Hv. reflexivity. }
  rewrite E. reflexivity.
Qed.

Lemma merge_variables_first_invalid :
  forall chain d0,
    match first_invalid chain with
    | Some v =>
        exists n, var_name v = Some n /\
                  merge_variables str_hash chain d0 = Raise (InvalidVariableError n)
    | None => exists d, merge_variables str_hash chain d0 = Ok d
    end.
Proof.
  unfold first_invalid.
  induction chain as [|v chain IH]; intros d0; [eexists; reflexivity|].
  cbn [find merge_variables].
  destruct (valid_name v) eqn:Ev; cbn [negb]; unfold valid_name in Ev.
  - destruct (var_name v) as [n|]; [|apply IH].
    destruct (VariableMatcher__init__ n) as [k|e]; [|discriminate]. unfold bind.
    destruct (negb (md_mem str_hash d0 k)); apply IH.
  - destruct (var_name v) as [n|]; [|discriminate].
    exists n. split; [reflexivity|]. unfold VariableMatcher__init__ in *.
    destruct (Robot.search_base "$@&%" n); [discriminate|reflexivity].
Qed.

Variable uri_from_path : string -> Result string.
Variable path_parent : string -> string.
Variable DEFAULT_LIBRARIES : list string.
Variable imports_manager : ImportsManager.
Variable completion_order : forall A : Type, list A -> list A.
Variable BUILTIN_VARIABLES : list string.
Variable Node : Type.
Variable is_Keyword_or_TestCase : Node -> bool.
Variable BlockVariableVisitor_get : string -> Node -> option Position -> list VariableDefinition.

Let chain_of depth st nodes position :=
  let run :=
    ensure_initialized uri_from_path path_parent DEFAULT_LIBRARIES imports_manager
      completion_order depth st in
  let own := get_own_variables (fst run) in
  chained_variables imports_manager BUILTIN_VARIABLES Node is_Keyword_or_TestCase
    BlockVariableVisitor_get (fst own) (snd own) nodes position.

(** [find_variable] is first match wins where the hash of the names does
    not separate what canonical equality joins: when every definition of the
    chain whose name is canonically equal to the name asked for has the hash
    of that name (as it has when it is spelled the same), [find_variable]
    returns the first definition, in the order of the chain, whose name is
    canonically equal to the name asked for. *)
Theorem find_variable_is_first_match_when_hash_agrees :
  forall depth st name nodes position m,
    VariableMatcher__init__ name = Ok m ->
    snd (ensure_initialized uri_from_path path_parent DEFAULT_LIBRARIES imports_manager
           completion_order depth st) = None ->
    all_valid (chain_of depth st nodes position) = true ->
    hash_agrees_on str_hash (chain_of depth st nodes position) name = true ->
    snd (find_variable uri_from_path path_parent DEFAULT_LIBRARIES imports_manager
           completion_order BUILTIN_VARIABLES Node is_Keyword_or_TestCase
           BlockVariableVisitor_get str_hash depth st name nodes position)
    = Ok (first_canonical_match (chain_of depth st nodes position) name).
Proof.
  intros depth st name nodes position m Hm Hrun Hvalid Hh.
  rewrite (find_variable_first_key_match str_hash uri_from_path path_parent
             DEFAULT_LIBRARIES imports_manager completion_order BUILTIN_VARIABLES Node
             is_Keyword_or_TestCase BlockVariableVisitor_get depth st name nodes position
             m Hm Hrun Hvalid).
  f_equal. apply first_key_match_canonical; assumption.
Qed.

(** [get_variables] on an initialized namespace raises exactly when a
    definition of the chain has a name without a base, and then the error is
    [InvalidVariableError] for the first such name; the lookup is not
    answered from the definitions before it. *)
Theorem get_variables_raises_for_first_invalid_name :
  forall depth st nodes position,
    snd (ensure_initialized uri_from_path path_parent DEFAULT_LIBRARIES imports_manager
           completion_order depth st) = None ->
    let result :=
      snd (get_variables uri_from_path path_parent DEFAULT_LIBRARIES imports_manager
             completion_order BUILTIN_VARIABLES Node is_Keyword_or_TestCase
             BlockVariableVisitor_get str_hash depth st nodes position) in
    match first_invalid (chain_of depth st nodes position) with
    | Some v => exists n, var_name v = Some n /\ result = Raise (InvalidVariableError n)
    | None => exists d, result = Ok d
    end.
Proof.
  intros depth st nodes position Hrun result. subst result.
  unfold chain_of, get_variables.
  destruct (ensure_initialized uri_from_path path_parent DEFAULT_LIBRARIES imports_manager
              completion_order depth st) as [st1 raised].
  simpl in Hrun. subst raised. cbn [fst snd].
  destruct (get_own_variables st1) as [st2 own]. cbn [fst snd].
  apply merge_variables_first_invalid.
Qed.

End VariableLookup.

Lemma find_variable_is_first_match_when_hash_agrees_witness :
  snd (find_variable World.uri_from_path World.path_parent World.DEFAULT_LIBRARIES
         Inputs.variables_manager World.in_order World.BUILTIN_VARIABLES World.Node
         World.is_Keyword_or_TestCase World.BlockVariableVisitor_get World.fnv_hash 10
         Inputs.variables_namespace "${EMPTY}" None None)
  = Ok (Some (BuiltInVariableDefinition "${EMPTY}")).
Proof.
  pose proof (find_variable_is_first_match_when_hash_agrees World.fnv_hash
                World.uri_from_path World.path_parent World.DEFAULT_LIBRARIES
                Inputs.variables_manager World.in_order World.BUILTIN_VARIABLES World.Node
                World.is_Keyword_or_TestCase World.BlockVariableVisitor_get
                10 Inputs.variables_namespace "${EMPTY}" None None
                (mkVariableMatcher "${EMPTY}" "EMPTY" "empty") eq_refl) as W.
  match type of W with
  | ?A -> ?B -> ?C -> _ =>
      assert (HA : A) by (vm_compute; reflexivity);
      assert (HB : B) by (vm_compute; reflexivity);
      assert (HC : C) by (vm_compute; reflexivity);
      specialize (W HA HB HC)
  end.
  match type of W with
  | _ = Ok ?x =>
      replace x with (Some (BuiltInVariableDefinition "${EMPTY}")) in W
        by (vm_compute; reflexivity)
  end.
  exact W.
Defined.

Lemma get_variables_raises_for_first_invalid_name_witness :
  snd (get_variables World.uri_from_path World.path_parent World.DEFAULT_LIBRARIES
         Inputs.variables_manager World.in_order World.BUILTIN_VARIABLES World.Node
         World.is_Keyword_or_TestCase World.BlockVariableVisitor_get (fun _ => 0%Z) 10
         Inputs.unclosed_namespace None None)
  = Raise (InvalidVariableError "${B").
Proof.
  assert (Hi : snd (ensure_initialized World.uri_from_path World.path_parent
                      World.DEFAULT_LIBRARIES Inputs.variables_manager World.in_order 10
                      Inputs.unclosed_namespace) = None) by (vm_compute; reflexivity).
  generalize (get_variables_raises_for_first_invalid_name (fun _ => 0%Z)
                World.uri_from_path World.path_parent World.DEFAULT_LIBRARIES
                Inputs.variables_manager World.in_order World.BUILTIN_VARIABLES World.Node
                World.is_Keyword_or_TestCase World.BlockVariableVisitor_get
                10 Inputs.unclosed_namespace None None Hi).
  cbv zeta.
  match goal with
  | |- match ?x with _ => _ end -> _ =>
      replace x
        with (Some (mkVariableDefinition (mkSourceEntity 3 0 3 3 "/t/suite.robot")
                      (Some "${B") (Some (mkToken 3 0 3 "${B")) VARIABLE false false))
        by (vm_compute; reflexivity)
  end.
  intros [n [Hn Hr]]. injection Hn as <-. exact Hr.
Defined.

(** *** _analyze, once more *)

Lemma analyze_cancelled_before_append_witness :
  let aw := mkAnalyzeAwaits (Ok [Inputs.variable_not_found]) None (Some CancelledError)
              (Raise CancelledError) in
  snd (_analyze aw Inputs.analyzed_namespace) = Some CancelledError /\
  _diagnostics (fst (_analyze aw Inputs.analyzed_namespace)) = [] /\
  _analyzed (fst (_analyze aw Inputs.analyzed_namespace)) = false.
Proof.
  exact (analyze_cancelled_before_append
           (mkAnalyzeAwaits (Ok [Inputs.variable_not_found]) None (Some CancelledError)
              (Raise CancelledError))
           Inputs.analyzed_namespace CancelledError eq_refl eq_refl
           (or_intror (ex_intro _ [Inputs.variable_not_found] (conj eq_refl eq_refl)))).
Defined.

(** A pass of [_analyze] that is not cancelled marks the namespace as
    analyzed, also when it ends with another exception (the [finally]
    clause); no later pass runs then: it awaits nothing, raises nothing and
    leaves the namespace as it is. *)
Theorem analyze_is_not_retried_unless_cancelled :
  forall (aw aw' : AnalyzeAwaits) (st : Namespace),
    (forall e, snd (_analyze aw st) = Some e -> exc_class e <> CancelledErrorC) ->
    _analyzed (fst (_analyze aw st)) = true /\
    _analyze aw' (fst (_analyze aw st)) = (fst (_analyze aw st), None).
Proof.
  intros aw aw' st H.
  assert (E : _analyzed (fst (_analyze aw st)) = true).
  { revert H. unfold _analyze. destruct (_analyzed st) eqn:Ea; [intros _; exact Ea|].
    destruct (_analyze_try aw st) as [st1 [e|]]; cbn [fst snd]; intros H.
    - specialize (H e eq_refl). destruct (exc_class e); [contradiction| | |]; reflexivity.
    - reflexivity. }
  split; [exact E|]. unfold _analyze at 1. rewrite E. reflexivity.
Qed.

Lemma analyze_is_not_retried_unless_cancelled_witness :
  let aw := mkAnalyzeAwaits (Raise AssertionError) None None (Raise CancelledError) in
  let aw' := Inputs.not_cancelled [Inputs.variable_not_found]
               (World.resource_doc (World.mkResourceFile "/t/suite.robot" [] [])) in
  snd (_analyze aw Inputs.analyzed_namespace) = Some AssertionError /\
  _analyze aw' (fst (_analyze aw Inputs.analyzed_namespace))
  = (fst (_analyze aw Inputs.analyzed_namespace), None).
Proof.
  split; [reflexivity|].
  refine (proj2 (analyze_is_not_retried_unless_cancelled
                   (mkAnalyzeAwaits (Raise AssertionError) None None (Raise CancelledError))
                   _ Inputs.analyzed_namespace _)).
  intros e H. injection H as <-. discriminate.
Defined.

Section Initialization.

Variable uri_from_path : string -> Result string.
Variable path_parent : string -> string.
Variable imports_manager : ImportsManager.
Variable DEFAULT_LIBRARIES : list string.

Lemma frame_append : forall ds s, frame (append_diagnostics ds s) = frame s.
Proof. reflexivity. Qed.

Lemma frame_set_libraries : forall v s, frame (set_libraries v s) = frame s.
Proof. reflexivity. Qed.

Lemma frame_set_resources : forall v s, frame (set_resources v s) = frame s.
Proof. reflexivity. Qed.

Lemma frame_set_variables : forall v s, frame (set_variables v s) = frame s.
Proof. reflexivity. Qed.

Lemma commit_entry_frame :
  forall n top_level s e,
    (forall imps base x, frame (fst (n imps base x)) = frame x) ->
    frame (fst (commit_entry uri_from_path path_parent n top_level s e)) = frame s.
Proof.
  intros n top_level s e Hn.
  apply (commit_entry_steps uri_from_path path_parent (fun a b => frame b = frame a)
           (fun _ => True) n top_level); try exact I; try reflexivity.
  - intros a b c H1 H2. rewrite H2. exact H1.
  - exact Hn.
Qed.

Lemma commit_loop_frame :
  forall n top_level es s,
    (forall imps base x, frame (fst (n imps base x)) = frame x) ->
    frame (fst (commit_loop uri_from_path path_parent n top_level es s)) = frame s.
Proof.
  intros n top_level es s Hn.
  apply (commit_loop_steps uri_from_path path_parent (fun a b => frame b = frame a)
           (fun _ => True) n top_level); try reflexivity.
  - intros a b c H1 H2. rewrite H2. exact H1.
  - intros x e _. apply commit_entry_frame. exact Hn.
Qed.

Lemma _import_imports_frame :
  forall (co : forall A : Type, list A -> list A) depth top_level imps base s,
    frame (fst (_import_imports uri_from_path path_parent imports_manager co depth imps base
                  top_level s)) = frame s.
Proof.
  intros co. induction depth as [|d IH]; intros top_level imps base s; [reflexivity|].
  cbn [_import_imports]. rewrite commit_loop_frame; [reflexivity|].
  intros i b x. apply IH.
Qed.

Lemma _import_default_libraries_frame :
  forall (co : forall A : Type, list A -> list A) s,
    frame (fst (_import_default_libraries path_parent DEFAULT_LIBRARIES imports_manager co s))
    = frame s.
Proof.
  intros co s. unfold _import_default_libraries.
  destruct (until_raise _) as [ds [e|]]; [reflexivity|]. cbn [fst].
  generalize (append_diagnostics ds s), (frame_append ds s).
  generalize (map (_import_lib path_parent imports_manager s) DEFAULT_LIBRARIES).
  intros tasks. induction tasks as [|t tasks IH]; intros x Hx; [exact Hx|].
  cbn [fold_left]. apply IH.
  destruct (fst t) as [[e|]|e]; exact Hx.
Qed.

(** The import loop and the import of the default libraries write the three
    maps and the diagnostics and nothing else of the namespace: not the
    model, the source, the document, the flags, the held imports, own
    variables and keywords, the search order or the finder, and the
    invalidation callback is not called. *)
Theorem imports_write_only_maps_and_diagnostics :
  forall (co : forall A : Type, list A -> list A) depth top_level imps base s,
    frame (fst (_import_imports uri_from_path path_parent imports_manager co depth imps base
                  top_level s)) = frame s /\
    frame (fst (_import_default_libraries path_parent DEFAULT_LIBRARIES imports_manager co s))
    = frame s.
Proof.
  intros. split; [apply _import_imports_frame|apply _import_default_libraries_frame].
Qed.

(** What the import loop does to the maps it writes: diagnostics,
    libraries and variables are only appended to (nothing is removed or
    replaced), and the keys of the resources that were there keep their
    places at the front. *)
Theorem import_loop_only_appends :
  forall (co : forall A : Type, list A -> list A) depth top_level imps base s,
    let s' := fst (_import_imports uri_from_path path_parent imports_manager co depth imps
                     base top_level s) in
    (exists out, _diagnostics s' = _diagnostics s ++ out) /\
    (exists l, _libraries s' = _libraries s ++ l) /\
    (exists l, _variables s' = _variables s ++ l) /\
    (exists l, od_keys (_resources s') = od_keys (_resources s) ++ l).
Proof.
  intros co depth top_level imps base s s'.
  destruct (_import_imports_extends uri_from_path path_parent imports_manager co depth
              top_level imps base s) as [D [L [V [R _]]]].
  repeat split; assumption.
Qed.

Lemma append_built_raises :
  forall d s e, snd (append_built d s) = Some e -> d = Raise e.
Proof. intros [d|ex] s e; cbn; [discriminate|]. intros H. injection H as <-. reflexivity. Qed.

Lemma related_to_raises :
  forall first e,
    related_to uri_from_path first = Raise e -> uri_from_path (import_source first) = Raise e.
Proof.
  intros first e. unfold related_to.
  destruct (uri_from_path (import_source first)); cbn [bind]; [discriminate|].
  intros H. injection H as <-. reflexivity.
Qed.

Lemma report_already_imported_raises :
  forall top_level found info s e,
    (forall first, info first = Raise e -> uri_from_path (import_source first) = Raise e) ->
    snd (report_already_imported top_level found info s) = Some e ->
    top_level = true /\ exists first, uri_from_path (import_source first) = Raise e.
Proof.
  intros top_level [|first rest] info s e Hinfo; cbn [report_already_imported snd];
    [discriminate|].
  destruct top_level; cbn [andb]; [|discriminate].
  destruct (truthy (ld_source (library_doc first))); cbn [snd]; [|discriminate].
  intros H. apply append_built_raises in H. split; [reflexivity|].
  exists first. apply Hinfo. exact H.
Qed.

Lemma info_raises :
  forall (msg : string) (r : Range) first e,
    (rel <- related_to uri_from_path first ;; Ok (information r msg rel)) = Raise e ->
    uri_from_path (import_source first) = Raise e.
Proof.
  intros msg r first e H. apply related_to_raises.
  destruct (related_to uri_from_path first); cbn [bind] in H; [discriminate|].
  injection H as <-. reflexivity.
Qed.

Lemma commit_entry_raises :
  forall n top_level s entry e,
    snd (commit_entry uri_from_path path_parent n top_level s entry) = Some e ->
    is_fatal e = true \/ e = AssertionError \/
    (top_level = true /\ exists first, uri_from_path (import_source first) = Raise e).
Proof.
  intros n top_level s entry e. unfold commit_entry.
  destruct (entry_class entry).
  - destruct (top_level && (name entry =? BUILTIN_LIBRARY_NAME)
              && match alias entry with None => true | Some _ => false end) eqn:Hb.
    + intros H. apply append_built_raises in H. right. right. split.
      * destruct top_level; [reflexivity|discriminate].
      * exists entry. exact (info_raises _ _ _ _ H).
    + pose proof (report_already_imported_raises top_level
                    (filter (same_import entry) (od_values (_libraries s)))
                    (library_already_imported_info uri_from_path entry) s e
                    (fun first => info_raises _ _ first e)) as Hr.
      destruct (report_already_imported top_level _ _ s) as [st1 [ex|]]; cbn [snd] in *.
      * intros H. injection H as ->. right. right. apply Hr. reflexivity.
      * destruct (od_mem (_libraries st1) (entry_key entry)); discriminate.
  - destruct (ld_source (library_doc entry)) as [src|];
      [|intros H; injection H as <-; right; left; reflexivity].
    match goal with
    | |- context [if ?c then _ else _] => destruct c
    end.
    + destruct (n (imports entry) (path_parent src) _) as [s2 [ex|]]; [|discriminate].
      destruct (is_fatal ex) eqn:Ef.
      * intros H. injection H as <-. left. exact Ef.
      * destruct top_level; discriminate.
    + destruct top_level; [|discriminate].
      destruct (src =? ns_source s); [discriminate|].
      destruct (filter _ _) as [|first ?]; [discriminate|].
      destruct (truthy (ld_source (library_doc first))); [|discriminate].
      intros H. apply append_built_raises in H. right. right. split; [reflexivity|].
      exists first. exact (info_raises _ _ _ _ H).
  - pose proof (report_already_imported_raises top_level
                  (filter (same_import entry) (od_values (_variables s)))
                  (variables_already_imported_info uri_from_path entry) s e
                  (fun first => info_raises _ _ first e)) as Hr.
    destruct (report_already_imported top_level _ _ s) as [st1 [ex|]]; cbn [snd] in *.
    + intros H. injection H as ->. right. right. apply Hr. reflexivity.
    + destruct (od_mem (_variables st1) (entry_key entry)); discriminate.
Qed.

Lemma commit_loop_raises :
  forall n top_level es s e,
    snd (commit_loop uri_from_path path_parent n top_level es s) = Some e ->
    is_fatal e = true \/ e = AssertionError \/
    (top_level = true /\ exists first, uri_from_path (import_source first) = Raise e).
Proof.
  intros n top_level es. induction es as [|g es IH]; intros s e; [discriminate|].
  cbn [commit_loop]. destruct g as [entry| |ex].
  - pose proof (commit_entry_raises n top_level s entry) as H.
    destruct (commit_entry uri_from_path path_parent n top_level s entry) as [a [r|]];
      cbn [snd] in *.
    + intros E. injection E as <-. apply H. reflexivity.
    + apply IH.
  - apply IH.
  - destruct (is_fatal ex) eqn:Ef; [|apply IH].
    intros E. injection E as <-. left. exact Ef.
Qed.


(** A resource that is already in the map, or that is the file itself, is
    not expanded again: its own imports are not visited, whatever they are,
    and libraries and variables stay as they are. This is what ends the loop
    on resources that import each other. (At top level the entry itself may
    still be stored and reported.) The turn raises only at top level, when
    [Uri.from_path] raises for the import source of the entry of the file
    that is found first; when [Uri.from_path] returns for it, nothing is
    raised. *)
Theorem known_resource_is_not_expanded_again :
  forall n1 n2 top_level s entry src,
    entry_class entry = ResourceEntryC ->
    ld_source (library_doc entry) = Some src ->
    src = ns_source s \/ from_source src (_resources s) <> [] ->
    let r := commit_entry uri_from_path path_parent n1 top_level s entry in
    r = commit_entry uri_from_path path_parent n2 top_level s entry /\
    (forall e, snd r = Some e ->
       top_level = true /\
       exists first rest,
         from_source src (_resources s) = first :: rest /\
         uri_from_path (import_source first) = Raise e) /\
    ((forall first rest,
         from_source src (_resources s) = first :: rest ->
         exists u, uri_from_path (import_source first) = Ok u) ->
     snd r = None) /\
    _libraries (fst r) = _libraries s /\ _variables (fst r) = _variables s.
Proof.
  intros n1 n2 top_level s entry src Hc Hs Hk r. subst r. unfold commit_entry.
  rewrite Hc, Hs. fold (from_source src (_resources s)).
  assert (E : is_nil (from_source src (_resources s)) && negb (src =? ns_source s) = false).
  { destruct Hk as [Hk|Hk].
    - subst src. rewrite String.eqb_refl. apply andb_false_r.
    - destruct (from_source src (_resources s)); [contradiction|reflexivity]. }
  rewrite E.
  destruct top_level;
    [|split; [reflexivity|]; split; [discriminate|]; split; [reflexivity|split; reflexivity]].
  destruct (src =? ns_source s);
    [split; [reflexivity|]; split; [discriminate|]; split; [reflexivity|split; reflexivity]|].
  destruct (from_source src (_resources s)) as [|first rest] eqn:Ef;
    [split; [reflexivity|]; split; [discriminate|]; split; [reflexivity|split; reflexivity]|].
  destruct (truthy (ld_source (library_doc first)));
    [|split; [reflexivity|]; split; [discriminate|]; split; [reflexivity|split; reflexivity]].
  split; [reflexivity|].
  unfold resource_already_imported_info, related_to.
  destruct (uri_from_path (import_source first)) as [u|ex] eqn:Hu; cbn [bind append_built].
  - split; [discriminate|]. split; [reflexivity|split; reflexivity].
  - split; [|split; [|split; reflexivity]].
    + intros e H. cbn [snd] in H. injection H as <-. split; [reflexivity|].
      exists first, rest. split; [reflexivity|exact Hu].
    + intros H. destruct (H first rest eq_refl) as [u Hu']. rewrite Hu in Hu'.
      discriminate Hu'.
Qed.

Lemma frame_fields :
  forall a b, frame a = frame b ->
    model a = model b /\ ns_source a = ns_source b /\ document a = document b /\
    _initialized a = _initialized b /\ _imports a = _imports b.
Proof.
  intros a b H. repeat split.
  - exact (f_equal model H).
  - exact (f_equal ns_source H).
  - exact (f_equal document H).
  - exact (f_equal _initialized H).
  - exact (f_equal _imports H).
Qed.

Lemma imports_eqb_refl : forall l, imports_eqb l l = true.
Proof.
  intros l. unfold imports_eqb. destruct (list_eq_dec Import_eq_dec l l); congruence.
Qed.

(** What [ensure_initialized] does when the document holds the imports of
    the file and a snapshot. *)
Lemma ensure_initialized_restore :
  forall (co : forall A : Type, list A -> list A) depth s doc entry,
    _initialized s = false ->
    _imports s = None ->
    document s = Some doc ->
    data_Namespace doc = Some (file_imports s) ->
    data_DataEntry doc = Some entry ->
    ensure_initialized uri_from_path path_parent DEFAULT_LIBRARIES imports_manager co depth s
    = (set_initialized true
         (set_diagnostics (de_diagnostics entry)
            (set_variables (de_variables entry)
               (set_resources (de_resources entry)
                  (set_libraries (de_libraries entry)
                     (set_imports (Some (file_imports s)) s))))), None).
Proof.
  intros co depth s doc entry Hi Him Hd Hn He.
  unfold ensure_initialized, get_imports. rewrite Hi, Him.
  cbn [document set_imports]. rewrite Hd, Hn.
  fold (file_imports s). rewrite imports_eqb_refl. cbn [negb]. rewrite He. reflexivity.
Qed.

(** The document after an initialization that went through, from a state
    whose stored imports, if any, are those of the file: it holds the
    imports of the file and a snapshot with the maps and diagnostics of the
    namespace. *)
Lemma ensure_initialized_document :
  forall (co : forall A : Type, list A -> list A) depth st,
    _initialized st = false ->
    _imports st = None ->
    stored_imports_current st ->
    let r := ensure_initialized uri_from_path path_parent DEFAULT_LIBRARIES imports_manager
               co depth st in
    snd r = None ->
    model (fst r) = model st /\ ns_source (fst r) = ns_source st /\
    exists doc entry,
      document (fst r) = Some doc /\
      data_Namespace doc = Some (file_imports st) /\
      data_DataEntry doc = Some entry /\
      entry = snapshot (fst r).
Proof.
  intros co depth st Hi Him Hcur r. subst r.
  unfold ensure_initialized, get_imports. rewrite Hi, Him.
  unfold stored_imports_current in Hcur.
  cbn [document set_imports].
  destruct (document st) as [doc|] eqn:Hd; [|contradiction].
  fold (file_imports st).
  set (st1 := set_imports (Some (file_imports st)) st).
  assert (finish : forall s0 : Namespace,
            model s0 = model st -> ns_source s0 = ns_source st ->
            (exists d0, document s0 = Some d0 /\ data_Namespace d0 = Some (file_imports st)) ->
            let r :=
              (let '(st2, raised) :=
                 _import_default_libraries path_parent DEFAULT_LIBRARIES imports_manager co s0 in
               match raised with
               | Some e => (st2, Some e)
               | None =>
                   let '(st3, raised0) :=
                     _import_imports uri_from_path path_parent imports_manager co depth
                       (file_imports st) (path_parent (ns_source st2)) true st2 in
                   match raised0 with
                   | Some e => (st3, Some e)
                   | None =>
                       (set_initialized true
                          match document st3 with
                          | Some doc0 =>
                              set_document
                                (Some (mkTextDocument (data_Namespace doc0)
                                         (Some (snapshot st3)))) st3
                          | None => st3
                          end, None)
                   end
               end) in
            snd r = None ->
            model (fst r) = model st /\ ns_source (fst r) = ns_source st /\
            exists doc0 entry,
              document (fst r) = Some doc0 /\
              data_Namespace doc0 = Some (file_imports st) /\
              data_DataEntry doc0 = Some entry /\
              entry = snapshot (fst r)).
  { intros s0 Hm Hs [d0 [Hd0 Hn0]].
    pose proof (frame_fields _ _ (_import_default_libraries_frame co s0)) as Fd.
    destruct (_import_default_libraries path_parent DEFAULT_LIBRARIES imports_manager co s0)
      as [s2 [e|]]; cbn [fst snd] in *; [discriminate|].
    pose proof (frame_fields _ _
                  (_import_imports_frame co depth true (file_imports st)
                     (path_parent (ns_source s2)) s2)) as Fi.
    destruct (_import_imports uri_from_path path_parent imports_manager co depth
                (file_imports st) (path_parent (ns_source s2)) true s2)
      as [s3 [e|]]; cbn [fst snd] in *; [discriminate|].
    destruct Fd as [Fd1 [Fd2 [Fd3 _]]]. destruct Fi as [Fi1 [Fi2 [Fi3 _]]].
    intros _. rewrite Fi3, Fd3, Hd0.
    split; [cbn; congruence|]. split; [cbn; congruence|].
    eexists; eexists. split; [reflexivity|]. split; [exact Hn0|].
    split; reflexivity. }
  destruct (data_Namespace doc) as [old|] eqn:Hn.
  - subst old. rewrite imports_eqb_refl. cbn [negb].
    destruct (data_DataEntry doc) as [entry|] eqn:He.
    + intros _. split; [reflexivity|]. split; [reflexivity|].
      exists doc, entry. cbn. rewrite Hd. repeat split; try assumption.
      destruct entry; reflexivity.
    + apply (finish st1); [reflexivity|reflexivity|].
      exists doc. split; [exact Hd|exact Hn].
  - apply (finish (set_document
                     (Some (mkTextDocument (Some (file_imports st)) (data_DataEntry doc)))
                     st1)); [reflexivity|reflexivity|].
    eexists. split; reflexivity.
Qed.

Lemma ensure_initialized_flag :
  forall (co : forall A : Type, list A -> list A) depth st,
    let r := ensure_initialized uri_from_path path_parent DEFAULT_LIBRARIES imports_manager
               co depth st in
    _initialized (fst r) = match snd r with None => true | Some _ => false end.
Proof.
  intros co depth st r. subst r. unfold ensure_initialized.
  destruct (_initialized st) eqn:Hi; [exact Hi|].
  assert (Hg : _initialized (fst (get_imports st)) = false).
  { unfold get_imports. destruct (_imports st); exact Hi. }
  destruct (get_imports st) as [st1 imports]. cbn [fst] in Hg.
  assert (E : forall s0 de,
            _initialized s0 = false ->
            let r :=
              match de with
              | Some entry =>
                  (set_initialized true
                     (set_diagnostics (de_diagnostics entry)
                        (set_variables (de_variables entry)
                           (set_resources (de_resources entry)
                              (set_libraries (de_libraries entry) s0)))), None)
              | None =>
                  let '(st2, raised) :=
                    _import_default_libraries path_parent DEFAULT_LIBRARIES imports_manager
                      co s0 in
                  match raised with
                  | Some e => (st2, Some e)
                  | None =>
                      let '(st3, raised0) :=
                        _import_imports uri_from_path path_parent imports_manager co depth
                          imports (path_parent (ns_source st2)) true st2 in
                      match raised0 with
                      | Some e => (st3, Some e)
                      | None =>
                          (set_initialized true
                             match document st3 with
                             | Some doc0 =>
                                 set_document
                                   (Some (mkTextDocument (data_Namespace doc0)
                                            (Some (snapshot st3)))) st3
                             | None => st3
                             end, None)
                      end
                  end
              end in
            _initialized (fst r) = match snd r with None => true | Some _ => false end).
  { intros s0 de H0. destruct de as [entry|]; [reflexivity|].
    pose proof (frame_fields _ _ (_import_default_libraries_frame co s0)) as Fd.
    destruct (_import_default_libraries path_parent DEFAULT_LIBRARIES imports_manager co s0)
      as [s2 [e|]]; cbn [fst snd] in *; [destruct Fd as [_ [_ [_ [F _]]]]; congruence|].
    pose proof (frame_fields _ _
                  (_import_imports_frame co depth true imports
                     (path_parent (ns_source s2)) s2)) as Fi.
    destruct (_import_imports uri_from_path path_parent imports_manager co depth
                imports (path_parent (ns_source s2)) true s2)
      as [s3 [e|]]; cbn [fst snd] in *.
    - destruct Fd as [_ [_ [_ [F _]]]]. destruct Fi as [_ [_ [_ [G _]]]]. congruence.
    - destruct (document s3); reflexivity. }
  destruct (document st1) as [doc|]; [|exact (E st1 None Hg)].
  destruct (data_Namespace doc) as [old|].
  - destruct (negb (imports_eqb old imports)).
    + apply (E _ None). exact Hg.
    + apply (E st1 (data_DataEntry doc)). exact Hg.
  - apply (E _ None). exact Hg.
Qed.

(** [ensure_initialized] runs once: when it went through, the namespace is
    initialized and every later call returns at once, whatever the imports
    manager would answer by then; when it raised, the namespace is not
    initialized and the next call tries again. *)
Theorem ensure_initialized_runs_once :
  forall (co co' : forall A : Type, list A -> list A) depth depth' st
         (later : ImportsManager),
    let r := ensure_initialized uri_from_path path_parent DEFAULT_LIBRARIES imports_manager
               co depth st in
    match snd r with
    | None =>
        _initialized (fst r) = true /\
        ensure_initialized uri_from_path path_parent DEFAULT_LIBRARIES later co' depth'
          (fst r) = (fst r, None)
    | Some _ => _initialized (fst r) = false
    end.
Proof.
  intros co co' depth depth' st later r.
  pose proof (ensure_initialized_flag co depth st) as H. fold r in H. cbv zeta in H.
  destruct (snd r); [exact H|]. split; [exact H|].
  unfold ensure_initialized at 1. rewrite H. reflexivity.
Qed.


(** When the document holds the imports of the file and a snapshot, the
    initialization restores the snapshot and asks the imports manager
    nothing: the outcome is the same for every imports manager, every order
    of completion and every recursion allowance, and no exception is raised. *)
Theorem snapshot_is_restored_without_imports_manager :
  forall (co co' : forall A : Type, list A -> list A) depth depth' s doc entry
         (other : ImportsManager),
    _initialized s = false ->
    _imports s = None ->
    document s = Some doc ->
    data_Namespace doc = Some (file_imports s) ->
    data_DataEntry doc = Some entry ->
    let r := ensure_initialized uri_from_path path_parent DEFAULT_LIBRARIES imports_manager
               co depth s in
    r = ensure_initialized uri_from_path path_parent DEFAULT_LIBRARIES other co' depth' s /\
    snd r = None /\
    snapshot (fst r) = entry.
Proof.
  intros co co' depth depth' s doc entry other Hi Him Hd Hn He r. subst r.
  rewrite (ensure_initialized_restore co depth s doc entry Hi Him Hd Hn He).
  split.
  - unfold ensure_initialized, get_imports. rewrite Hi, Him.
    cbn [document set_imports]. rewrite Hd, Hn.
    fold (file_imports s). rewrite imports_eqb_refl. cbn [negb]. rewrite He. reflexivity.
  - split; [reflexivity|]. destruct entry; reflexivity.
Qed.

Lemma holds_source_of_nil :
  forall changed, holds_source_of [] changed = false.
Proof.
  intros changed. unfold holds_source_of. induction changed as [|p ps IH]; [reflexivity|].
  cbn [existsb od_values map]. exact IH.
Qed.

Lemma notification_ignored :
  forall (resources variables : list LibraryDoc) (st : Namespace),
    resources_changed resources (invalidate st) = invalidate st /\
    variables_changed variables (resources_changed resources (invalidate st))
    = invalidate st.
Proof.
  intros resources variables st.
  assert (E : resources_changed resources (invalidate st) = invalidate st).
  { unfold resources_changed. cbn [invalidate reset_caches call_invalidated_callback
      _resources]. rewrite holds_source_of_nil. reflexivity. }
  split; [exact E|]. rewrite E.
  unfold variables_changed. cbn [invalidate reset_caches call_invalidated_callback
    _variables]. rewrite holds_source_of_nil. reflexivity.
Qed.

(** A namespace that has been invalidated ignores the change notifications:
    its maps are empty, so no resource or variables file is held, the
    callback is not called again and the snapshot in the document stays. *)
Theorem notification_after_invalidate_is_ignored :
  forall (resources variables : list LibraryDoc) (st : Namespace),
    resources_changed resources (invalidate st) = invalidate st /\
    variables_changed variables (invalidate st) = invalidate st /\
    document (invalidate st) = document st.
Proof.
  intros resources variables st.
  unfold resources_changed, variables_changed. cbn [invalidate reset_caches
    call_invalidated_callback _resources _variables].
  rewrite !holds_source_of_nil. repeat split.
Qed.

(** Initialize, invalidate, initialize: when the model is the same, the
    second initialization brings back the maps and the diagnostics of the
    first from the snapshot in the document, whatever the imports manager
    would answer by then, and also when change notifications arrive between
    the invalidation and the second initialization. *)
Theorem initialize_invalidate_initialize :
  forall (co co' : forall A : Type, list A -> list A) depth depth' st
         (later : ImportsManager) (resources variables : list LibraryDoc),
    _initialized st = false ->
    _imports st = None ->
    stored_imports_current st ->
    let first := ensure_initialized uri_from_path path_parent DEFAULT_LIBRARIES
                   imports_manager co depth st in
    snd first = None ->
    let second := ensure_initialized uri_from_path path_parent DEFAULT_LIBRARIES later co'
                    depth'
                    (variables_changed variables
                       (resources_changed resources (invalidate (fst first)))) in
    snd second = None /\
    _libraries (fst second) = _libraries (fst first) /\
    _resources (fst second) = _resources (fst first) /\
    _variables (fst second) = _variables (fst first) /\
    _diagnostics (fst second) = _diagnostics (fst first).
Proof.
  intros co co' depth depth' st later resources variables Hi Him Hcur first Hok second.
  destruct (ensure_initialized_document co depth st Hi Him Hcur Hok)
    as [Hm [Hs [doc [entry [Hd [Hn [He Hsnap]]]]]]].
  fold first in Hm, Hs, Hd, Hsnap.
  subst second.
  rewrite (proj2 (notification_ignored resources variables (fst first))).
  assert (Hf : file_imports (invalidate (fst first)) = file_imports st).
  { unfold file_imports. cbn. rewrite Hm, Hs. reflexivity. }
  unfold ensure_initialized, get_imports.
  cbn [invalidate reset_caches call_invalidated_callback _initialized _imports document
       set_imports model ns_source].
  rewrite Hd, Hn. fold (file_imports (fst first)).
  assert (Hf' : file_imports (fst first) = file_imports st).
  { unfold file_imports. rewrite Hm, Hs. reflexivity. }
  rewrite Hf', imports_eqb_refl. cbn [negb]. rewrite He. subst entry.
  repeat split.
Qed.

(** A notification that names the source of a resource or variables file
    the namespace holds drops the snapshot of the document and invalidates
    the namespace: the callback is called once, however many of the changed
    files are held, the next initialization finds no snapshot, and the same
    notification sent again does nothing. A notification that names no held
    file leaves the namespace as it is. *)
Theorem change_notification_invalidates_once :
  forall (changed : list LibraryDoc) (st : Namespace),
    (if holds_source_of (_resources st) changed
     then invalidated_calls (resources_changed changed st) = S (invalidated_calls st) /\
          _initialized (resources_changed changed st) = false /\
          no_snapshot (resources_changed changed st) /\
          resources_changed changed (resources_changed changed st)
          = resources_changed changed st
     else resources_changed changed st = st) /\
    (if holds_source_of (_variables st) changed
     then invalidated_calls (variables_changed changed st) = S (invalidated_calls st) /\
          _initialized (variables_changed changed st) = false /\
          no_snapshot (variables_changed changed st) /\
          variables_changed changed (variables_changed changed st)
          = variables_changed changed st
     else variables_changed changed st = st).
Proof.
  intros changed st. unfold resources_changed, variables_changed. split.
  - destruct (holds_source_of (_resources st) changed); [|reflexivity].
    cbn [invalidate reset_caches call_invalidated_callback _resources].
    rewrite holds_source_of_nil.
    unfold no_snapshot, drop_snapshot.
    destruct (document st) eqn:Hd; repeat split; cbn; rewrite Hd; exact I.
  - destruct (holds_source_of (_variables st) changed); [|reflexivity].
    cbn [invalidate reset_caches call_invalidated_callback _variables].
    rewrite holds_source_of_nil.
    unfold no_snapshot, drop_snapshot.
    destruct (document st) eqn:Hd; repeat split; cbn; rewrite Hd; exact I.
Qed.

Lemma import_in_In : forall e l, import_in e l = true <-> In e l.
Proof.
  intros e l. unfold import_in. rewrite existsb_exists. split.
  - intros [x [Hx He]]. unfold Import_eqb in He.
    destruct (Import_eq_dec e x); [subst; exact Hx|discriminate].
  - intros H. exists e. split; [exact H|]. unfold Import_eqb.
    destruct (Import_eq_dec e e); congruence.
Qed.

Lemma merge_fold_members :
  forall imps acc e,
    In e (fold_left (fun acc e => if import_in e acc then acc else acc ++ [e]) imps acc)
    <-> In e acc \/ In e imps.
Proof.
  induction imps as [|i imps IH]; intros acc e; cbn [fold_left].
  - split; [left; assumption|intros [H|[]]; exact H].
  - rewrite IH. destruct (import_in i acc) eqn:Ei.
    + apply import_in_In in Ei. split.
      * intros [H|H]; [left; exact H|right; right; exact H].
      * intros [H|[H|H]]; [left; exact H|subst; left; exact Ei|right; exact H].
    + rewrite in_app_iff. cbn [In]. tauto.
Qed.

Lemma merge_fold_prefix :
  forall imps acc,
    exists added,
      fold_left (fun acc e => if import_in e acc then acc else acc ++ [e]) imps acc
      = acc ++ added.
Proof.
  induction imps as [|i imps IH]; intros acc; cbn [fold_left].
  - exists []. rewrite app_nil_r. reflexivity.
  - destruct (import_in i acc).
    + apply IH.
    + destruct (IH (acc ++ [i])) as [added H]. exists (i :: added).
      rewrite H, <- app_assoc. reflexivity.
Qed.

Lemma merge_fold_same :
  forall imps acc,
    (forall e, In e imps -> In e acc) ->
    fold_left (fun acc e => if import_in e acc then acc else acc ++ [e]) imps acc = acc.
Proof.
  induction imps as [|i imps IH]; intros acc H; cbn [fold_left]; [reflexivity|].
  destruct (import_in i acc) eqn:Ei.
  - apply IH. intros e He. apply H. right. exact He.
  - assert (Hi : In i acc) by (apply H; left; reflexivity).
    apply import_in_In in Hi. congruence.
Qed.

(** The list of imports stored in the document when the imports have
    changed has the members of the new imports, with the old imports that
    are still there first, in their old order. So when the imports were only
    reordered or some were removed, the stored list is the old order, not
    the list of the file. *)
Theorem merged_imports_keeps_stored_order :
  forall (old imports : list Import),
    (forall e, In e (merged_imports old imports) <-> In e imports) /\
    (exists added,
       merged_imports old imports = filter (fun e => import_in e imports) old ++ added) /\
    ((forall e, In e imports -> In e old) ->
     merged_imports old imports = filter (fun e => import_in e imports) old).
Proof.
  intros old imports. unfold merged_imports. split; [|split].
  - intros e. rewrite merge_fold_members, filter_In, import_in_In. tauto.
  - apply merge_fold_prefix.
  - intros H. apply merge_fold_same. intros e He.
    apply filter_In. split; [apply H; exact He|apply import_in_In; exact He].
Qed.

End Initialization.

Lemma known_resource_is_not_expanded_again_witness :
  let nested depth :=
    fun imps base x =>
      _import_imports World.uri_from_path World.path_parent Inputs.suite_manager
        World.in_order depth imps base false x in
  let st := fst (Inputs.top World.in_order [Inputs.resource_a]) in
  commit_entry World.uri_from_path World.path_parent (nested 4%nat) true st
    (Inputs.entry_of Inputs.resource_a_again)
  = commit_entry World.uri_from_path World.path_parent (nested 0%nat) true st
      (Inputs.entry_of Inputs.resource_a_again).
Proof.
  refine (proj1 (known_resource_is_not_expanded_again World.uri_from_path World.path_parent
                   _ _ true (fst (Inputs.top World.in_order [Inputs.resource_a]))
                   (Inputs.entry_of Inputs.resource_a_again) "/t/a.resource"
                   eq_refl eq_refl (or_intror _))).
  vm_compute. discriminate.
Defined.

(** In a file opened under a relative path the turn of the second import
    of a resource raises what [Uri.from_path] raises for the import source of
    the first, and the import loop with it. *)
Lemma known_resource_turn_raises_for_relative_source :
  snd (_import_imports World.uri_from_path World.path_parent Inputs.suite_manager
         World.in_order 5 [Inputs.resource_from_relative 2; Inputs.resource_from_relative 6]
         "/t" true (Namespace__init__ [] "suite.robot" None))
  = Some Inputs.relative_path_error.
Proof. vm_compute. reflexivity. Qed.


Lemma snapshot_is_restored_without_imports_manager_witness :
  ensure_initialized World.uri_from_path World.path_parent World.DEFAULT_LIBRARIES
    Inputs.suite_manager World.in_order 5 Inputs.with_snapshot
  = ensure_initialized World.uri_from_path World.path_parent World.DEFAULT_LIBRARIES
      Inputs.cancelling_manager World.reversed 0 Inputs.with_snapshot.
Proof.
  exact (proj1 (snapshot_is_restored_without_imports_manager World.uri_from_path
                  World.path_parent Inputs.suite_manager World.DEFAULT_LIBRARIES
                  World.in_order World.reversed 5 0 Inputs.with_snapshot
                  _ _ Inputs.cancelling_manager eq_refl eq_refl eq_refl eq_refl eq_refl)).
Defined.

Lemma initialize_invalidate_initialize_witness :
  let first :=
    ensure_initialized World.uri_from_path World.path_parent World.DEFAULT_LIBRARIES
      Inputs.suite_manager World.in_order 5 Inputs.with_document in
  let second :=
    ensure_initialized World.uri_from_path World.path_parent World.DEFAULT_LIBRARIES
      Inputs.cancelling_manager World.in_order 5
      (variables_changed []
         (resources_changed [World.resource_doc (World.mkResourceFile "/t/a.resource" [] [])]
            (invalidate (fst first)))) in
  snd second = None /\ _resources (fst second) = _resources (fst first).
Proof.
  assert (H : snd (ensure_initialized World.uri_from_path World.path_parent
                     World.DEFAULT_LIBRARIES Inputs.suite_manager World.in_order 5
                     Inputs.with_document) = None) by (vm_compute; reflexivity).
  pose proof (initialize_invalidate_initialize World.uri_from_path World.path_parent
                Inputs.suite_manager World.DEFAULT_LIBRARIES World.in_order World.in_order
                5 5 Inputs.with_document Inputs.cancelling_manager
                [World.resource_doc (World.mkResourceFile "/t/a.resource" [] [])] []
                eq_refl eq_refl I H) as [H1 [_ [H3 _]]].
  split; [exact H1|exact H3].
Defined.

Lemma merged_imports_keeps_stored_order_witness :
  merged_imports [Inputs.resource_a; Inputs.library_myos]
    [Inputs.library_myos; Inputs.resource_a]
  = [Inputs.resource_a; Inputs.library_myos].
Proof.
  refine (proj2 (proj2 (merged_imports_keeps_stored_order
                          [Inputs.resource_a; Inputs.library_myos]
                          [Inputs.library_myos; Inputs.resource_a])) _).
  intros e [H|[H|[]]]; [right; left|left]; exact H.
Defined.

(** *** KeywordFinder, once more *)

Lemma stdlib_conflict_returns_custom_witness :
  snd (_get_keyword_from_libraries "Copy File" Inputs.conflict_finder)
  = Found (Some (World.keyword "MyOs" "Copy File")).
Proof.
  pose (found := matches_in (od_values (_libraries (namespace Inputs.conflict_finder)))
                   "Copy File").
  pose (m1 := hd (Inputs.entry_of Inputs.library_myos, World.keyword "" "") found).
  pose (m2 := hd m1 (tl found)).
  assert (Hm : found = [m1; m2]) by (vm_compute; reflexivity).
  assert (Ho : _get_keyword_based_on_search_order
                 (search_order (namespace Inputs.conflict_finder)) [m1; m2] = [m1; m2])
    by reflexivity.
  assert (Hx : in_stdlibs (name (fst m1)) = negb (in_stdlibs (name (fst m2))))
    by (vm_compute; reflexivity).
  rewrite (stdlib_conflict_returns_custom "Copy File" Inputs.conflict_finder m1 m2 Hm Ho Hx).
  vm_compute. reflexivity.
Defined.

(** A keyword that [find_keyword] returned is returned again from the
    cache of the finder: the later call gives the same keyword and leaves the
    same diagnostics, it awaits nothing and does not look at the namespace,
    whatever the namespace holds by then. *)
Theorem found_keyword_is_memoized :
  forall depth depth' (aw aw' : Result LibraryDoc) (called : NameArg) (s : FinderState)
         (kw : KeywordDoc) (later : Namespace),
    let first := KeywordFinder_find_keyword depth aw called s in
    snd first = Ok (Some kw) ->
    let again :=
      KeywordFinder_find_keyword depth' aw' called (mkFinderState later (finder (fst first))) in
    snd again = Ok (Some kw) /\
    diagnostics (finder (fst again)) = diagnostics (finder (fst first)) /\
    _cache (finder (fst again)) = _cache (finder (fst first)) /\
    namespace (fst again) = later.
Proof.
  intros depth depth' aw aw' called s kw later first Hfirst again.
  assert (Hh : called <> Unhashable).
  { intros ->. subst first. discriminate Hfirst. }
  assert (Hget : forall c,
             match called with
             | Unhashable => Raise (TypeError "unhashable type")
             | _ => Ok (cache_get c called)
             end = Ok (cache_get c called)).
  { intros c. destruct called; try reflexivity. contradiction. }
  assert (E : exists v, cache_get (_cache (finder (fst first))) called = Some v /\
                        fst v = Some kw /\ snd v = diagnostics (finder (fst first))).
  { subst first. revert Hfirst. unfold KeywordFinder_find_keyword.
    cbn [namespace finder _cache self_library_doc]. rewrite Hget.
    destruct (cache_get (_cache (finder s)) called) as [cached|] eqn:Ec.
    - cbn [fst snd finder _cache diagnostics]. intros H. injection H as H.
      exists cached. repeat split; assumption.
    - destruct (_find_keyword depth aw called _) as [s1 [[k|]| |e]];
        cbn [fst snd finder _cache diagnostics]; try discriminate.
      intros H. injection H as ->. eexists. rewrite cache_get_set. repeat split. }
  destruct E as [v [E1 [E2 E3]]]. clearbody first.
  subst again. unfold KeywordFinder_find_keyword.
  cbn [namespace finder _cache self_library_doc].
  rewrite Hget, E1. cbn [fst snd finder _cache diagnostics namespace]. rewrite E2, E3.
  repeat split.
Qed.

Lemma found_keyword_is_memoized_witness :
  let first :=
    KeywordFinder_find_keyword 5 (Ok (Inputs.suite_doc [])) (StrName "Log In")
      Inputs.resource_finder in
  let again :=
    KeywordFinder_find_keyword 0 (Raise CancelledError) (StrName "Log In")
      (mkFinderState Inputs.bdd_namespace (finder (fst first))) in
  snd again = Ok (Some (World.keyword "a" "Log In")).
Proof.
  assert (H : snd (KeywordFinder_find_keyword 5 (Ok (Inputs.suite_doc [])) (StrName "Log In")
                     Inputs.resource_finder) = Ok (Some (World.keyword "a" "Log In")))
    by (vm_compute; reflexivity).
  exact (proj1 (found_keyword_is_memoized 5 0 (Ok (Inputs.suite_doc []))
                  (Raise CancelledError) (StrName "Log In") Inputs.resource_finder
                  (World.keyword "a" "Log In") Inputs.bdd_namespace H)).
Defined.

(** [_get_keyword_based_on_search_order] either leaves the matches as they
    are, when no library of the search order owns one of them, or keeps one
    match, whose owner is named in the search order. *)
Theorem search_order_selects_a_named_owner :
  forall (order : list string) (entries : list Match),
    let kept := _get_keyword_based_on_search_order order entries in
    (kept = entries /\
     forall l e, In l order -> In e entries -> Robot.eq l (owner_name (fst e)) = false)
    \/
    (exists l e, kept = [e] /\ In l order /\ In e entries /\
                 Robot.eq l (owner_name (fst e)) = true).
Proof.
  intros order entries. cbv zeta.
  induction order as [|libname order IH]; cbn [_get_keyword_based_on_search_order].
  - left. split; [reflexivity|]. intros l e [].
  - destruct (filter (fun e => Robot.eq libname (owner_name (fst e))) entries)
      as [|e rest] eqn:Ef.
    + destruct IH as [[Hk Hn]|[l [e [Hk [Hl [He Hq]]]]]].
      * left. split; [exact Hk|]. intros l e [<-|Hl] He; [|exact (Hn l e Hl He)].
        destruct (Robot.eq libname (owner_name (fst e))) eqn:Eq; [|reflexivity].
        assert (Hin : In e (filter (fun e => Robot.eq libname (owner_name (fst e))) entries))
          by (apply filter_In; split; assumption).
        rewrite Ef in Hin. destruct Hin.
      * right. exists l, e. repeat split; try assumption. right. exact Hl.
    + right. exists libname, e.
      assert (Hin : In e (filter (fun e => Robot.eq libname (owner_name (fst e))) entries))
        by (rewrite Ef; left; reflexivity).
      apply filter_In in Hin. destruct Hin as [Hin Hq].
      repeat split; try assumption. left. reflexivity.
Qed.

(** A keyword that exactly one resource declares is taken from that
    resource without a diagnostic, whatever the libraries hold: the libraries
    are not looked at. *)
Theorem resource_keyword_wins_over_libraries :
  forall (called : string) (s : FinderState) (m : Match),
    matches_in (od_values (_resources (namespace s))) called = [m] ->
    _get_implicit_keyword called s = (s, Found (Some (snd m))).
Proof.
  intros called s m H. unfold _get_implicit_keyword, _get_keyword_from_resource_files.
  rewrite H. reflexivity.
Qed.

Lemma resource_keyword_wins_over_libraries_witness :
  _get_implicit_keyword "Log In" Inputs.resource_finder
  = (Inputs.resource_finder, Found (Some (World.keyword "a" "Log In"))).
Proof.
  assert (H : matches_in (od_values (_resources (namespace Inputs.resource_finder))) "Log In"
              = [(Inputs.entry_of Inputs.resource_a, World.keyword "a" "Log In")])
    by (vm_compute; reflexivity).
  exact (resource_keyword_wins_over_libraries "Log In" Inputs.resource_finder _ H).
Defined.

Lemma split_on_cons :
  forall c s, exists t ts, split_on c s = t :: ts.
Proof.
  intros c s. destruct s as [|c' s']; cbn [split_on]; [eexists; eexists; reflexivity|].
  destruct (c =? c')%char; [eexists; eexists; reflexivity|].
  destruct (split_on c s'); eexists; eexists; reflexivity.
Qed.

Lemma join_split_on :
  forall c s, join (String c EmptyString) (split_on c s) = s.
Proof.
  intros c s. unfold join. induction s as [|c' s' IH]; [reflexivity|].
  cbn [split_on]. destruct (split_on_cons c s') as [t [ts E]]. rewrite E in *.
  destruct (Ascii.eqb_spec c c') as [<-|Hne].
  - change (String.concat (String c EmptyString) (EmptyString :: t :: ts))
      with (String c (String.concat (String c EmptyString) (t :: ts))).
    rewrite IH. reflexivity.
  - destruct ts as [|t' ts].
    + cbn [String.concat] in *. rewrite IH. reflexivity.
    + change (String.concat (String c EmptyString) (String c' t :: t' :: ts))
        with (String c' (String.concat (String c EmptyString) (t :: t' :: ts))).
      rewrite IH. reflexivity.
Qed.

Lemma length_split_on :
  forall c s, length (split_on c s) = S (count_char c s).
Proof.
  intros c s. induction s as [|c' s' IH]; [reflexivity|].
  cbn [split_on count_char]. destruct (c =? c')%char.
  - cbn [length]. rewrite IH. reflexivity.
  - destruct (split_on_cons c s') as [t [ts E]]. rewrite E in *. exact IH.
Qed.

Lemma string_append_assoc :
  forall a b c : string, ((a ++ b) ++ c = a ++ (b ++ c))%string.
Proof.
  induction a as [|x a IH]; intros b c; [reflexivity|].
  cbn [String.append]. rewrite IH. reflexivity.
Qed.

Lemma string_concat_app :
  forall sep (l1 l2 : list string),
    l1 <> [] -> l2 <> [] ->
    String.concat sep (l1 ++ l2)
    = (String.concat sep l1 ++ sep ++ String.concat sep l2)%string.
Proof.
  intros sep l1 l2 H1 H2. induction l1 as [|x l1 IH]; [contradiction|].
  destruct l1 as [|y l1].
  - cbn [app String.concat]. destruct l2; [contradiction|reflexivity].
  - change ((x :: y :: l1) ++ l2) with (x :: (y :: l1) ++ l2).
    cbn [String.concat]. cbn [app]. cbn [app] in IH.
    rewrite IH by discriminate.
    cbn [String.concat]. rewrite !string_append_assoc. reflexivity.
Qed.

(** The splits of a dotted name tried by the explicit step: there is one
    for each dot of the name, and each owner and keyword name put together
    with a dot give the name back. *)
Theorem owner_and_keyword_names_give_the_name_back :
  forall (full_name : string),
    length (_yield_owner_and_kw_names full_name) = count_char "." full_name /\
    forall owner kw,
      In (owner, kw) (_yield_owner_and_kw_names full_name) ->
      (owner ++ "." ++ kw)%string = full_name.
Proof.
  intros full_name. unfold _yield_owner_and_kw_names. split.
  - rewrite length_map, length_seq, length_split_on. apply Nat.sub_0_r.
  - intros owner kw H. apply in_map_iff in H. destruct H as [i [E Hi]].
    injection E as <- <-. apply in_seq in Hi.
    unfold join. rewrite <- string_concat_app.
    + rewrite firstn_skipn. apply join_split_on.
    + intros H0. apply (f_equal (@length string)) in H0.
      rewrite length_firstn in H0. cbn [length] in H0. lia.
    + intros H0. apply (f_equal (@length string)) in H0.
      rewrite length_skipn in H0. cbn [length] in H0. lia.
Qed.

(** *** get_diagnostisc *)

Lemma _analyze_initialized :
  forall aw st, _initialized (fst (_analyze aw st)) = _initialized st.
Proof.
  intros aw st. unfold _analyze. destruct (_analyzed st); [reflexivity|].
  unfold _analyze_try, get_library_doc.
  destruct (_library_doc st) eqn:El, (analyzer_library_doc aw), (analyzer_get aw),
    (check_canceled aw), (get_libdoc_from_model aw);
    cbn; try rewrite El; reflexivity.
Qed.

Lemma _analyze_done :
  forall aw st, snd (_analyze aw st) = None -> _analyzed (fst (_analyze aw st)) = true.
Proof.
  intros aw st. unfold _analyze. destruct (_analyzed st) eqn:Ea; [intros _; exact Ea|].
  destruct (_analyze_try aw st) as [s1 [e|]]; [discriminate|reflexivity].
Qed.

(** Once [get_diagnostisc] has returned a list, every later call returns
    the same list and leaves the namespace as it is: nothing is imported or
    analyzed again, whatever the imports manager and the analyzer would
    answer by then. *)
Theorem get_diagnostisc_is_stable :
  forall uri_from_path path_parent DEFAULT_LIBRARIES
         (imports_manager later : ImportsManager)
         (co co' : forall A : Type, list A -> list A) depth depth'
         (aw aw' : AnalyzeAwaits) (st : Namespace) (ds : list Diagnostic),
    let first := get_diagnostisc uri_from_path path_parent DEFAULT_LIBRARIES imports_manager
                   co depth aw st in
    snd first = Ok ds ->
    get_diagnostisc uri_from_path path_parent DEFAULT_LIBRARIES later co' depth' aw'
      (fst first) = (fst first, Ok ds).
Proof.
  intros uri_from_path path_parent DEFAULT_LIBRARIES imports_manager later co co'
    depth depth' aw aw' st ds first Hfirst.
  assert (E : _initialized (fst first) = true /\ _analyzed (fst first) = true /\
              _diagnostics (fst first) = ds).
  { subst first. revert Hfirst. unfold get_diagnostisc.
    pose proof (ensure_initialized_flag uri_from_path path_parent imports_manager
                  DEFAULT_LIBRARIES co depth st) as Hi. cbv zeta in Hi.
    destruct (ensure_initialized uri_from_path path_parent DEFAULT_LIBRARIES imports_manager
                co depth st) as [s1 [e|]]; cbn [fst snd] in *; [discriminate|].
    pose proof (_analyze_initialized aw s1) as Ha.
    pose proof (_analyze_done aw s1) as Hd.
    destruct (_analyze aw s1) as [s2 [e|]]; cbn [fst snd] in *; [discriminate|].
    intros H. injection H as H. repeat split; [congruence|auto|exact H]. }
  destruct E as [E1 [E2 E3]]. clearbody first.
  unfold get_diagnostisc, ensure_initialized. rewrite E1.
  unfold _analyze. rewrite E2. rewrite E3. reflexivity.
Qed.

Lemma get_diagnostisc_is_stable_witness :
  let first :=
    get_diagnostisc World.uri_from_path World.path_parent World.DEFAULT_LIBRARIES
      Inputs.variables_manager World.in_order 10
      (Inputs.not_cancelled [Inputs.variable_not_found]
         (World.resource_doc (World.mkResourceFile "/t/suite.robot" [] [])))
      Inputs.analyzed_namespace in
  get_diagnostisc World.uri_from_path World.path_parent World.DEFAULT_LIBRARIES
    Inputs.cancelling_manager World.reversed 0
    (Inputs.cancelled_at_libdoc []) (fst first)
  = (fst first, Ok [Inputs.variable_not_found]).
Proof.
  exact (get_diagnostisc_is_stable World.uri_from_path World.path_parent
           World.DEFAULT_LIBRARIES Inputs.variables_manager Inputs.cancelling_manager
           World.in_order World.reversed 10 0
           (Inputs.not_cancelled [Inputs.variable_not_found]
              (World.resource_doc (World.mkResourceFile "/t/suite.robot" [] [])))
           (Inputs.cancelled_at_libdoc []) Inputs.analyzed_namespace
           [Inputs.variable_not_found] eq_refl).
Defined.

Lemma Position_order_total_witness :
  Position__le__ (mkPosition 2 7) (mkPosition 3 0) = true /\
  Position__lt__ (mkPosition 2 7) (mkPosition 3 0)
  = negb (Position__le__ (mkPosition 3 0) (mkPosition 2 7)).
Proof.
  split.
  - exact (proj1 (proj2 (proj2 (Position_order_total (mkPosition 2 7) (mkPosition 2 9)
                                   (mkPosition 3 0)))) eq_refl eq_refl).
  - exact (proj2 (proj2 (proj2 (proj2 (proj2
             (Position_order_total (mkPosition 2 7) (mkPosition 3 0) (mkPosition 3 0))))))).
Defined.

Lemma is_in_range_half_open_witness :
  is_in_range (mkPosition 2 7) (mkRange (mkPosition 2 7) (mkPosition 2 7)) = false.
Proof.
  exact (proj2 (proj2 (proj2 (is_in_range_half_open (mkPosition 2 7)
                                (mkRange (mkPosition 2 7) (mkPosition 2 7))))) eq_refl).
Defined.
